(** * Exchange-rate service: rate resolution, cache and service pipeline

    A shallow embedding of the Go sources of the exchange-rate service

      - [internal/domain/model]         currencies and records,
      - [internal/adapter/repository]   the provider client and its
                                        quote-table extractor,
      - [internal/adapter/cache]        the in-memory TTL cache,
      - [internal/service]              the resolution service,

    together with the fragment of Go's [time], [fmt] and [errors] packages
    these sources rely on.

    Conventions.
      - [float64] is Rocq's primitive binary64 float, so [1/0] really is
        [+Inf] and [0/0] really is [NaN].
      - [map[string]T] is [gmap string T].
      - A [time.Time] is the instant it denotes, as nanoseconds since the
        Unix epoch, read in UTC (every formatted date in the service is
        either parsed from ["2006-01-02"], which yields UTC, or passed
        through [.UTC()]).  Instants are unbounded: the monotonic clock
        reading and the overflow of [time.Time]'s second counter, some
        292 billion years away, are not modelled.
      - A (pointer, error) result pair is a sum [result T]; a nil pointer
        paired with a nil error never occurs in the adapters and is not
        modelled.
      - An [ExchangeRate] is never written to after it is built, so a
        pointer to one is modelled by the record itself.
      - Logging and metrics have no influence on results and are elided.
      - The service is written against the [ports] interfaces; it is
        embedded as a program over the interface calls ([Prog]) and can be
        run against any implementation of them.  The adapters are embedded
        as state transformers over a [World]. *)

From Stdlib Require Import ZArith Floats Lia Bool Ascii String.
From stdpp Require Import gmap strings list fin_maps.

Local Open Scope Z_scope.

(* ===================================================================== *)
(** * Part I: the model                                                   *)
(* ===================================================================== *)

(** ** Go's [time] package (the fragment used) *)

Module GoTime.

(** Instants and durations, both in nanoseconds. *)
Definition Time := Z.
Definition Duration := Z.

Definition Nanosecond : Duration := 1.
Definition Second : Duration := 1000000000.
Definition Minute : Duration := 60 * Second.
Definition Hour : Duration := 60 * Minute.
Definition Day : Duration := 24 * Hour.

(** [Duration] is an [int64]. *)
Definition minDuration : Duration := - 2 ^ 63.
Definition maxDuration : Duration := 2 ^ 63 - 1.

(** [time.Time{}]: January 1, year 1, 00:00:00 UTC. *)
Definition zeroTime : Time := -62135596800 * Second.

Definition IsZero (t : Time) : bool := t =? zeroTime.
Definition Before (t u : Time) : bool := t <? u.
Definition After (t u : Time) : bool := u <? t.
Definition Add (t : Time) (d : Duration) : Time := t + d.

(** [t.Sub(u)]: the difference, saturated to the range of [Duration]. *)
Definition Sub (t u : Time) : Duration :=
  let d := t - u in
  if (minDuration <=? d) && (d <=? maxDuration) then d
  else if Before t u then minDuration
  else maxDuration.

(** [t.Truncate(d)]: round down to a multiple of [d] since the zero
    time; [d <= 0] leaves [t] unchanged. *)
Definition Truncate (t : Time) (d : Duration) : Time :=
  if d <=? 0 then t else Add t (- ((t - zeroTime) mod d)).

(** *** The proleptic Gregorian calendar *)

(** Days since the Unix epoch of the day containing [t]. *)
Definition unixDays (t : Time) : Z := t / Day.
(** Nanoseconds elapsed since midnight. *)
Definition clockNanos (t : Time) : Z := t mod Day.

(** The calendar is handled in years that start on March 1, so that the
    leap day is the last day of the year.  [marchDays mp] is the number
    of days before the [mp]-th month counted from March. *)
Definition marchDays (mp : Z) : Z := (153 * mp + 2) / 5.

(** Position in a 400-year cycle (146097 days, starting 0000-03-01):
    year of the cycle, month counted from March, day of the month. *)
Definition cyclePos (doe : Z) : Z * Z * Z :=
  let yoe := (doe - doe / 1460 + doe / 36524 - doe / 146096) / 365 in
  let doy := doe - (365 * yoe + yoe / 4 - yoe / 100) in
  let mp := (5 * doy + 2) / 153 in
  (yoe, mp, doy - marchDays mp + 1).

Definition cycleShift : Z := 719468.
Definition cycleDays : Z := 146097.

(** (year, month, day) of a day number. *)
Definition civilOfDays (z : Z) : Z * Z * Z :=
  let n := z + cycleShift in
  let '(yoe, mp, d) := cyclePos (n mod cycleDays) in
  let m := if mp <? 10 then mp + 3 else mp - 9 in
  let y := yoe + 400 * (n / cycleDays) in
  (if m <=? 2 then y + 1 else y, m, d).

(** Day number of (year, month, day); [day] may lie outside the month,
    as in [time.Date], and then carries over linearly.  [month] is
    expected in 1..12. *)
Definition daysOfCivil (year month day : Z) : Z :=
  let y := if month <=? 2 then year - 1 else year in
  let mp := if month <=? 2 then month + 9 else month - 3 in
  365 * y + y / 4 - y / 100 + y / 400 + marchDays mp + (day - 1)
  - cycleShift.

(** [t.Date()] *)
Definition Date (t : Time) : Z * Z * Z := civilOfDays (unixDays t).

(** [time.Date(year, month, day, 0, 0, 0, nanos, time.UTC)] with the
    time of day given in nanoseconds: months outside 1..12 carry into
    the year, days and nanoseconds carry linearly. *)
Definition mkDate (year month day nanos : Z) : Time :=
  let m := month - 1 in
  daysOfCivil (year + m / 12) (m mod 12 + 1) day * Day + nanos.

(** [t.AddDate(years, months, days)] *)
Definition AddDate (t : Time) (years months days : Z) : Time :=
  let '(y, m, d) := Date t in
  mkDate (y + years) (m + months) (d + days) (clockNanos t).

(** *** Formatting with layout ["2006-01-02"] *)

Definition digitChar (d : Z) : ascii :=
  ascii_of_nat (48 + Z.to_nat d).

(** Decimal digits of [u >= 0], most significant first; [fuel] bounds
    the number of digits. *)
Fixpoint utod (fuel : nat) (u : Z) (acc : string) : string :=
  match fuel with
  | O => acc
  | S fuel' =>
      let acc' := String (digitChar (u mod 10)) acc in
      if u / 10 =? 0 then acc' else utod fuel' (u / 10) acc'
  end.

Fixpoint zeros (n : nat) (s : string) : string :=
  match n with
  | O => s
  | S n' => String "0" (zeros n' s)
  end.

Definition zeroPad (width : nat) (s : string) : string :=
  zeros (width - String.length s)%nat s.

(** [appendInt(b, x, width)] of [time/format.go]: sign, then the digits
    zero-padded to [width]. *)
Definition appendInt (x : Z) (width : nat) : string :=
  let u := Z.abs x in
  let ds := zeroPad width (utod (S (Z.to_nat (Z.log2 u))) u "") in
  if x <? 0 then String "-" ds else ds.

(** [t.Format("2006-01-02")] *)
Definition Format (t : Time) : string :=
  let '(y, m, d) := Date t in
  appendInt y 4 +:+ "-" +:+ appendInt m 2 +:+ "-" +:+ appendInt d 2.

End GoTime.

(** ** Go's [error] values *)

(** The six package-level sentinels of [internal/service], and the three
    shapes of [fmt.Errorf] the sources use.  An error keeps the errors it
    was formatted from instead of their rendered text. *)
Inductive error : Type :=
| ErrInvalidCurrency
| ErrDateOutOfRange
| ErrInvalidDateRange
| ErrRateNotFound
| ErrExternalAPIFailure
| ErrInvalidAmount
| Errorf (msg : string)                       (* no wrapped error *)
| ErrorfW (msg : string) (wrapped : error)    (* "msg: %w" *)
| ErrorfWV (wrapped : error) (detail : error) (* "%w: %v" *).

#[global] Instance error_eq_dec : EqDecision error.
Proof. solve_decision. Defined.

(** [errors.Is(err, target)] for a sentinel [target]: follow the [%w]
    chain; a [%v] operand is text and is not followed. *)
Fixpoint errors_Is (err target : error) : bool :=
  bool_decide (err = target) ||
  match err with
  | ErrorfW _ wrapped => errors_Is wrapped target
  | ErrorfWV wrapped _ => errors_Is wrapped target
  | _ => false
  end.

(** A result paired with an error: exactly one of them is set. *)
Inductive result (A : Type) : Type :=
| Ok (a : A)
| Err (e : error).
Arguments Ok {A} a.
Arguments Err {A} e.

(** [fmt.Sprintf("%d", x)] *)
Definition fmt_d (x : Z) : string := GoTime.appendInt x 0.

(** ** [internal/domain/model] *)

Definition Currency := string.

Definition USD : Currency := "USD".
Definition INR : Currency := "INR".
Definition EUR : Currency := "EUR".
Definition JPY : Currency := "JPY".
Definition GBP : Currency := "GBP".

Definition SupportedCurrencies : list Currency := [USD; INR; EUR; JPY; GBP].

Fixpoint isSupportedIn (c : Currency) (l : list Currency) : bool :=
  match l with
  | [] => false
  | supportedCurrency :: l' =>
      if String.eqb c supportedCurrency then true else isSupportedIn c l'
  end.

Definition IsSupported (c : Currency) : bool :=
  isSupportedIn c SupportedCurrencies.

Module ExchangeRate.
Record t : Type := mk {
  BaseCurrency : Currency;
  TargetCurrency : Currency;
  Rate : float;
  Date : GoTime.Time;
  LastUpdated : GoTime.Time
}.
End ExchangeRate.

Module CurrencyPair.
Record t : Type := mk {
  BaseCurrency : Currency;
  TargetCurrency : Currency
}.
End CurrencyPair.

Module ConversionRequest.
Record t : Type := mk {
  FromCurrency : Currency;
  ToCurrency : Currency;
  Amount : float;
  Date : GoTime.Time
}.
End ConversionRequest.

Module ConversionResult.
Record t : Type := mk {
  FromCurrency : Currency;
  ToCurrency : Currency;
  FromAmount : float;
  ToAmount : float;
  Rate : float;
  Date : GoTime.Time
}.
End ConversionResult.

Module HistoricalRateRequest.
Record t : Type := mk {
  BaseCurrency : Currency;
  TargetCurrency : Currency;
  StartDate : GoTime.Time;
  EndDate : GoTime.Time
}.
End HistoricalRateRequest.

Module HistoricalRates.
Record t : Type := mk {
  BaseCurrency : Currency;
  TargetCurrency : Currency;
  Rates : gmap string ExchangeRate.t
}.
End HistoricalRates.

(** ** Monads for the two layers *)

Class Monad (m : Type -> Type) : Type := {
  ret : forall {A : Type}, A -> m A;
  bind : forall {A B : Type}, m A -> (A -> m B) -> m B
}.

Declare Scope monad_scope.
Delimit Scope monad_scope with monad.
Notation "x <- c ;; k" := (bind c (fun x => k))
  (at level 100, c at next level, right associativity) : monad_scope.
Notation "c ;;; k" := (bind c (fun _ => k))
  (at level 100, right associativity) : monad_scope.
Local Open Scope monad_scope.

(** ** The world the adapters run in *)

(** The provider's JSON body; only the decoded fields that are read. *)
Record exchangerateAPIResponse : Type := {
  Success : bool;
  Quotes : gmap string float
}.

(** What one HTTP GET can come to. *)
Inductive httpOutcome : Type :=
| RequestError (e : error)      (* http.NewRequestWithContext fails *)
| TransportError (e : error)    (* httpClient.Do fails, also on a
                                   cancelled or expired context *)
| Response (StatusCode : Z) (body : result exchangerateAPIResponse)
                                (* status and the outcome of decoding *).

(** The wall clock and the network are oracles indexed by the number of
    readings taken so far; the two adapters own a map each. *)
Record World : Type := {
  clock : nat -> GoTime.Time;
  ticks : nat;
  network : nat -> string -> httpOutcome;
  requests : nat;
  (* cache.MemoryCache *)
  cacheMap : gmap string ExchangeRate.t;
  cacheTTL : GoTime.Duration;
  (* repository.ExchangeAPI *)
  baseURL : string;
  apiKey : string;
  latestRates : gmap string ExchangeRate.t
}.

Definition M (A : Type) : Type := World -> A * World.

#[global] Instance M_Monad : Monad M := {
  ret A a := fun w => (a, w);
  bind A B c k := fun w => let '(a, w') := c w in k a w'
}.

(** [time.Now()] *)
Definition time_Now : M GoTime.Time := fun w =>
  (clock w (ticks w),
   {| clock := clock w; ticks := S (ticks w);
      network := network w; requests := requests w;
      cacheMap := cacheMap w; cacheTTL := cacheTTL w;
      baseURL := baseURL w; apiKey := apiKey w;
      latestRates := latestRates w |}).

(** One GET request through [httpClient.Do]. *)
Definition http_Get (url : string) : M httpOutcome := fun w =>
  (network w (requests w) url,
   {| clock := clock w; ticks := ticks w;
      network := network w; requests := S (requests w);
      cacheMap := cacheMap w; cacheTTL := cacheTTL w;
      baseURL := baseURL w; apiKey := apiKey w;
      latestRates := latestRates w |}).

Definition set_cacheMap (f : gmap string ExchangeRate.t -> gmap string ExchangeRate.t)
  : M unit := fun w =>
  (tt,
   {| clock := clock w; ticks := ticks w;
      network := network w; requests := requests w;
      cacheMap := f (cacheMap w); cacheTTL := cacheTTL w;
      baseURL := baseURL w; apiKey := apiKey w;
      latestRates := latestRates w |}).

Definition set_latestRates (f : gmap string ExchangeRate.t -> gmap string ExchangeRate.t)
  : M unit := fun w =>
  (tt,
   {| clock := clock w; ticks := ticks w;
      network := network w; requests := requests w;
      cacheMap := cacheMap w; cacheTTL := cacheTTL w;
      baseURL := baseURL w; apiKey := apiKey w;
      latestRates := f (latestRates w) |}).

Definition get {A : Type} (f : World -> A) : M A := fun w => (f w, w).

(** ** [internal/adapter/cache]: the in-memory cache *)

Module MemoryCache.
Import GoTime.

Definition getCacheKey (pair : CurrencyPair.t) (date : Time) : string :=
  let dateStr := Format date in
  CurrencyPair.BaseCurrency pair +:+ "-" +:+
  CurrencyPair.TargetCurrency pair +:+ "-" +:+ dateStr.

(** [Get] returns the entry and [found]; here [Some rate] is
    [(rate, true)] and [None] is [(nil, false)]. *)
Definition Get (pair : CurrencyPair.t) (date : Time)
  : M (option ExchangeRate.t) :=
  let key := getCacheKey pair date in
  m <- get cacheMap ;;
  match m !! key with
  | Some rate =>
      now <- time_Now ;;                      (* time.Since *)
      ttl <- get cacheTTL ;;
      if ttl <? Sub now (ExchangeRate.LastUpdated rate)
      then ret None
      else ret (Some rate)
  | None => ret None
  end.

(** [Set] always returns a nil error, here [None]. *)
Definition Set_ (rate : ExchangeRate.t) : M (option error) :=
  let pair := {| CurrencyPair.BaseCurrency := ExchangeRate.BaseCurrency rate;
                 CurrencyPair.TargetCurrency := ExchangeRate.TargetCurrency rate |} in
  let key := getCacheKey pair (ExchangeRate.Date rate) in
  set_cacheMap (fun m => <[key := rate]> m) ;;;
  ret None.

(** The two loops of [ClearExpired]: collect the keys of the entries
    older than the TTL, then delete them one by one.  The map is ranged
    over in the order of [map_to_list]. *)
Definition expiredKeys (now : Time) (ttl : Duration)
    (m : gmap string ExchangeRate.t) : list string :=
  foldl (fun expiredKeys kv =>
           if ttl <? Sub now (ExchangeRate.LastUpdated kv.2)
           then expiredKeys ++ [kv.1] else expiredKeys)
        [] (map_to_list m).

Definition deleteKeys (keys : list string)
    (m : gmap string ExchangeRate.t) : gmap string ExchangeRate.t :=
  foldl (fun m key => delete key m) m keys.

Definition ClearExpired : M (option error) :=
  now <- time_Now ;;
  ttl <- get cacheTTL ;;
  set_cacheMap (fun m => deleteKeys (expiredKeys now ttl m) m) ;;;
  ret None.

End MemoryCache.

(** ** [internal/adapter/repository]: the provider client *)

Module ExchangeAPI.
Import GoTime.

Definition withAccessKey (url : string) : M string :=
  key <- get apiKey ;;
  if String.eqb key "" then ret url
  else ret (url +:+ "&access_key=" +:+ key).

(** What follows a completed GET in both fetch functions: status check,
    decoding, the provider's own success flag. *)
Definition readQuotes (out : httpOutcome) : result (gmap string float) :=
  match out with
  | RequestError err => Err (ErrorfW "failed to create request" err)
  | TransportError err => Err (ErrorfW "failed to send request" err)
  | Response status body =>
      if negb (status =? 200)
      then Err (Errorf ("API returned non-OK status: " +:+ fmt_d status))
      else match body with
           | Err err => Err (ErrorfW "failed to decode response" err)
           | Ok apiResp =>
               if negb (Success apiResp)
               then Err (Errorf "API reported failure")
               else Ok (Quotes apiResp)
           end
  end.

Definition fetchAllLatestRates : M (result (gmap string float)) :=
  base <- get baseURL ;;
  url <- withAccessKey (base +:+ "/live?base=USD") ;;
  out <- http_Get url ;;
  ret (readQuotes out).

Definition rateNotFound (c : Currency) : error :=
  Errorf ("rate not found for currency: " +:+ c).

(** The tail shared by the three branches of [extractRate]: stamp the
    rate with today's date and the current time, and memoise it. *)
Definition storeLatest (pair : CurrencyPair.t) (rate : float)
  : M (result ExchangeRate.t) :=
  now1 <- time_Now ;;
  now2 <- time_Now ;;
  let exchangeRate :=
    {| ExchangeRate.BaseCurrency := CurrencyPair.BaseCurrency pair;
       ExchangeRate.TargetCurrency := CurrencyPair.TargetCurrency pair;
       ExchangeRate.Rate := rate;
       ExchangeRate.Date := Truncate now1 (24 * Hour);
       ExchangeRate.LastUpdated := now2 |} in
  let cacheKey := CurrencyPair.BaseCurrency pair +:+ "-" +:+
                  CurrencyPair.TargetCurrency pair in
  set_latestRates (fun m => <[cacheKey := exchangeRate]> m) ;;;
  ret (Ok exchangeRate).

Definition extractRate (quotes : gmap string float) (pair : CurrencyPair.t)
  : M (result ExchangeRate.t) :=
  let base := CurrencyPair.BaseCurrency pair in
  let target := CurrencyPair.TargetCurrency pair in
  if String.eqb base USD then
    match quotes !! ("USD" +:+ target) with
    | None => ret (Err (rateNotFound target))
    | Some rate => storeLatest pair rate
    end
  else if String.eqb target USD then
    match quotes !! ("USD" +:+ base) with
    | None => ret (Err (rateNotFound base))
    | Some rate =>
        let inverseRate := (1 / rate)%float in
        storeLatest pair inverseRate
    end
  else
    match quotes !! ("USD" +:+ base), quotes !! ("USD" +:+ target) with
    | None, _ => ret (Err (rateNotFound base))
    | Some _, None => ret (Err (rateNotFound target))
    | Some baseRate, Some targetRate =>
        let crossRate := (targetRate / baseRate)%float in
        storeLatest pair crossRate
    end.

Definition FetchLatestRate (pair : CurrencyPair.t)
  : M (result ExchangeRate.t) :=
  let cacheKey := CurrencyPair.BaseCurrency pair +:+ "-" +:+
                  CurrencyPair.TargetCurrency pair in
  memo <- get latestRates ;;
  match memo !! cacheKey with
  | Some rate => ret (Ok rate)
  | None =>
      rates <- fetchAllLatestRates ;;
      match rates with
      | Err err => ret (Err err)
      | Ok quotes => extractRate quotes pair
      end
  end.

Definition stampHistorical (pair : CurrencyPair.t) (rate : float)
    (date : Time) : M (result ExchangeRate.t) :=
  now <- time_Now ;;
  ret (Ok {| ExchangeRate.BaseCurrency := CurrencyPair.BaseCurrency pair;
             ExchangeRate.TargetCurrency := CurrencyPair.TargetCurrency pair;
             ExchangeRate.Rate := rate;
             ExchangeRate.Date := date;
             ExchangeRate.LastUpdated := now |}).

Definition extractHistoricalRate (quotes : gmap string float)
    (pair : CurrencyPair.t) (date : Time) : M (result ExchangeRate.t) :=
  let base := CurrencyPair.BaseCurrency pair in
  let target := CurrencyPair.TargetCurrency pair in
  if String.eqb base USD then
    match quotes !! ("USD" +:+ target) with
    | None => ret (Err (rateNotFound target))
    | Some rate => stampHistorical pair rate date
    end
  else if String.eqb target USD then
    match quotes !! ("USD" +:+ base) with
    | None => ret (Err (rateNotFound base))
    | Some rate => stampHistorical pair (1 / rate)%float date
    end
  else
    match quotes !! ("USD" +:+ base), quotes !! ("USD" +:+ target) with
    | None, _ => ret (Err (rateNotFound base))
    | Some _, None => ret (Err (rateNotFound target))
    | Some baseRate, Some targetRate =>
        stampHistorical pair (targetRate / baseRate)%float date
    end.

Definition FetchHistoricalRate (pair : CurrencyPair.t) (date : Time)
  : M (result ExchangeRate.t) :=
  let dateStr := Format date in
  base <- get baseURL ;;
  url <- withAccessKey (base +:+ "/historical?date=" +:+ dateStr +:+ "&base=USD") ;;
  out <- http_Get url ;;
  match readQuotes out with
  | Err err => ret (Err err)
  | Ok quotes =>
      let tempPair :=
        {| CurrencyPair.BaseCurrency := CurrencyPair.BaseCurrency pair;
           CurrencyPair.TargetCurrency := CurrencyPair.TargetCurrency pair |} in
      extractHistoricalRate quotes tempPair date
  end.

(** The [for !currentDate.After(request.EndDate)] loop.  [fuel] bounds
    the number of iterations; [None] means it ran out before the loop
    condition failed. *)
Fixpoint historicalLoop (fuel : nat) (request : HistoricalRateRequest.t)
    (currentDate : Time) (rates : gmap string ExchangeRate.t)
  : M (option (gmap string ExchangeRate.t)) :=
  if After currentDate (HistoricalRateRequest.EndDate request)
  then ret (Some rates)
  else
    match fuel with
    | O => ret None
    | S fuel' =>
        let pair :=
          {| CurrencyPair.BaseCurrency := HistoricalRateRequest.BaseCurrency request;
             CurrencyPair.TargetCurrency := HistoricalRateRequest.TargetCurrency request |} in
        r <- FetchHistoricalRate pair currentDate ;;
        match r with
        | Err _ =>
            historicalLoop fuel' request (AddDate currentDate 0 0 1) rates
        | Ok rate =>
            let dateKey := Format currentDate in
            historicalLoop fuel' request (AddDate currentDate 0 0 1)
                           (<[dateKey := rate]> rates)
        end
    end.

Definition FetchHistoricalRates (fuel : nat) (request : HistoricalRateRequest.t)
  : M (option (result HistoricalRates.t)) :=
  rates <- historicalLoop fuel request
             (HistoricalRateRequest.StartDate request) ∅ ;;
  match rates with
  | None => ret None
  | Some rates =>
      ret (Some (Ok
        {| HistoricalRates.BaseCurrency := HistoricalRateRequest.BaseCurrency request;
           HistoricalRates.TargetCurrency := HistoricalRateRequest.TargetCurrency request;
           HistoricalRates.Rates := rates |}))
  end.

(** The fuel a range needs: one iteration per day of the closed range. *)
Definition rangeFuel (request : HistoricalRateRequest.t) : nat :=
  Z.to_nat ((HistoricalRateRequest.EndDate request
             - HistoricalRateRequest.StartDate request) / Day + 1).

(** The double loop of [RefreshRates] over [SupportedCurrencies]. *)
Fixpoint refreshTargets (rates : gmap string float) (base : Currency)
    (targets : list Currency) : M unit :=
  match targets with
  | [] => ret tt
  | target :: targets' =>
      if String.eqb base target then refreshTargets rates base targets'
      else
        let pair := {| CurrencyPair.BaseCurrency := base;
                       CurrencyPair.TargetCurrency := target |} in
        extractRate rates pair ;;;
        refreshTargets rates base targets'
  end.

Fixpoint refreshBases (rates : gmap string float) (bases : list Currency)
  : M unit :=
  match bases with
  | [] => ret tt
  | base :: bases' =>
      refreshTargets rates base SupportedCurrencies ;;;
      refreshBases rates bases'
  end.

Definition RefreshRates : M (option error) :=
  set_latestRates (fun _ => ∅) ;;;
  rates <- fetchAllLatestRates ;;
  match rates with
  | Err err => ret (Some (ErrorfW "failed to fetch latest rates" err))
  | Ok rates =>
      refreshBases rates SupportedCurrencies ;;;
      ret None
  end.

End ExchangeAPI.

(** ** [internal/domain/ports]: the interfaces the service calls *)

(** One constructor per method of [ports.RateCache] and
    [ports.RateRepository], indexed by what the method returns, and one
    for reading the clock. *)
Inductive Call : Type -> Type :=
| TimeNow : Call GoTime.Time
| CacheGet (pair : CurrencyPair.t) (date : GoTime.Time)
    : Call (option ExchangeRate.t)
| CacheSet (rate : ExchangeRate.t) : Call (option error)
| CacheClearExpired : Call (option error)
| RepoFetchLatestRate (pair : CurrencyPair.t) : Call (result ExchangeRate.t)
| RepoFetchHistoricalRate (pair : CurrencyPair.t) (date : GoTime.Time)
    : Call (result ExchangeRate.t)
| RepoFetchHistoricalRates (request : HistoricalRateRequest.t)
    : Call (result HistoricalRates.t)
| RepoRefreshRates : Call (option error).

(** Programs over the interfaces: return, or call and continue. *)
Inductive Prog (A : Type) : Type :=
| Ret (a : A)
| Vis {X : Type} (c : Call X) (k : X -> Prog A).
Arguments Ret {A} a.
Arguments Vis {A X} c k.

Fixpoint Prog_bind {A B : Type} (p : Prog A) (f : A -> Prog B) : Prog B :=
  match p with
  | Ret a => f a
  | Vis c k => Vis c (fun x => Prog_bind (k x) f)
  end.

#[global] Instance Prog_Monad : Monad Prog := {
  ret A a := Ret a;
  bind A B p f := Prog_bind p f
}.

Definition call {X : Type} (c : Call X) : Prog X := Vis c Ret.

(** Running a program against an implementation of the interfaces. *)
Fixpoint run {S A : Type} (h : forall X, Call X -> S -> X * S)
    (p : Prog A) (s : S) : A * S :=
  match p with
  | Ret a => (a, s)
  | Vis c k => let '(x, s') := h _ c s in run h (k x) s'
  end.

(** ** [internal/service]: the resolution service *)

Module ExchangeService.
Import GoTime.

Definition validateDate (date : Time) : Prog (option error) :=
  now <- call TimeNow ;;
  let today := Truncate now (24 * Hour) in
  let ninetyDaysAgo := AddDate today 0 0 (-90) in
  if Before date ninetyDaysAgo
  then ret (Some ErrDateOutOfRange)
  else ret None.

Definition validateDateRange (startDate endDate : Time)
  : Prog (option error) :=
  e1 <- validateDate startDate ;;
  match e1 with
  | Some err => ret (Some err)
  | None =>
      e2 <- validateDate endDate ;;
      match e2 with
      | Some err => ret (Some err)
      | None =>
          if After startDate endDate
          then ret (Some ErrInvalidDateRange)
          else ret None
      end
  end.

Definition GetLatestRate (from to : Currency) : Prog (result ExchangeRate.t) :=
  if negb (IsSupported from) || negb (IsSupported to)
  then ret (Err ErrInvalidCurrency)
  else
    let pair := {| CurrencyPair.BaseCurrency := from;
                   CurrencyPair.TargetCurrency := to |} in
    now <- call TimeNow ;;
    let today := Truncate now (24 * Hour) in
    cached <- call (CacheGet pair today) ;;
    match cached with
    | Some rate => ret (Ok rate)
    | None =>
        r <- call (RepoFetchLatestRate pair) ;;
        match r with
        | Err err => ret (Err (ErrorfWV ErrExternalAPIFailure err))
        | Ok rate =>
            call (CacheSet rate) ;;;    (* a failed write is only logged *)
            ret (Ok rate)
        end
    end.

Definition GetHistoricalRate (from to : Currency) (date : Time)
  : Prog (result ExchangeRate.t) :=
  if negb (IsSupported from) || negb (IsSupported to)
  then ret (Err ErrInvalidCurrency)
  else
    e <- validateDate date ;;
    match e with
    | Some err => ret (Err err)
    | None =>
        let pair := {| CurrencyPair.BaseCurrency := from;
                       CurrencyPair.TargetCurrency := to |} in
        let normalizedDate := Truncate date (24 * Hour) in
        cached <- call (CacheGet pair normalizedDate) ;;
        match cached with
        | Some rate => ret (Ok rate)
        | None =>
            r <- call (RepoFetchHistoricalRate pair normalizedDate) ;;
            match r with
            | Err err => ret (Err (ErrorfWV ErrExternalAPIFailure err))
            | Ok rate =>
                call (CacheSet rate) ;;;
                ret (Ok rate)
            end
        end
    end.

Definition GetHistoricalRates (request : HistoricalRateRequest.t)
  : Prog (result HistoricalRates.t) :=
  if negb (IsSupported (HistoricalRateRequest.BaseCurrency request))
     || negb (IsSupported (HistoricalRateRequest.TargetCurrency request))
  then ret (Err ErrInvalidCurrency)
  else
    e <- validateDateRange (HistoricalRateRequest.StartDate request)
                           (HistoricalRateRequest.EndDate request) ;;
    match e with
    | Some err => ret (Err err)
    | None =>
        r <- call (RepoFetchHistoricalRates request) ;;
        match r with
        | Err err => ret (Err (ErrorfWV ErrExternalAPIFailure err))
        | Ok rates => ret (Ok rates)
        end
    end.

(** The tail of [ConvertCurrency] once a rate is at hand. *)
Definition conversionResult (request : ConversionRequest.t)
    (rate : ExchangeRate.t) : ConversionResult.t :=
  let convertedAmount :=
    (ConversionRequest.Amount request * ExchangeRate.Rate rate)%float in
  {| ConversionResult.FromCurrency := ConversionRequest.FromCurrency request;
     ConversionResult.ToCurrency := ConversionRequest.ToCurrency request;
     ConversionResult.FromAmount := ConversionRequest.Amount request;
     ConversionResult.ToAmount := convertedAmount;
     ConversionResult.Rate := ExchangeRate.Rate rate;
     ConversionResult.Date := ExchangeRate.Date rate |}.

Definition ConvertCurrency (request : ConversionRequest.t)
  : Prog (result ConversionResult.t) :=
  let from := ConversionRequest.FromCurrency request in
  let to := ConversionRequest.ToCurrency request in
  if negb (IsSupported from) || negb (IsSupported to)
  then ret (Err ErrInvalidCurrency)
  else if (ConversionRequest.Amount request <=? 0)%float
  then ret (Err ErrInvalidAmount)
  else
    r <- (if negb (IsZero (ConversionRequest.Date request))
          then
            e <- validateDate (ConversionRequest.Date request) ;;
            match e with
            | Some err => ret (Err err)
            | None => GetHistoricalRate from to (ConversionRequest.Date request)
            end
          else GetLatestRate from to) ;;
    match r with
    | Err err => ret (Err err)
    | Ok rate => ret (Ok (conversionResult request rate))
    end.

Definition RefreshRates : Prog (option error) :=
  e <- call RepoRefreshRates ;;
  match e with
  | Some err => ret (Some (ErrorfWV ErrExternalAPIFailure err))
  | None =>
      call CacheClearExpired ;;;     (* a failed sweep is only logged *)
      ret None
  end.

End ExchangeService.

(** ** The service wired to the two adapters, as in [main] *)

Definition adapters : forall X, Call X -> M X :=
  fun X c =>
    match c in Call X return M X with
    | TimeNow => time_Now
    | CacheGet p date => MemoryCache.Get p date
    | CacheSet rate => MemoryCache.Set_ rate
    | CacheClearExpired => MemoryCache.ClearExpired
    | RepoFetchLatestRate p => ExchangeAPI.FetchLatestRate p
    | RepoFetchHistoricalRate p date => ExchangeAPI.FetchHistoricalRate p date
    | RepoFetchHistoricalRates request =>
        r <- ExchangeAPI.FetchHistoricalRates
               (ExchangeAPI.rangeFuel request) request ;;
        match r with
        | Some r => ret r
        | None => ret (Err (Errorf "range loop out of fuel"))
        end
    | RepoRefreshRates => ExchangeAPI.RefreshRates
    end.

(** What [main] starts from: [NewMemoryCache] and [NewExchangeAPI] give
    each adapter an empty map. *)
Definition newWorld (ttl : GoTime.Duration) (url key : string)
    (clk : nat -> GoTime.Time) (net : nat -> string -> httpOutcome) : World :=
  {| clock := clk; ticks := 0;
     network := net; requests := 0;
     cacheMap := ∅; cacheTTL := ttl;
     baseURL := url; apiKey := key;
     latestRates := ∅ |}.

(** ** [pkg/utils]: date helpers *)

Module DateUtils.
Import GoTime.

Definition ValidateDate (date : Time) : Prog bool :=
  now <- call TimeNow ;;
  let today := Truncate now (24 * Hour) in
  let ninetyDaysAgo := AddDate today 0 0 (-90) in
  ret (negb (Before date ninetyDaysAgo)).

(** [FormatDate] prints the calendar day its argument shows in its own
    [Location].  A [time.Time] is taken here as the instant together
    with the location; a location is what [Location.lookup] computes,
    the offset from UTC, in seconds, in force at an instant. *)
Definition Location : Type := Time -> Z.

Definition UTC : Location := fun _ => 0.

Definition FixedZone (offset : Z) : Location := fun _ => offset.

Record Zoned : Type := {
  instant : Time;
  location : Location
}.

(** [t.UTC()] *)
Definition inUTC (t : Time) : Zoned := {| instant := t; location := UTC |}.

(** The wall clock of the value, as an instant of UTC showing the same. *)
Definition wall (date : Zoned) : Time :=
  instant date + location date (instant date) * Second.

Definition FormatDate (date : Zoned) : string := Format (wall date).

End DateUtils.

(** [CurrencyPair.String] of [internal/domain/model]. *)
Definition CurrencyPair_String (p : CurrencyPair.t) : string :=
  CurrencyPair.BaseCurrency p +:+ "-" +:+ CurrencyPair.TargetCurrency p.

(** ** [internal/adapter/http]: the handlers *)

Module Handler.
Import GoTime.

(** What a handler puts under ["data"]. *)
Inductive payload : Type :=
| RateData (rate : ExchangeRate.t)
| AmountData (amount : float)        (* the map with the one key "amount" *)
| RatesData (rates : HistoricalRates.t).

Record Response : Type := {
  Success : bool;
  Data : option payload;
  Error : string
}.

(** The status written with [WriteHeader] and the body written by
    [json.NewEncoder(w).Encode]; [None] when the encoder refuses the
    response, for it then writes nothing and the handlers only log the
    error. *)
Record reply : Type := {
  statusCode : Z;
  body : option Response
}.

(** What [encoding/json] refuses among the values the handlers send: a
    [float64] that is NaN or infinite, and a [time.Time] whose year lies
    outside 0..9999. *)
Definition json_float (x : float) : bool := PrimFloat.is_finite x.

Definition json_time (t : Time) : bool :=
  let '(year, _, _) := Date t in (0 <=? year) && (year <=? 9999).

Definition json_rate (rate : ExchangeRate.t) : bool :=
  json_float (ExchangeRate.Rate rate)
  && json_time (ExchangeRate.Date rate)
  && json_time (ExchangeRate.LastUpdated rate).

Definition json_payload (data : payload) : bool :=
  match data with
  | RateData rate => json_rate rate
  | AmountData amount => json_float amount
  | RatesData rates =>
      forallb (fun kv => json_rate kv.2)
              (map_to_list (HistoricalRates.Rates rates))
  end.

Definition StatusOK : Z := 200.
Definition StatusBadRequest : Z := 400.
Definition StatusNotFound : Z := 404.
Definition StatusInternalServerError : Z := 500.
Definition StatusServiceUnavailable : Z := 503.

(** The header goes out before the body is encoded. *)
Definition sendSuccessResponse (data : payload) : reply :=
  {| statusCode := StatusOK;
     body := if json_payload data
             then Some {| Success := true; Data := Some data; Error := "" |}
             else None |}.

(** A response that holds a message only always encodes. *)
Definition sendErrorResponse (code : Z) (message : string) : reply :=
  {| statusCode := code;
     body := Some {| Success := false; Data := None; Error := message |} |}.

(** The [switch] over [errors.Is]; the first case that applies wins. *)
Definition handleServiceError (err : error) : reply :=
  if errors_Is err ErrInvalidCurrency then
    sendErrorResponse StatusBadRequest "invalid currency"
  else if errors_Is err ErrDateOutOfRange then
    sendErrorResponse StatusBadRequest
      "date is outside allowed range (older than 90 days)"
  else if errors_Is err ErrInvalidDateRange then
    sendErrorResponse StatusBadRequest "invalid date range"
  else if errors_Is err ErrRateNotFound then
    sendErrorResponse StatusNotFound "exchange rate not found"
  else if errors_Is err ErrExternalAPIFailure then
    sendErrorResponse StatusServiceUnavailable "external API failure"
  else if errors_Is err ErrInvalidAmount then
    sendErrorResponse StatusBadRequest "invalid amount"
  else
    sendErrorResponse StatusInternalServerError "internal server error".

Section Handlers.

(** [time.Parse("2006-01-02", _)] and [strconv.ParseFloat(_, 64)] are
    taken as given; [query] is [r.URL.Query().Get], which answers the
    empty string for a parameter that is absent. *)
Variable time_Parse : string -> result Time.
Variable strconv_ParseFloat : string -> result float.
Variable query : string -> string.

Definition parseDate (dateStr : string) : result Time :=
  if String.eqb dateStr "" then Ok zeroTime else time_Parse dateStr.


Definition ConvertCurrencyHandler : Prog reply :=
  let from := query "from" in
  let to := query "to" in
  let amountStr := query "amount" in
  let dateStr := query "date" in
  if String.eqb from "" || String.eqb to "" then
    ret (sendErrorResponse StatusBadRequest
           "missing required parameters: from and to")
  else
    match (if String.eqb amountStr "" then Ok 1%float
           else strconv_ParseFloat amountStr) with
    | Err _ => ret (sendErrorResponse StatusBadRequest "invalid amount parameter")
    | Ok amount =>
        match (if String.eqb dateStr "" then Ok zeroTime
               else parseDate dateStr) with
        | Err _ =>
            ret (sendErrorResponse StatusBadRequest
                   "invalid date format, use YYYY-MM-DD")
        | Ok date =>
            let request :=
              {| ConversionRequest.FromCurrency := from;
                 ConversionRequest.ToCurrency := to;
                 ConversionRequest.Amount := amount;
                 ConversionRequest.Date := date |} in
            r <- ExchangeService.ConvertCurrency request ;;
            match r with
            | Err err => ret (handleServiceError err)
            | Ok result =>
                ret (sendSuccessResponse
                       (AmountData (ConversionResult.ToAmount result)))
            end
        end
    end.



End Handlers.

End Handler.

(** ** [internal/adapter/http]: the router's request metric *)

Module Router.

(** The status label of [loggingMiddleware]:
    [fmt.Sprint('0'+crw.statusCode/100)+"xx"].  The rune ['0'] is the
    integer 48 and the sum is an [int], which [fmt.Sprint] prints in
    decimal; [/] truncates toward zero. *)
Definition statusLabel (statusCode : Z) : string :=
  fmt_d (48 + Z.quot statusCode 100) +:+ "xx".

End Router.

(** ** [internal/config] *)

Module Config.
Import GoTime.

Record ServerConfig : Type := {
  Port : Z;
  ReadTimeout : Duration;
  WriteTimeout : Duration;
  IdleTimeout : Duration
}.

Record ExchangeAPIConfig : Type := {
  BaseURL : string;
  APIKey : string;
  Timeout : Duration;
  RefreshRate : Duration
}.

Record CacheConfig : Type := {
  TTL : Duration
}.

Record t : Type := {
  Server : ServerConfig;
  ExchangeAPI : ExchangeAPIConfig;
  Cache : CacheConfig
}.

Section Environment.

(** [os.Getenv], which answers the empty string for a variable that is
    not set, and the two parsers of the standard library, taken as
    given.  The warnings printed on a value that does not parse are
    elided. *)
Variable Getenv : string -> string.
Variable strconv_Atoi : string -> result Z.
Variable time_ParseDuration : string -> result Duration.

Definition getEnvString (key defaultValue : string) : string :=
  let value := Getenv key in
  if String.eqb value "" then defaultValue else value.

Definition getEnvInt (key : string) (defaultValue : Z) : Z :=
  let valueStr := Getenv key in
  if String.eqb valueStr "" then defaultValue
  else match strconv_Atoi valueStr with
       | Err _ => defaultValue
       | Ok value => value
       end.

Definition getEnvDuration (key : string) (defaultValue : Duration) : Duration :=
  let valueStr := Getenv key in
  if String.eqb valueStr "" then defaultValue
  else match time_ParseDuration valueStr with
       | Err _ => defaultValue
       | Ok value => value
       end.

Definition LoadConfig : result t :=
  Ok {| Server :=
          {| Port := getEnvInt "SERVER_PORT" 8080;
             ReadTimeout := getEnvDuration "SERVER_READ_TIMEOUT" (5 * Second);
             WriteTimeout := getEnvDuration "SERVER_WRITE_TIMEOUT" (10 * Second);
             IdleTimeout := getEnvDuration "SERVER_IDLE_TIMEOUT" (120 * Second) |};
        ExchangeAPI :=
          {| BaseURL := getEnvString "EXCHANGE_API_BASE_URL"
                          "https://api.exchangerate.host";
             APIKey := getEnvString "EXCHANGE_API_KEY" "";
             Timeout := getEnvDuration "EXCHANGE_API_TIMEOUT" (10 * Second);
             RefreshRate := getEnvDuration "EXCHANGE_API_REFRESH_RATE" (1 * Hour) |};
        Cache :=
          {| TTL := getEnvDuration "CACHE_TTL" (30 * Minute) |} |}.

End Environment.

End Config.

(* ===================================================================== *)
(** * Part II: vocabulary of the properties, and sample data             *)
(* ===================================================================== *)

Section Vocabulary.
Import GoTime MemoryCache ExchangeAPI ExchangeService.

(** Reading a decimal numeral back, as a left inverse of [appendInt]. *)
Fixpoint digitsVal (s : string) (acc : Z) : Z :=
  match s with
  | EmptyString => acc
  | String c r => digitsVal r (10 * acc + (Z.of_nat (nat_of_ascii c) - 48))
  end.

Definition parseInt (s : string) : Z :=
  match s with
  | EmptyString => 0
  | String c r => if Ascii.eqb c "-" then - digitsVal r 0 else digitsVal s 0
  end.

(** 2025-01-03 12:00:00 UTC. *)
Definition sampleNoon : GoTime.Time :=
  20091 * GoTime.Day + 12 * GoTime.Hour.

(** A frozen clock, no network, empty maps, the default 30 minute TTL. *)
Definition offlineWorld : World :=
  {| clock := fun _ => sampleNoon; ticks := 0;
     network := fun _ _ => TransportError (Errorf "no route to host");
     requests := 0;
     cacheMap := ∅; cacheTTL := 30 * GoTime.Minute;
     baseURL := "https://api.exchangerate.host"; apiKey := "";
     latestRates := ∅ |}.

(** The rate a resolution came to, or its error. *)
Definition rateOf (r : result ExchangeRate.t) : result float :=
  match r with
  | Ok rate => Ok (ExchangeRate.Rate rate)
  | Err e => Err e
  end.

(** Resolution as the specification words it, case by case. *)
Definition resolve_spec (quotes : gmap string float) (base target : Currency)
    (outcome : result float) : Prop :=
  let quote c := quotes !! ("USD" +:+ c)%string in
  (base = USD ->
     outcome = match quote target with
               | Some q => Ok q
               | None => Err (rateNotFound target)
               end) /\
  (target = USD ->
     outcome = match quote base with
               | Some q => Ok (1 / q)%float
               | None => Err (rateNotFound base)
               end) /\
  (base <> USD -> target <> USD ->
     outcome = match quote base, quote target with
               | Some qb, Some qt => Ok (qt / qb)%float
               | None, _ => Err (rateNotFound base)
               | Some _, None => Err (rateNotFound target)
               end).

(** A quote table, and one in which two quotes are zero. *)
Definition sampleQuotes : gmap string float :=
  {[ "USDINR"%string := 82.5%float; "USDEUR"%string := 0.5%float ]}.

Definition zeroQuotes : gmap string float :=
  {[ "USDINR"%string := 0%float; "USDEUR"%string := 0.5%float;
     "USDJPY"%string := 0%float ]}.

(** A rate ten minutes old at [sampleNoon], and one two hours old. *)
Definition sampleRate : ExchangeRate.t :=
  {| ExchangeRate.BaseCurrency := USD;
     ExchangeRate.TargetCurrency := INR;
     ExchangeRate.Rate := 82.5%float;
     ExchangeRate.Date := Truncate sampleNoon (24 * Hour);
     ExchangeRate.LastUpdated := sampleNoon - 10 * Minute |}.

(** An entry is swept when it is older than the TTL. *)
Definition expired (now : Time) (ttl : Duration) (rate : ExchangeRate.t) : bool :=
  ttl <? Sub now (ExchangeRate.LastUpdated rate).

Definition staleRate : ExchangeRate.t :=
  {| ExchangeRate.BaseCurrency := USD;
     ExchangeRate.TargetCurrency := EUR;
     ExchangeRate.Rate := 0.5%float;
     ExchangeRate.Date := Truncate sampleNoon (24 * Hour);
     ExchangeRate.LastUpdated := sampleNoon - 2 * Hour |}.

(** A cache holding a fresh and a stale entry. *)
Definition stockedWorld : World :=
  (Set_ staleRate (Set_ sampleRate offlineWorld).2).2.

(** Stand-ins for the two interfaces in the manner of the service's unit
    tests: a clock stuck at [now], a cache that always answers [cached]
    and accepts every write, a provider that always answers [fetched]. *)
Definition mockPorts (now : GoTime.Time) (cached : option ExchangeRate.t)
    (fetched : result ExchangeRate.t) : forall X, Call X -> unit -> X * unit :=
  fun X c s =>
    match c in Call X return X * unit with
    | TimeNow => (now, s)
    | CacheGet _ _ => (cached, s)
    | CacheSet _ => (None, s)
    | CacheClearExpired => (None, s)
    | RepoFetchLatestRate _ => (fetched, s)
    | RepoFetchHistoricalRate _ _ => (fetched, s)
    | RepoFetchHistoricalRates _ => (Err (Errorf "API error"), s)
    | RepoRefreshRates => (None, s)
    end.

(** An adapter action is steady when it leaves the clock oracle alone
    (it may still advance the count of readings). *)
Definition steady {A : Type} (c : M A) : Prop :=
  forall w, clock (c w).2 = clock w.

(** Whether an outcome is the date-out-of-range failure. *)
Definition dateRejected {A : Type} (r : result A) : bool :=
  match r with
  | Err e => errors_Is e ErrDateOutOfRange
  | Ok _ => false
  end.

(** Midnight of the day of [sampleNoon]. *)
Definition sampleToday : GoTime.Time :=
  GoTime.Truncate sampleNoon (24 * GoTime.Hour).

(** The pair a cache lookup or a provider request is made for. *)
Definition requestedPair {X : Type} (c : Call X) : option CurrencyPair.t :=
  match c with
  | CacheGet p _ => Some p
  | RepoFetchLatestRate p => Some p
  | RepoFetchHistoricalRate p _ => Some p
  | RepoFetchHistoricalRates request =>
      Some (CurrencyPair.mk (HistoricalRateRequest.BaseCurrency request)
                            (HistoricalRateRequest.TargetCurrency request))
  | _ => None
  end.

(** [Requests prog p]: on some path through [prog], that is for some
    answers of the interfaces, a lookup or request for [p] is issued. *)
Fixpoint Requests {A : Type} (prog : Prog A) (p : CurrencyPair.t) : Prop :=
  match prog with
  | Ret _ => False
  | Vis c k => requestedPair c = Some p \/ exists x, Requests (k x) p
  end.

(** A call of any result type, and the calls a run of [prog] against
    the implementation [h] makes from state [s], in order. *)
Inductive anyCall : Type :=
| AnyCall {X : Type} (c : Call X).

Fixpoint calls {S A : Type} (h : forall X, Call X -> S -> X * S)
    (prog : Prog A) (s : S) : list anyCall :=
  match prog with
  | Ret _ => []
  | Vis c k => let '(x, s') := h _ c s in AnyCall c :: calls h (k x) s'
  end.

(** The pairs looked up in the cache, the pairs asked of the provider,
    and both, among the calls of a run. *)
Definition cachePairs (made : list anyCall) : list CurrencyPair.t :=
  omap (fun a => match a with
                 | AnyCall (CacheGet p _) => Some p
                 | AnyCall _ => None
                 end) made.

Definition providerPairs (made : list anyCall) : list CurrencyPair.t :=
  omap (fun a => match a with
                 | AnyCall (CacheGet _ _) => None
                 | AnyCall c => requestedPair c
                 end) made.

Definition pairsAsked (made : list anyCall) : list CurrencyPair.t :=
  omap (fun a => match a with AnyCall c => requestedPair c end) made.

(** [n] consecutive days starting at [cur], 24 hours apart. *)
Fixpoint daysFrom (cur : Time) (n : nat) : list Time :=
  match n with
  | O => []
  | S n' => cur :: daysFrom (cur + Day) n'
  end.

(** What [FetchHistoricalRate] answers on each of [days] when they are
    asked for one after the other, starting in world [w]. *)
Fixpoint dayOutcomes (pair : CurrencyPair.t) (days : list Time) (w : World)
  : list (Time * result ExchangeRate.t) * World :=
  match days with
  | [] => ([], w)
  | d :: days' =>
      let '(r, w1) := FetchHistoricalRate pair d w in
      let '(rest, w2) := dayOutcomes pair days' w1 in
      ((d, r) :: rest, w2)
  end.

(** Entering the successful days of a trace under their formatted date. *)
Definition collect (trace : list (Time * result ExchangeRate.t))
    (rates : gmap string ExchangeRate.t) : gmap string ExchangeRate.t :=
  foldl (fun m dr => match dr.2 with
                     | Ok rate => <[Format dr.1 := rate]> m
                     | Err _ => m
                     end) rates trace.

(** The pair a range request is for. *)
Definition requestPair (request : HistoricalRateRequest.t) : CurrencyPair.t :=
  CurrencyPair.mk (HistoricalRateRequest.BaseCurrency request)
                  (HistoricalRateRequest.TargetCurrency request).

(** A provider that is down for 2025-01-02 only. *)
Definition flakyWorld : World :=
  {| clock := fun _ => sampleNoon; ticks := 0;
     network := fun _ url =>
       if String.eqb url
            "https://api.exchangerate.host/historical?date=2025-01-02&base=USD"
       then Response 503 (Err (Errorf "unexpected end of JSON input"))
       else Response 200 (Ok {| Success := true; Quotes := sampleQuotes |});
     requests := 0;
     cacheMap := ∅; cacheTTL := 30 * GoTime.Minute;
     baseURL := "https://api.exchangerate.host"; apiKey := "";
     latestRates := ∅ |}.

(** USD to INR from 2025-01-01 to 2025-01-03. *)
Definition threeDays : HistoricalRateRequest.t :=
  {| HistoricalRateRequest.BaseCurrency := USD;
     HistoricalRateRequest.TargetCurrency := INR;
     HistoricalRateRequest.StartDate := 20089 * GoTime.Day;
     HistoricalRateRequest.EndDate := 20091 * GoTime.Day |}.


(** The rate [flakyWorld] yields for the day numbered [days]. *)
Definition rateOn (days : Z) : ExchangeRate.t :=
  {| ExchangeRate.BaseCurrency := USD;
     ExchangeRate.TargetCurrency := INR;
     ExchangeRate.Rate := 82.5%float;
     ExchangeRate.Date := days * GoTime.Day;
     ExchangeRate.LastUpdated := sampleNoon |}.

(** The quotes of the four currencies other than USD. *)
Definition liveQuotes : gmap string float :=
  {[ "USDINR"%string := 82.5%float; "USDEUR"%string := 0.5%float;
     "USDJPY"%string := 150%float; "USDGBP"%string := 0.75%float ]}.

(** A provider that answers every request with [liveQuotes]. *)
Definition liveWorld : World :=
  {| clock := fun _ => sampleNoon; ticks := 0;
     network := fun _ _ =>
       Response 200 (Ok {| Success := true; Quotes := liveQuotes |});
     requests := 0;
     cacheMap := ∅; cacheTTL := 30 * GoTime.Minute;
     baseURL := "https://api.exchangerate.host"; apiKey := "";
     latestRates := ∅ |}.

(** The pair a rate is for. *)
Definition pairOf (rate : ExchangeRate.t) : CurrencyPair.t :=
  CurrencyPair.mk (ExchangeRate.BaseCurrency rate)
                  (ExchangeRate.TargetCurrency rate).

(** A rate between two supported currencies. *)
Definition supportedRate (rate : ExchangeRate.t) : Prop :=
  IsSupported (ExchangeRate.BaseCurrency rate) = true
  /\ IsSupported (ExchangeRate.TargetCurrency rate) = true.

(** Every entry of the cache is a rate between supported currencies and
    sits under the key of its own pair and date. *)
Definition cacheKeyed (m : gmap string ExchangeRate.t) : Prop :=
  forall k rate, m !! k = Some rate ->
    supportedRate rate
    /\ k = getCacheKey (pairOf rate) (ExchangeRate.Date rate).

(** Every entry of the provider's memo is a rate between supported
    currencies and sits under the key of its own pair. *)
Definition memoKeyed (m : gmap string ExchangeRate.t) : Prop :=
  forall k rate, m !! k = Some rate ->
    supportedRate rate /\ k = CurrencyPair_String (pairOf rate).

(** The world with one more request sent and nothing else changed. *)
Definition afterRequest (w : World) : World := (http_Get "" w).2.

(** The URL of the live endpoint for a base URL and an API key. *)
Definition liveURL (base key : string) : string :=
  base +:+ "/live?base=USD" +:+
  (if String.eqb key "" then ""%string else "&access_key=" +:+ key).

(** The URL of the historical endpoint for a date. *)
Definition historicalURL (base key : string) (date : Time) : string :=
  base +:+ "/historical?date=" +:+ Format date +:+ "&base=USD" +:+
  (if String.eqb key "" then ""%string else "&access_key=" +:+ key).

(** The rate [extractRate] builds for [pair] from the value [x] in
    world [w]: dated today, stamped with the second reading of the
    clock. *)
Definition latestRateAt (pair : CurrencyPair.t) (x : float) (w : World)
  : ExchangeRate.t :=
  {| ExchangeRate.BaseCurrency := CurrencyPair.BaseCurrency pair;
     ExchangeRate.TargetCurrency := CurrencyPair.TargetCurrency pair;
     ExchangeRate.Rate := x;
     ExchangeRate.Date := Truncate (clock w (ticks w)) (24 * Hour);
     ExchangeRate.LastUpdated := clock w (S (ticks w)) |}.

(** The rate [extractHistoricalRate] builds for [pair] and [date] from
    the value [x] in world [w]. *)
Definition historicalRateAt (pair : CurrencyPair.t) (x : float) (date : Time)
    (w : World) : ExchangeRate.t :=
  {| ExchangeRate.BaseCurrency := CurrencyPair.BaseCurrency pair;
     ExchangeRate.TargetCurrency := CurrencyPair.TargetCurrency pair;
     ExchangeRate.Rate := x;
     ExchangeRate.Date := date;
     ExchangeRate.LastUpdated := clock w (ticks w) |}.

(** The number of days of a trace whose resolution succeeded. *)
Fixpoint okCount (trace : list (Time * result ExchangeRate.t)) : nat :=
  match trace with
  | [] => O
  | (_, Ok _) :: trace' => S (okCount trace')
  | (_, Err _) :: trace' => okCount trace'
  end.

(** The pairs the double loop of [RefreshRates] extracts, in its order:
    for each base, each target other than the base. *)
Fixpoint pairsFrom (base : Currency) (targets : list Currency)
  : list CurrencyPair.t :=
  match targets with
  | [] => []
  | target :: targets' =>
      if String.eqb base target then pairsFrom base targets'
      else CurrencyPair.mk base target :: pairsFrom base targets'
  end.

Fixpoint refreshPairsOf (bases : list Currency) : list CurrencyPair.t :=
  match bases with
  | [] => []
  | base :: bases' => pairsFrom base SupportedCurrencies ++ refreshPairsOf bases'
  end.

Definition refreshPairs : list CurrencyPair.t :=
  refreshPairsOf SupportedCurrencies.

(** Extracting a list of pairs one after the other, errors ignored. *)
Fixpoint extractAll (quotes : gmap string float) (pairs : list CurrencyPair.t)
  : M unit :=
  match pairs with
  | [] => ret tt
  | p :: pairs' => extractRate quotes p ;;; extractAll quotes pairs'
  end.

(** Both stores of the wired adapters keep their keying. *)
Definition keyed (w : World) : Prop :=
  cacheKeyed (cacheMap w) /\ memoKeyed (latestRates w).

(** What the sweep at instant [now] leaves of the entry under [k]. *)
Definition swept (now : GoTime.Time) (ttl : GoTime.Duration)
    (m : gmap string ExchangeRate.t) (k : string) : option ExchangeRate.t :=
  match m !! k with
  | Some rate => if expired now ttl rate then None else Some rate
  | None => None
  end.

(** The settings [LoadConfig] falls back on. *)
Definition defaultConfig : Config.t :=
  {| Config.Server :=
       {| Config.Port := 8080;
          Config.ReadTimeout := 5 * GoTime.Second;
          Config.WriteTimeout := 10 * GoTime.Second;
          Config.IdleTimeout := 120 * GoTime.Second |};
     Config.ExchangeAPI :=
       {| Config.BaseURL := "https://api.exchangerate.host";
          Config.APIKey := "";
          Config.Timeout := 10 * GoTime.Second;
          Config.RefreshRate := 1 * GoTime.Hour |};
     Config.Cache := {| Config.TTL := 30 * GoTime.Minute |} |}.

(** A setting that is absent, empty, or does not parse. *)
Definition unusable {A : Type} (Getenv : string -> string)
    (parse : string -> result A) (key : string) : Prop :=
  Getenv key = ""%string \/ exists e, parse (Getenv key) = Err e.

(** The results a service program can return, whatever its calls
    answer: [Leaves prog P] says each of them satisfies [P]. *)
Fixpoint Leaves {A : Type} (prog : Prog A) (P : A -> Prop) : Prop :=
  match prog with
  | Ret a => P a
  | Vis c k => forall x, Leaves (k x) P
  end.

(** An error made by [fmt.Errorf("%w: %v", ErrExternalAPIFailure, _)]. *)
Definition external (e : error) : Prop :=
  exists detail, e = ErrorfWV ErrExternalAPIFailure detail.

Definition errorAmong (sentinels : list error) (e : error) : Prop :=
  e ∈ sentinels \/ external e.

(** The sentinels the service returns bare. *)
Definition validationErrors : list error :=
  [ErrInvalidCurrency; ErrInvalidAmount; ErrDateOutOfRange; ErrInvalidDateRange].

Definition unsupportedPair (from to : Currency) : Prop :=
  IsSupported from = false \/ IsSupported to = false.



(** The query of a conversion of an amount that is not a number. *)
Definition nanQuery (name : string) : string :=
  if String.eqb name "from" then "USD"
  else if String.eqb name "to" then "INR"
  else if String.eqb name "amount" then "NaN"
  else "".

End Vocabulary.

(* ===================================================================== *)
(** * Part III: properties                                                *)
(* ===================================================================== *)

(** ** The calendar *)

Section Calendar.
Import GoTime.

Lemma Day_value : Day = 86400000000000.
Proof. reflexivity. Qed.

Lemma zeroTime_midnight : zeroTime mod Day = 0.
Proof. reflexivity. Qed.

(** Truncating to 24 hours is rounding down to UTC midnight. *)
Lemma Truncate_day (t : Time) : Truncate t (24 * Hour) = unixDays t * Day.
Proof.
  unfold Truncate, Add, unixDays. change (24 * Hour) with Day.
  change (Day <=? 0) with false. cbn match.
  replace ((t - zeroTime) mod Day) with (t mod Day).
  - pose proof (Z.div_mod t Day). rewrite Day_value in *. lia.
  - rewrite Zminus_mod, zeroTime_midnight, Z.sub_0_r, Z.mod_mod; [reflexivity|].
    rewrite Day_value. lia.
Qed.

(** Every day of the 400-year cycle splits into a year of the cycle, a
    month counted from March and a day of the month, all in range, and
    the three parts add up to the day again. *)
Lemma cyclePos_spec (doe : Z) :
  0 <= doe < cycleDays ->
  let '(yoe, mp, d) := cyclePos doe in
  0 <= yoe <= 399 /\ 0 <= mp <= 11 /\ 1 <= d <= 31 /\
  365 * yoe + yoe / 4 - yoe / 100 + marchDays mp + (d - 1) = doe.
Proof.
  unfold cycleDays, cyclePos, marchDays. intros H.
  assert (Hy : 0 <= (doe - doe / 1460 + doe / 36524 - doe / 146096) / 365 <= 399
               /\ 0 <= doe - (365 * ((doe - doe / 1460 + doe / 36524 - doe / 146096) / 365)
                              + (doe - doe / 1460 + doe / 36524 - doe / 146096) / 365 / 4
                              - (doe - doe / 1460 + doe / 36524 - doe / 146096) / 365 / 100)
                  <= 365)
    by (Z.div_mod_to_equations; lia).
  set (yoe := (doe - doe / 1460 + doe / 36524 - doe / 146096) / 365) in *.
  set (doy := doe - (365 * yoe + yoe / 4 - yoe / 100)) in *.
  destruct Hy as [Hyoe Hdoy].
  repeat split; try lia; Z.div_mod_to_equations; lia.
Qed.

(** [civilOfDays] yields a month and a day in range, and [daysOfCivil]
    leads back to the day number. *)
Lemma civilOfDays_spec (z : Z) :
  let '(y, m, d) := civilOfDays z in
  1 <= m <= 12 /\ 1 <= d <= 31 /\ daysOfCivil y m d = z.
Proof.
  unfold civilOfDays.
  pose proof (cyclePos_spec ((z + cycleShift) mod cycleDays)) as Hc.
  destruct (cyclePos ((z + cycleShift) mod cycleDays)) as [[yoe mp] d].
  destruct Hc as (Hyoe & Hmp & Hd & Hsum);
    [apply Z.mod_pos_bound; reflexivity|].
  pose proof (Z.div_mod (z + cycleShift) cycleDays) as Hz.
  set (era := (z + cycleShift) / cycleDays) in *.
  set (doe := (z + cycleShift) mod cycleDays) in *.
  unfold daysOfCivil, cycleDays, cycleShift in *.
  destruct (mp <? 10) eqn:Hlt.
  - apply Z.ltb_lt in Hlt.
    replace (mp + 3 <=? 2) with false by (symmetry; apply Z.leb_gt; lia).
    replace (mp + 3 - 3) with mp by lia.
    repeat split; try lia.
    enough (365 * (yoe + 400 * era) + (yoe + 400 * era) / 4
            - (yoe + 400 * era) / 100 + (yoe + 400 * era) / 400
            = 146097 * era + (365 * yoe + yoe / 4 - yoe / 100)) by lia.
    Z.div_mod_to_equations; lia.
  - apply Z.ltb_ge in Hlt.
    replace (mp - 9 <=? 2) with true by (symmetry; apply Z.leb_le; lia).
    replace (mp - 9 + 9) with mp by lia.
    replace (yoe + 400 * era + 1 - 1) with (yoe + 400 * era) by lia.
    repeat split; try lia.
    enough (365 * (yoe + 400 * era) + (yoe + 400 * era) / 4
            - (yoe + 400 * era) / 100 + (yoe + 400 * era) / 400
            = 146097 * era + (365 * yoe + yoe / 4 - yoe / 100)) by lia.
    Z.div_mod_to_equations; lia.
Qed.

(** Calendar days are told apart by their dates. *)
Lemma civilOfDays_inj (z1 z2 : Z) :
  civilOfDays z1 = civilOfDays z2 -> z1 = z2.
Proof.
  intros Heq.
  pose proof (civilOfDays_spec z1) as H1.
  pose proof (civilOfDays_spec z2) as H2.
  rewrite Heq in H1. destruct (civilOfDays z2) as [[y m] d].
  destruct H1 as (_ & _ & <-), H2 as (_ & _ & <-). reflexivity.
Qed.

(** In UTC, adding [n] days with [AddDate] is adding [n] times 24
    hours. *)
Lemma AddDate_days (t : Time) (n : Z) : AddDate t 0 0 n = t + n * Day.
Proof.
  unfold AddDate, Date, mkDate, clockNanos.
  pose proof (civilOfDays_spec (unixDays t)) as Hc.
  destruct (civilOfDays (unixDays t)) as [[y m] d].
  destruct Hc as (Hm & Hd & Hdays).
  rewrite !Z.add_0_r.
  replace ((m - 1) / 12) with 0 by (Z.div_mod_to_equations; lia).
  replace ((m - 1) mod 12 + 1) with m by (Z.div_mod_to_equations; lia).
  rewrite Z.add_0_r.
  assert (HD : daysOfCivil y m (d + n) = unixDays t + n)
    by (unfold daysOfCivil in *; lia).
  rewrite HD. unfold unixDays.
  pose proof (Z.div_mod t Day). rewrite Day_value in *. lia.
Qed.

End Calendar.

(** ** Formatted dates identify calendar days *)

Section Formatting.
Import GoTime.

Lemma append_cons (c : ascii) (s t : string) :
  String c s +:+ t = String c (s +:+ t).
Proof. reflexivity. Qed.

Lemma append_assoc (s t r : string) : (s +:+ t) +:+ r = s +:+ (t +:+ r).
Proof.
  induction s as [|c s IH]; [reflexivity|].
  rewrite !append_cons, IH. reflexivity.
Qed.

Lemma length_append (s t : string) :
  String.length (s +:+ t) = (String.length s + String.length t)%nat.
Proof.
  induction s as [|c s IH]; [reflexivity|].
  rewrite append_cons. cbn [String.length]. rewrite IH. reflexivity.
Qed.

(** Two concatenations with suffixes of the same length agree part by
    part. *)
Lemma append_inj_suffix (s1 s2 t1 t2 : string) :
  String.length t1 = String.length t2 ->
  s1 +:+ t1 = s2 +:+ t2 -> s1 = s2 /\ t1 = t2.
Proof.
  revert s2. induction s1 as [|c1 s1 IH]; intros [|c2 s2] Hlen Heq.
  - split; [reflexivity|exact Heq].
  - exfalso. apply (f_equal String.length) in Heq.
    change ("" +:+ t1) with t1 in Heq.
    rewrite append_cons in Heq. cbn [String.length] in Heq.
    rewrite length_append in Heq. lia.
  - exfalso. apply (f_equal String.length) in Heq.
    change ("" +:+ t2) with t2 in Heq.
    rewrite append_cons in Heq. cbn [String.length] in Heq.
    rewrite length_append in Heq. lia.
  - rewrite !append_cons in Heq. injection Heq as -> Heq.
    destruct (IH s2 Hlen Heq) as [-> ->]. split; reflexivity.
Qed.

Lemma digitsVal_append (s t : string) (acc : Z) :
  digitsVal (s +:+ t) acc = digitsVal t (digitsVal s acc).
Proof.
  revert acc. induction s as [|c s IH]; intros acc; [reflexivity|].
  rewrite append_cons. cbn [digitsVal]. apply IH.
Qed.

Lemma digitChar_val (d : Z) :
  0 <= d <= 9 -> Z.of_nat (nat_of_ascii (digitChar d)) - 48 = d.
Proof.
  intros H. unfold digitChar. rewrite nat_ascii_embedding; lia.
Qed.

Lemma digitChar_not_dash (d : Z) :
  0 <= d <= 9 -> Ascii.eqb (digitChar d) "-" = false.
Proof.
  intros H. apply Ascii.eqb_neq. intros Heq.
  apply (f_equal nat_of_ascii) in Heq.
  pose proof (digitChar_val d H) as Hv. rewrite Heq in Hv.
  change (nat_of_ascii "-") with 45%nat in Hv. lia.
Qed.

Lemma utod_acc (fuel : nat) :
  forall u acc, utod fuel u acc = utod fuel u "" +:+ acc.
Proof.
  induction fuel as [|fuel IH]; intros u acc; [reflexivity|].
  cbn [utod]. destruct (u / 10 =? 0); [reflexivity|].
  rewrite (IH _ (String _ acc)), (IH _ (String _ "")).
  rewrite append_assoc. reflexivity.
Qed.

Lemma utod_val (fuel : nat) :
  forall u, 0 <= u < 2 ^ Z.of_nat fuel -> digitsVal (utod fuel u "") 0 = u.
Proof.
  induction fuel as [|fuel IH]; intros u Hu.
  - cbn in *. lia.
  - cbn [utod].
    assert (Hd : 0 <= u mod 10 <= 9) by (Z.div_mod_to_equations; lia).
    destruct (u / 10 =? 0) eqn:Hq.
    + apply Z.eqb_eq in Hq. cbn [digitsVal].
      rewrite digitChar_val by exact Hd. Z.div_mod_to_equations; lia.
    + rewrite utod_acc, digitsVal_append, IH.
      * cbn [digitsVal]. rewrite digitChar_val by exact Hd.
        Z.div_mod_to_equations; lia.
      * rewrite Nat2Z.inj_succ, Z.pow_succ_r in Hu by lia.
        Z.div_mod_to_equations; lia.
Qed.

(** A numeral never begins with a minus sign. *)
Lemma utod_head (fuel : nat) :
  forall u acc, 0 <= u ->
  exists c r, utod (S fuel) u acc = String c r /\ Ascii.eqb c "-" = false.
Proof.
  induction fuel as [|fuel IH]; intros u acc Hu.
  - exists (digitChar (u mod 10)), acc. split.
    + cbn [utod]. destruct (u / 10 =? 0); reflexivity.
    + apply digitChar_not_dash. Z.div_mod_to_equations; lia.
  - remember (S fuel) as f eqn:Hf. cbn [utod].
    destruct (u / 10 =? 0).
    + exists (digitChar (u mod 10)), acc. split; [reflexivity|].
      apply digitChar_not_dash. Z.div_mod_to_equations; lia.
    + subst f. apply IH. Z.div_mod_to_equations; lia.
Qed.

Lemma zeros_val (n : nat) (s : string) :
  digitsVal (zeros n s) 0 = digitsVal s 0.
Proof. induction n as [|n IH]; [reflexivity|exact IH]. Qed.

Lemma parseInt_no_sign (s : string) :
  (exists c r, s = String c r /\ Ascii.eqb c "-" = false) ->
  parseInt s = digitsVal s 0.
Proof. intros (c & r & -> & Hc). unfold parseInt. rewrite Hc. reflexivity. Qed.

(** [appendInt] can be read back, whatever the width. *)
Lemma parseInt_appendInt (x : Z) (width : nat) :
  parseInt (appendInt x width) = x.
Proof.
  unfold appendInt.
  set (u := Z.abs x). set (fuel := Z.to_nat (Z.log2 u)).
  assert (Hu : 0 <= u < 2 ^ Z.of_nat (S fuel)).
  { split; [apply Z.abs_nonneg|].
    unfold fuel. rewrite Nat2Z.inj_succ, Z2Nat.id by apply Z.log2_nonneg.
    destruct (Z.eq_dec u 0) as [->|Hne]; [reflexivity|].
    apply Z.log2_spec. pose proof (Z.abs_nonneg x). unfold u in *. lia. }
  assert (Hval : digitsVal (zeroPad width (utod (S fuel) u "")) 0 = u).
  { unfold zeroPad. rewrite zeros_val. apply utod_val, Hu. }
  destruct (x <? 0) eqn:Hneg.
  - apply Z.ltb_lt in Hneg. unfold parseInt.
    change (Ascii.eqb "-" "-") with true. cbn match.
    rewrite Hval. unfold u. lia.
  - apply Z.ltb_ge in Hneg. rewrite parseInt_no_sign.
    + rewrite Hval. unfold u. lia.
    + unfold zeroPad.
      destruct (width - String.length (utod (S fuel) u ""))%nat as [|k].
      * apply utod_head. lia.
      * exists "0"%char. eexists. split; reflexivity.
Qed.

Lemma appendInt_inj (x y : Z) (width : nat) :
  appendInt x width = appendInt y width -> x = y.
Proof.
  intros H. apply (f_equal parseInt) in H.
  rewrite !parseInt_appendInt in H. exact H.
Qed.

(** Months and days of the month print in exactly two characters. *)
Lemma twoDigits_checked :
  forallb (fun n => Nat.eqb (String.length (appendInt (Z.of_nat n) 2)) 2)
          (seq 0 100) = true.
Proof. vm_compute. reflexivity. Qed.

Lemma length_appendInt_2 (x : Z) :
  0 <= x <= 99 -> String.length (appendInt x 2) = 2%nat.
Proof.
  intros H. pose proof twoDigits_checked as Hall.
  rewrite forallb_forall in Hall.
  specialize (Hall (Z.to_nat x)). rewrite Z2Nat.id in Hall by lia.
  apply Nat.eqb_eq, Hall, in_seq. lia.
Qed.

(** Two instants are formatted alike exactly when they fall on the same
    UTC calendar day. *)
Lemma Format_inj (t u : Time) :
  Format t = Format u <-> unixDays t = unixDays u.
Proof.
  split.
  - unfold Format, Date. intros Heq.
    apply civilOfDays_inj.
    pose proof (civilOfDays_spec (unixDays t)) as Ht.
    pose proof (civilOfDays_spec (unixDays u)) as Hu.
    destruct (civilOfDays (unixDays t)) as [[y1 m1] d1].
    destruct (civilOfDays (unixDays u)) as [[y2 m2] d2].
    destruct Ht as (Hm1 & Hd1 & _), Hu as (Hm2 & Hd2 & _).
    assert (L1 : forall m d, 1 <= m <= 12 -> 1 <= d <= 31 ->
               String.length ("-" +:+ appendInt m 2 +:+ "-" +:+ appendInt d 2) = 6%nat).
    { intros m d Hm Hd.
      rewrite !length_append, !length_appendInt_2 by lia. reflexivity. }
    apply append_inj_suffix in Heq; [|rewrite !L1 by assumption; reflexivity].
    destruct Heq as [Hy Hrest].
    change ("-" +:+ ?s)%string with (String "-" s) in Hrest.
    rewrite !append_cons in Hrest. injection Hrest as Hrest.
    change ("" +:+ ?s)%string with s in Hrest.
    apply append_inj_suffix in Hrest.
    + destruct Hrest as [Hm Hd]. injection Hd as Hd.
      apply appendInt_inj in Hy, Hm, Hd. congruence.
    + cbn [String.length]. rewrite !length_appendInt_2 by lia. reflexivity.
  - unfold Format, Date. intros ->. reflexivity.
Qed.

End Formatting.

(** The calendar at some known dates: the epoch, the zero time, leap
    days of 2000 and 2024, the day after 1900-02-28 and 2100-02-28, a
    five-digit year and a year before year 0. *)
Example ex_known_dates :
  GoTime.Format 0 = "1970-01-01"%string /\
  GoTime.Format (-1) = "1969-12-31"%string /\
  GoTime.Format GoTime.zeroTime = "0001-01-01"%string /\
  GoTime.Format (951782400 * GoTime.Second) = "2000-02-29"%string /\
  GoTime.Format (1709164800 * GoTime.Second) = "2024-02-29"%string /\
  GoTime.Format (-2203891200 * GoTime.Second) = "1900-03-01"%string /\
  GoTime.Format (4107542400 * GoTime.Second) = "2100-03-01"%string /\
  GoTime.Format (253402300800 * GoTime.Second) = "10000-01-01"%string /\
  GoTime.Format (GoTime.zeroTime - 366 * GoTime.Day - 1) = "-0001-12-31"%string.
Proof. vm_compute. repeat split; reflexivity. Qed.

(** [AddDate] with months and years, normalised as [time.Date] does. *)
Example ex_AddDate_normalises :
  GoTime.Format (GoTime.AddDate (1709164800 * GoTime.Second) 1 0 0)
    = "2025-03-01"%string /\
  GoTime.Format (GoTime.AddDate (1709164800 * GoTime.Second) 0 (-14) 0)
    = "2022-12-29"%string /\
  GoTime.Format (GoTime.AddDate (1709164800 * GoTime.Second) 0 0 (-90))
    = "2023-12-01"%string.
Proof. vm_compute. repeat split; reflexivity. Qed.

(** Within the range of [Duration], [Sub] is the plain difference. *)
Lemma Sub_exact (t u : GoTime.Time) :
  GoTime.minDuration <= t - u <= GoTime.maxDuration -> GoTime.Sub t u = t - u.
Proof.
  intros [Hlo Hhi]. unfold GoTime.Sub.
  apply Z.leb_le in Hlo, Hhi. rewrite Hlo, Hhi. reflexivity.
Qed.

(** ** Binary64 facts the extractor depends on *)

Section Float64.
Local Open Scope float_scope.

(** Comparing equal to zero singles out the two signed zeros. *)
Lemma float_eqb_zero (q : float) : (q =? 0) = true -> q = 0 \/ q = -0.
Proof.
  rewrite FloatAxioms.eqb_spec. intros H.
  destruct (Prim2SF q) eqn:E.
  all: try (cbn in H; discriminate H).
  all: try (destruct s; cbn in H; discriminate H).
  all: destruct s; [right|left]; apply Prim2SF_inj; rewrite E; reflexivity.
Qed.

(** A quotient by zero is an infinity or not a number, never finite. *)
Lemma float_div_zero (x q : float) :
  (q =? 0) = true -> is_infinity (x / q) || is_nan (x / q) = true.
Proof.
  intros Hq. apply float_eqb_zero in Hq.
  assert (Hsf : exists s, Prim2SF q = S754_zero s)
    by (destruct Hq as [-> | ->]; eexists; reflexivity).
  destruct Hsf as [s Hs].
  unfold is_infinity, is_nan.
  rewrite !FloatAxioms.eqb_spec, abs_spec, div_spec, Hs.
  destruct (Prim2SF x) as [sx|sx| |sx mx ex]; cbn; reflexivity.
Qed.

Lemma float_inverse_zero (q : float) :
  (q =? 0) = true -> is_infinity (1 / q) = true.
Proof.
  intros Hq. apply float_eqb_zero in Hq. destruct Hq as [-> | ->]; reflexivity.
Qed.

(** A strictly positive amount passes the [Amount <= 0] test. *)
Lemma float_pos_not_le (a : float) : (0 <? a) = true -> (a <=? 0) = false.
Proof.
  rewrite ltb_spec, leb_spec. change (Prim2SF 0) with (S754_zero false).
  destruct (Prim2SF a) as [s|s| |s m e]; cbn; try discriminate;
    destruct s; cbn; congruence.
Qed.

End Float64.

(** ** The quote-table extractor *)

Section Extractor.
Import GoTime ExchangeAPI.
Local Open Scope float_scope.

Lemma storeLatest_rate (pair : CurrencyPair.t) (rate : float) (w : World) :
  rateOf (storeLatest pair rate w).1 = Ok rate.
Proof. reflexivity. Qed.

Lemma stampHistorical_rate (pair : CurrencyPair.t) (rate : float)
    (date : Time) (w : World) :
  rateOf (stampHistorical pair rate date w).1 = Ok rate.
Proof. reflexivity. Qed.

Lemma extractRate_outcome (quotes : gmap string float)
    (base target : Currency) (w : World) :
  rateOf (extractRate quotes (CurrencyPair.mk base target) w).1 =
  if String.eqb base USD then
    match quotes !! ("USD" +:+ target)%string with
    | Some q => Ok q
    | None => Err (rateNotFound target)
    end
  else if String.eqb target USD then
    match quotes !! ("USD" +:+ base)%string with
    | Some q => Ok (1 / q)
    | None => Err (rateNotFound base)
    end
  else
    match quotes !! ("USD" +:+ base)%string,
          quotes !! ("USD" +:+ target)%string with
    | Some qb, Some qt => Ok (qt / qb)
    | None, _ => Err (rateNotFound base)
    | Some _, None => Err (rateNotFound target)
    end.
Proof.
  unfold extractRate. cbn [CurrencyPair.BaseCurrency CurrencyPair.TargetCurrency].
  destruct (String.eqb base USD); [|destruct (String.eqb target USD)].
  - destruct (quotes !! _); [apply storeLatest_rate|reflexivity].
  - destruct (quotes !! _); [apply storeLatest_rate|reflexivity].
  - destruct (quotes !! ("USD" +:+ base)%string);
      destruct (quotes !! ("USD" +:+ target)%string);
      try reflexivity; apply storeLatest_rate.
Qed.

Lemma extractHistoricalRate_outcome (quotes : gmap string float)
    (base target : Currency) (date : Time) (w : World) :
  rateOf (extractHistoricalRate quotes (CurrencyPair.mk base target) date w).1 =
  rateOf (extractRate quotes (CurrencyPair.mk base target) w).1.
Proof.
  rewrite extractRate_outcome.
  unfold extractHistoricalRate.
  cbn [CurrencyPair.BaseCurrency CurrencyPair.TargetCurrency].
  destruct (String.eqb base USD); [|destruct (String.eqb target USD)].
  - destruct (quotes !! _); [apply stampHistorical_rate|reflexivity].
  - destruct (quotes !! _); [apply stampHistorical_rate|reflexivity].
  - destruct (quotes !! ("USD" +:+ base)%string);
      destruct (quotes !! ("USD" +:+ target)%string);
      try reflexivity; apply stampHistorical_rate.
Qed.

(** C1.  For a pair with distinct currencies (supported or not), both
    [extractRate] and [extractHistoricalRate] resolve as specified: the
    quote of the target when the base is USD, the inverse of the quote of
    the base when the target is USD, the quotient of the two quotes
    otherwise; a missing key gives the rate-not-found error naming the
    currency whose quote is missing (the base, when both are). *)
Theorem C1_extractor_resolves (quotes : gmap string float)
    (base target : Currency) (date : Time) (w : World) :
  base <> target ->
  resolve_spec quotes base target
    (rateOf (extractRate quotes (CurrencyPair.mk base target) w).1) /\
  resolve_spec quotes base target
    (rateOf (extractHistoricalRate quotes (CurrencyPair.mk base target) date w).1).
Proof.
  intros Hne. rewrite extractHistoricalRate_outcome, extractRate_outcome.
  assert (H : resolve_spec quotes base target
    (if String.eqb base USD then
       match quotes !! ("USD" +:+ target)%string with
       | Some q => Ok q
       | None => Err (rateNotFound target)
       end
     else if String.eqb target USD then
       match quotes !! ("USD" +:+ base)%string with
       | Some q => Ok (1 / q)
       | None => Err (rateNotFound base)
       end
     else
       match quotes !! ("USD" +:+ base)%string,
             quotes !! ("USD" +:+ target)%string with
       | Some qb, Some qt => Ok (qt / qb)
       | None, _ => Err (rateNotFound base)
       | Some _, None => Err (rateNotFound target)
       end)); [|split; exact H].
  unfold resolve_spec.
  destruct (String.eqb_spec base USD) as [Hb|Hb];
    [|destruct (String.eqb_spec target USD) as [Ht|Ht]].
  - repeat split; intros; solve [reflexivity | congruence].
  - repeat split; intros; solve [reflexivity | congruence].
  - repeat split; intros; solve [reflexivity | congruence].
Qed.

Lemma C1_extractor_resolves_witness :
  resolve_spec sampleQuotes EUR INR
    (rateOf (extractRate sampleQuotes (CurrencyPair.mk EUR INR) offlineWorld).1) /\
  resolve_spec sampleQuotes EUR INR
    (rateOf (extractHistoricalRate sampleQuotes (CurrencyPair.mk EUR INR)
               sampleNoon offlineWorld).1).
Proof.
  apply (C1_extractor_resolves sampleQuotes EUR INR sampleNoon offlineWorld).
  discriminate.
Defined.

End Extractor.

Example ex_cross_rate :
  rateOf (ExchangeAPI.extractRate sampleQuotes (CurrencyPair.mk EUR INR)
            offlineWorld).1 = Ok 165%float.
Proof. vm_compute. reflexivity. Qed.

(** ** Zero quotes *)

Section ZeroQuote.
Import GoTime ExchangeAPI.
Local Open Scope float_scope.

(** C2, as stated, fails: with ["USDINR"] quoted at exactly zero, INR to
    USD resolves to [+Inf], the cross-rate INR to EUR to [+Inf] and INR
    to JPY (both quotes zero) to [NaN], in the latest and in the
    historical extractor alike; none of them is an error. *)
Lemma C2_zero_quote_counterexample :
  zeroQuotes !! "USDINR"%string = Some 0 /\
  rateOf (extractRate zeroQuotes (CurrencyPair.mk INR USD) offlineWorld).1
    = Ok infinity /\
  rateOf (extractHistoricalRate zeroQuotes (CurrencyPair.mk INR USD)
            sampleNoon offlineWorld).1
    = Ok infinity /\
  rateOf (extractRate zeroQuotes (CurrencyPair.mk INR EUR) offlineWorld).1
    = Ok infinity /\
  rateOf (extractHistoricalRate zeroQuotes (CurrencyPair.mk INR EUR)
            sampleNoon offlineWorld).1
    = Ok infinity /\
  rateOf (extractRate zeroQuotes (CurrencyPair.mk INR JPY) offlineWorld).1
    = Ok nan.
Proof. vm_compute. repeat split; reflexivity. Qed.

(** C2, amended.  When the anchor quote of the base is present and
    compares equal to zero, resolution does not fail.  With USD as
    target it succeeds with [1 / q], an infinity; for a cross-rate whose
    target quote is present it succeeds with [qt / q], an infinity or
    not a number.  Only an absent key is an error. *)
Theorem C2_zero_quote_resolves (quotes : gmap string float)
    (base target : Currency) (date : Time) (w : World) (q : float) :
  base <> USD ->
  quotes !! ("USD" +:+ base)%string = Some q ->
  (q =? 0) = true ->
  (target = USD ->
     rateOf (extractRate quotes (CurrencyPair.mk base target) w).1 = Ok (1 / q)
     /\ rateOf (extractHistoricalRate quotes (CurrencyPair.mk base target) date w).1
        = Ok (1 / q)
     /\ is_infinity (1 / q) = true) /\
  (target <> USD ->
     forall qt, quotes !! ("USD" +:+ target)%string = Some qt ->
     rateOf (extractRate quotes (CurrencyPair.mk base target) w).1 = Ok (qt / q)
     /\ rateOf (extractHistoricalRate quotes (CurrencyPair.mk base target) date w).1
        = Ok (qt / q)
     /\ is_infinity (qt / q) || is_nan (qt / q) = true).
Proof.
  intros Hb Hq Hzero.
  rewrite extractHistoricalRate_outcome, extractRate_outcome.
  destruct (String.eqb_spec base USD) as [|_]; [contradiction|].
  split.
  - intros ->. rewrite String.eqb_refl, Hq.
    repeat split. apply float_inverse_zero, Hzero.
  - intros Ht qt Hqt.
    destruct (String.eqb_spec target USD) as [|_]; [contradiction|].
    rewrite Hq, Hqt. repeat split. apply float_div_zero, Hzero.
Qed.

Lemma C2_zero_quote_resolves_witness :
  (USD = USD ->
     rateOf (extractRate zeroQuotes (CurrencyPair.mk INR USD) offlineWorld).1
       = Ok (1 / 0)
     /\ rateOf (extractHistoricalRate zeroQuotes (CurrencyPair.mk INR USD)
                  sampleNoon offlineWorld).1 = Ok (1 / 0)
     /\ is_infinity (1 / 0) = true) /\
  (USD <> USD ->
     forall qt, zeroQuotes !! ("USD" +:+ USD)%string = Some qt ->
     rateOf (extractRate zeroQuotes (CurrencyPair.mk INR USD) offlineWorld).1
       = Ok (qt / 0)
     /\ rateOf (extractHistoricalRate zeroQuotes (CurrencyPair.mk INR USD)
                  sampleNoon offlineWorld).1 = Ok (qt / 0)
     /\ is_infinity (qt / 0) || is_nan (qt / 0) = true).
Proof.
  apply (C2_zero_quote_resolves zeroQuotes INR USD sampleNoon offlineWorld 0).
  - discriminate.
  - vm_compute. reflexivity.
  - reflexivity.
Defined.

End ZeroQuote.

(** ** The rate cache *)

Section Cache.
Import GoTime MemoryCache.

(** [Get] in one step: a lookup, and a comparison of the age of the entry
    with the TTL when there is one.  The map itself is never written. *)
Lemma Get_unfold (pair : CurrencyPair.t) (date : Time) (w : World) :
  Get pair date w =
  match cacheMap w !! getCacheKey pair date with
  | Some rate =>
      (if cacheTTL w <? Sub (clock w (ticks w)) (ExchangeRate.LastUpdated rate)
       then None else Some rate,
       (time_Now w).2)
  | None => (None, w)
  end.
Proof.
  unfold Get. cbn.
  destruct (cacheMap w !! getCacheKey pair date) as [rate|]; [|reflexivity].
  cbn. destruct (cacheTTL w <? Sub _ _); reflexivity.
Qed.

(** C3.  [Get] returns [(rate, true)] exactly when the key of the pair
    and date holds [rate] and its age, [now.Sub(rate.LastUpdated)], is at
    most the TTL; it returns not-found in every other case; and the store
    after the read is the store before it, expired entry included. *)
Theorem C3_Get_iff_fresh (w : World) (pair : CurrencyPair.t) (date : Time) :
  let key := getCacheKey pair date in
  let now := clock w (ticks w) in
  (forall rate,
     (Get pair date w).1 = Some rate <->
     cacheMap w !! key = Some rate
     /\ Sub now (ExchangeRate.LastUpdated rate) <= cacheTTL w) /\
  ((Get pair date w).1 = None <->
     cacheMap w !! key = None
     \/ exists rate, cacheMap w !! key = Some rate
                     /\ cacheTTL w < Sub now (ExchangeRate.LastUpdated rate)) /\
  cacheMap (Get pair date w).2 = cacheMap w.
Proof.
  cbv zeta. rewrite Get_unfold.
  destruct (cacheMap w !! getCacheKey pair date) as [entry|] eqn:Hm.
  - destruct (Z.ltb_spec (cacheTTL w)
                (Sub (clock w (ticks w)) (ExchangeRate.LastUpdated entry)))
      as [Hold|Hfresh]; cbn [fst snd].
    + split; [|split; [|reflexivity]].
      * intros rate. split; [discriminate|].
        intros [[= ->] Hle]. lia.
      * split; [|reflexivity]. intros _. right. eauto.
    + split; [|split; [|reflexivity]].
      * intros rate. split.
        -- intros [= ->]. split; [reflexivity|lia].
        -- intros [[= ->] _]. reflexivity.
      * split; [discriminate|].
        intros [|(rate & [= ->] & Hlt)]; [discriminate|lia].
  - cbn [fst snd]. split; [|split; [|reflexivity]].
    + intros rate. split; [discriminate|]. intros [? _]. discriminate.
    + split; [|reflexivity]. intros _. left. reflexivity.
Qed.

(** C4.  After [Set(rate)], a [Get] for the pair and date of [rate]
    returns [(rate, true)] as long as less than the TTL has elapsed since
    [rate.LastUpdated]; [Set] itself reports no error. *)
Theorem C4_Set_then_Get (w : World) (rate : ExchangeRate.t) :
  let w1 := (Set_ rate w).2 in
  Sub (clock w1 (ticks w1)) (ExchangeRate.LastUpdated rate) < cacheTTL w1 ->
  (Set_ rate w).1 = None /\
  (Get (CurrencyPair.mk (ExchangeRate.BaseCurrency rate)
                        (ExchangeRate.TargetCurrency rate))
       (ExchangeRate.Date rate) w1).1 = Some rate.
Proof.
  cbv zeta. intros Hage. split; [reflexivity|].
  rewrite Get_unfold. cbn in *.
  rewrite lookup_insert_eq.
  destruct (Z.ltb_spec (cacheTTL w)
              (Sub (clock w (ticks w)) (ExchangeRate.LastUpdated rate)));
    [lia|reflexivity].
Qed.

Lemma C4_Set_then_Get_witness :
  (Set_ sampleRate offlineWorld).1 = None /\
  (Get (CurrencyPair.mk USD INR) (Truncate sampleNoon (24 * Hour))
       (Set_ sampleRate offlineWorld).2).1 = Some sampleRate.
Proof.
  apply (C4_Set_then_Get offlineWorld sampleRate).
  vm_compute. reflexivity.
Defined.

Lemma expiredKeys_filter (now : Time) (ttl : Duration)
    (m : gmap string ExchangeRate.t) :
  expiredKeys now ttl m =
  (filter (fun kv => expired now ttl kv.2 = true) (map_to_list m)).*1.
Proof.
  unfold expiredKeys.
  enough (H : forall l acc,
             foldl (fun keys (kv : string * ExchangeRate.t) =>
                      if ttl <? Sub now (ExchangeRate.LastUpdated kv.2)
                      then keys ++ [kv.1] else keys) acc l
             = acc ++ (filter (fun kv => expired now ttl kv.2 = true) l).*1)
    by apply (H _ []).
  induction l as [|kv l IH]; intros acc; cbn [foldl].
  - rewrite filter_nil. cbn. rewrite app_nil_r. reflexivity.
  - rewrite IH, filter_cons.
    change (ttl <? Sub now (ExchangeRate.LastUpdated kv.2))
      with (expired now ttl kv.2).
    destruct (decide (expired now ttl kv.2 = true)) as [Hexp|Hexp].
    + rewrite Hexp. cbn. rewrite <- app_assoc. reflexivity.
    + apply not_true_is_false in Hexp. rewrite Hexp. reflexivity.
Qed.

Lemma deleteKeys_lookup (keys : list string) :
  forall (m : gmap string ExchangeRate.t) (k : string),
  deleteKeys keys m !! k = if decide (k ∈ keys) then None else m !! k.
Proof.
  unfold deleteKeys.
  induction keys as [|key keys IH]; intros m k; cbn [foldl].
  - rewrite decide_False by apply not_elem_of_nil. reflexivity.
  - rewrite IH. destruct (decide (k ∈ keys)) as [Hin|Hnin].
    + rewrite decide_True by (right; exact Hin). reflexivity.
    + destruct (decide (k = key)) as [->|Hne].
      * rewrite decide_True by left. apply lookup_delete_eq.
      * rewrite decide_False by (rewrite elem_of_cons; tauto).
        apply lookup_delete_ne. congruence.
Qed.

(** The sweep keeps exactly the entries that are not older than the TTL. *)
Lemma sweep_lookup (now : Time) (ttl : Duration)
    (m : gmap string ExchangeRate.t) (k : string) :
  deleteKeys (expiredKeys now ttl m) m !! k =
  match m !! k with
  | Some rate => if expired now ttl rate then None else Some rate
  | None => None
  end.
Proof.
  rewrite deleteKeys_lookup, expiredKeys_filter.
  destruct (decide (k ∈ (filter (fun kv => expired now ttl kv.2 = true)
                           (map_to_list m)).*1)) as [Hin|Hnin].
  - apply list_elem_of_fmap in Hin as ([k' rate] & -> & Hin).
    apply list_elem_of_filter in Hin as [Hexp Hin].
    apply elem_of_map_to_list in Hin. cbn in *. rewrite Hin, Hexp. reflexivity.
  - destruct (m !! k) as [rate|] eqn:Hm; [|reflexivity].
    destruct (expired now ttl rate) eqn:Hexp; [|reflexivity].
    exfalso. apply Hnin. apply list_elem_of_fmap. exists (k, rate).
    split; [reflexivity|]. apply list_elem_of_filter.
    split; [exact Hexp|]. apply elem_of_map_to_list. exact Hm.
Qed.

Lemma sweep_idempotent (now : Time) (ttl : Duration)
    (m : gmap string ExchangeRate.t) :
  let m1 := deleteKeys (expiredKeys now ttl m) m in
  deleteKeys (expiredKeys now ttl m1) m1 = m1.
Proof.
  cbv zeta. apply map_eq. intros k. rewrite !sweep_lookup.
  destruct (m !! k) as [rate|]; [|reflexivity].
  destruct (expired now ttl rate) eqn:Hexp; [reflexivity|].
  rewrite Hexp. reflexivity.
Qed.

(** C5.  Two sweeps in a row that read the same clock instant leave the
    store as the first one left it: the second removes nothing.  A sweep
    reports no error. *)
Theorem C5_ClearExpired_idempotent (w : World) :
  let w1 := (ClearExpired w).2 in
  clock w1 (ticks w1) = clock w (ticks w) ->
  (ClearExpired w).1 = None /\
  (ClearExpired w1).1 = None /\
  cacheMap (ClearExpired w1).2 = cacheMap w1.
Proof.
  cbv zeta. intros Hclock. split; [reflexivity|]. split; [reflexivity|].
  cbn in *. rewrite Hclock. apply sweep_idempotent.
Qed.

Lemma C5_ClearExpired_idempotent_witness :
  (ClearExpired stockedWorld).1 = None /\
  (ClearExpired (ClearExpired stockedWorld).2).1 = None /\
  cacheMap (ClearExpired (ClearExpired stockedWorld).2).2
  = cacheMap (ClearExpired stockedWorld).2.
Proof.
  apply (C5_ClearExpired_idempotent stockedWorld). reflexivity.
Defined.

End Cache.

Example ex_sweep_removes_stale :
  cacheMap (MemoryCache.ClearExpired stockedWorld).2
  = {[ "USD-INR-2025-01-03"%string := sampleRate ]}.
Proof. vm_compute. reflexivity. Qed.

Example ex_expired_is_a_miss_but_stays :
  (MemoryCache.Get (CurrencyPair.mk USD EUR) sampleNoon stockedWorld).1 = None
  /\ cacheMap (MemoryCache.Get (CurrencyPair.mk USD EUR) sampleNoon stockedWorld).2
       !! "USD-EUR-2025-01-03"%string = Some staleRate.
Proof. vm_compute. split; reflexivity. Qed.

(** ** Running service programs *)

Section Running.
Context {S : Type} (h : forall X, Call X -> S -> X * S).

Lemma run_bind {A B : Type} (p : Prog A) (f : A -> Prog B) (s : S) :
  run h (x <- p ;; f x) s = let '(a, s1) := run h p s in run h (f a) s1.
Proof.
  revert s. induction p as [a|X c k IH]; intros s; [reflexivity|].
  cbn. destruct (h X c s) as [x s1]. apply IH.
Qed.

Lemma run_call {X : Type} (c : Call X) (s : S) : run h (call c) s = h X c s.
Proof. cbn. destruct (h X c s). reflexivity. Qed.

(** [validateDate] reads the clock once and accepts the dates that are
    not before midnight ninety days ago. *)
Lemma validateDate_run (date : GoTime.Time) (s : S) :
  run h (ExchangeService.validateDate date) s =
  (if date <? (GoTime.unixDays (h _ TimeNow s).1 - 90) * GoTime.Day
   then Some ErrDateOutOfRange else None,
   (h _ TimeNow s).2).
Proof.
  unfold ExchangeService.validateDate. rewrite run_bind, run_call.
  destruct (h _ TimeNow s) as [now s1]. cbn [fst snd].
  rewrite Truncate_day, AddDate_days. unfold GoTime.Before.
  replace (GoTime.unixDays now * GoTime.Day + -90 * GoTime.Day)
    with ((GoTime.unixDays now - 90) * GoTime.Day) by lia.
  destruct (date <? _); reflexivity.
Qed.

End Running.

(** ** The adapters leave the clock alone *)

Section Steady.
Import MemoryCache ExchangeAPI.

Lemma steady_ret {A : Type} (a : A) : steady (ret a).
Proof. intros w. reflexivity. Qed.

Lemma steady_bind {A B : Type} (c : M A) (k : A -> M B) :
  steady c -> (forall a, steady (k a)) -> steady (x <- c ;; k x).
Proof.
  intros Hc Hk w. cbn [bind M_Monad].
  specialize (Hc w). destruct (c w) as [a w1]. cbn [snd] in Hc.
  rewrite (Hk a w1). exact Hc.
Qed.

Lemma steady_time_Now : steady time_Now.
Proof. intros w. reflexivity. Qed.

Lemma steady_http_Get (url : string) : steady (http_Get url).
Proof. intros w. reflexivity. Qed.

Lemma steady_set_cacheMap f : steady (set_cacheMap f).
Proof. intros w. reflexivity. Qed.

Lemma steady_set_latestRates f : steady (set_latestRates f).
Proof. intros w. reflexivity. Qed.

Lemma steady_get {A : Type} (f : World -> A) : steady (get f).
Proof. intros w. reflexivity. Qed.

Create HintDb steady.
#[local] Hint Resolve steady_time_Now steady_http_Get steady_set_cacheMap
  steady_set_latestRates steady_get : steady.

(** Take a composite action apart along its binds and case splits. *)
Ltac steady_step :=
  lazymatch goal with
  | |- steady (ret _) => apply steady_ret
  | |- steady (bind _ _) => apply steady_bind; [|intros]
  | |- steady (match ?x with _ => _ end) => destruct x
  | |- steady (if ?b then _ else _) => destruct b
  | |- _ => solve [auto with steady]
  end.
Ltac steady_auto := repeat steady_step.

Lemma steady_Get pair date : steady (Get pair date).
Proof. unfold Get. steady_auto. Qed.

Lemma steady_Set rate : steady (Set_ rate).
Proof. unfold Set_. steady_auto. Qed.

Lemma steady_ClearExpired : steady ClearExpired.
Proof. unfold ClearExpired. steady_auto. Qed.

Lemma steady_withAccessKey url : steady (withAccessKey url).
Proof. unfold withAccessKey. steady_auto. Qed.
#[local] Hint Resolve steady_withAccessKey : steady.

Lemma steady_fetchAllLatestRates : steady fetchAllLatestRates.
Proof. unfold fetchAllLatestRates. steady_auto. Qed.

Lemma steady_storeLatest pair rate : steady (storeLatest pair rate).
Proof. unfold storeLatest. steady_auto. Qed.
#[local] Hint Resolve steady_fetchAllLatestRates steady_storeLatest : steady.

Lemma steady_extractRate quotes pair : steady (extractRate quotes pair).
Proof. unfold extractRate. steady_auto. Qed.
#[local] Hint Resolve steady_extractRate : steady.

Lemma steady_FetchLatestRate pair : steady (FetchLatestRate pair).
Proof. unfold FetchLatestRate. steady_auto. Qed.

Lemma steady_stampHistorical pair rate date :
  steady (stampHistorical pair rate date).
Proof. unfold stampHistorical. steady_auto. Qed.
#[local] Hint Resolve steady_stampHistorical : steady.

Lemma steady_extractHistoricalRate quotes pair date :
  steady (extractHistoricalRate quotes pair date).
Proof. unfold extractHistoricalRate. steady_auto. Qed.
#[local] Hint Resolve steady_extractHistoricalRate : steady.

Lemma steady_FetchHistoricalRate pair date :
  steady (FetchHistoricalRate pair date).
Proof. unfold FetchHistoricalRate. steady_auto. Qed.
#[local] Hint Resolve steady_FetchHistoricalRate : steady.

Lemma steady_historicalLoop fuel request :
  forall cur rates, steady (historicalLoop fuel request cur rates).
Proof.
  induction fuel as [|fuel IH]; intros cur rates; cbn [historicalLoop];
    steady_auto; apply IH.
Qed.
#[local] Hint Resolve steady_historicalLoop : steady.

Lemma steady_FetchHistoricalRates fuel request :
  steady (FetchHistoricalRates fuel request).
Proof. unfold FetchHistoricalRates. steady_auto. Qed.

Lemma steady_refreshTargets rates base targets :
  steady (refreshTargets rates base targets).
Proof.
  induction targets as [|target targets IH]; cbn [refreshTargets];
    steady_auto; exact IH.
Qed.
#[local] Hint Resolve steady_refreshTargets : steady.

Lemma steady_refreshBases rates bases : steady (refreshBases rates bases).
Proof.
  induction bases as [|base bases IH]; cbn [refreshBases];
    steady_auto; exact IH.
Qed.
#[local] Hint Resolve steady_refreshBases : steady.

Lemma steady_RefreshRates : steady RefreshRates.
Proof. unfold RefreshRates. steady_auto. Qed.

(** Whatever the service calls, the wired adapters keep the clock. *)
Lemma adapters_keep_clock (X : Type) (c : Call X) (w : World) :
  clock (adapters X c w).2 = clock w.
Proof.
  destruct c; cbn [adapters].
  - apply steady_time_Now.
  - apply steady_Get.
  - apply steady_Set.
  - apply steady_ClearExpired.
  - apply steady_FetchLatestRate.
  - apply steady_FetchHistoricalRate.
  - apply (steady_bind _ _ (steady_FetchHistoricalRates _ _)).
    intros [r|]; apply steady_ret.
  - apply steady_RefreshRates.
Qed.

End Steady.

(** ** The ninety-day window *)

Section DateWindow.
Import GoTime ExchangeService.
Context {S : Type} (h : forall X, Call X -> S -> X * S).

(** The states the implementation can be in, closed under its calls. *)
Variable reachable : S -> Prop.
Hypothesis reachable_step :
  forall X (c : Call X) s, reachable s -> reachable (h X c s).2.

(** "Today" is fixed: in these states every reading of the clock falls
    on the UTC day that starts at [today]. *)
Variable today : Time.
Hypothesis fixedToday :
  forall s, reachable s -> Truncate (h _ TimeNow s).1 (24 * Hour) = today.

Lemma validateDate_today (date : Time) (s : S) :
  reachable s ->
  run h (validateDate date) s =
  (if date <? today - 90 * Day then Some ErrDateOutOfRange else None,
   (h _ TimeNow s).2).
Proof.
  intros Hs. rewrite validateDate_run. rewrite <- (fixedToday s Hs), Truncate_day.
  replace ((unixDays (h _ TimeNow s).1 - 90) * Day)
    with (unixDays (h _ TimeNow s).1 * Day - 90 * Day) by lia.
  reflexivity.
Qed.

Lemma daysBefore_today (n : Z) : AddDate today 0 0 (- n) = today - n * Day.
Proof. rewrite AddDate_days. lia. Qed.

Lemma GetHistoricalRate_window (from to : Currency) (date : Time) (s : S) :
  reachable s ->
  IsSupported from = true -> IsSupported to = true ->
  if date <? today - 90 * Day
  then run h (GetHistoricalRate from to date) s
       = (Err ErrDateOutOfRange, (h _ TimeNow s).2)
  else dateRejected (run h (GetHistoricalRate from to date) s).1 = false.
Proof.
  intros Hs Hfrom Hto. unfold GetHistoricalRate. rewrite Hfrom, Hto. cbn [negb orb].
  rewrite run_bind, validateDate_today by exact Hs.
  destruct (date <? today - 90 * Day); [reflexivity|].
  rewrite run_bind, run_call.
  destruct (h _ (CacheGet _ _) _) as [[rate|] s2]; [reflexivity|].
  rewrite run_bind, run_call.
  destruct (h _ (RepoFetchHistoricalRate _ _) s2) as [[rate|err] s3];
    [|reflexivity].
  rewrite run_bind, run_call. destruct (h _ (CacheSet rate) s3). reflexivity.
Qed.

Lemma GetLatestRate_not_rejected (from to : Currency) (s : S) :
  dateRejected (run h (GetLatestRate from to) s).1 = false.
Proof.
  unfold GetLatestRate.
  destruct (negb (IsSupported from) || negb (IsSupported to)); [reflexivity|].
  rewrite run_bind, run_call. destruct (h _ TimeNow s) as [now s1].
  rewrite run_bind, run_call.
  destruct (h _ (CacheGet _ _) s1) as [[rate|] s2]; [reflexivity|].
  rewrite run_bind, run_call.
  destruct (h _ (RepoFetchLatestRate _) s2) as [[rate|err] s3]; [|reflexivity].
  rewrite run_bind, run_call. destruct (h _ (CacheSet rate) s3). reflexivity.
Qed.

Lemma GetHistoricalRates_window (request : HistoricalRateRequest.t) (s : S) :
  reachable s ->
  IsSupported (HistoricalRateRequest.BaseCurrency request) = true ->
  IsSupported (HistoricalRateRequest.TargetCurrency request) = true ->
  if (HistoricalRateRequest.StartDate request <? today - 90 * Day)
     || (HistoricalRateRequest.EndDate request <? today - 90 * Day)
  then (run h (GetHistoricalRates request) s).1 = Err ErrDateOutOfRange
  else dateRejected (run h (GetHistoricalRates request) s).1 = false.
Proof.
  intros Hs Hfrom Hto. unfold GetHistoricalRates. rewrite Hfrom, Hto.
  cbn [negb orb]. unfold validateDateRange.
  do 2 rewrite run_bind. rewrite validateDate_today by exact Hs.
  destruct (HistoricalRateRequest.StartDate request <? today - 90 * Day);
    [reflexivity|].
  rewrite run_bind, validateDate_today by (apply reachable_step; exact Hs).
  destruct (HistoricalRateRequest.EndDate request <? today - 90 * Day);
    [reflexivity|].
  cbn [orb].
  destruct (After _ _); [reflexivity|].
  cbn. destruct (h _ (RepoFetchHistoricalRates request) _) as [[rates|err] s3];
    reflexivity.
Qed.

Lemma ConvertCurrency_window (request : ConversionRequest.t) (s : S) :
  reachable s ->
  IsSupported (ConversionRequest.FromCurrency request) = true ->
  IsSupported (ConversionRequest.ToCurrency request) = true ->
  (ConversionRequest.Amount request <=? 0)%float = false ->
  if negb (IsZero (ConversionRequest.Date request))
     && (ConversionRequest.Date request <? today - 90 * Day)
  then (run h (ConvertCurrency request) s).1 = Err ErrDateOutOfRange
  else dateRejected (run h (ConvertCurrency request) s).1 = false.
Proof.
  intros Hs Hfrom Hto Hamount. unfold ConvertCurrency.
  rewrite Hfrom, Hto, Hamount. cbn [negb orb]. rewrite run_bind.
  destruct (IsZero (ConversionRequest.Date request)); cbn [negb andb].
  - pose proof (GetLatestRate_not_rejected
                  (ConversionRequest.FromCurrency request)
                  (ConversionRequest.ToCurrency request) s) as Hl.
    destruct (run h (GetLatestRate _ _) s) as [[rate|err] s1]; [reflexivity|].
    exact Hl.
  - rewrite run_bind, validateDate_today by exact Hs.
    pose proof (GetHistoricalRate_window
                  (ConversionRequest.FromCurrency request)
                  (ConversionRequest.ToCurrency request)
                  (ConversionRequest.Date request)
                  (h _ TimeNow s).2 (reachable_step _ TimeNow s Hs) Hfrom Hto)
      as Hh.
    destruct (ConversionRequest.Date request <? today - 90 * Day);
      [reflexivity|].
    destruct (run h (GetHistoricalRate _ _ _) _) as [[rate|err] s1];
      [reflexivity|exact Hh].
Qed.

(** C6.  With "today" fixed, the date exactly 90 days before today
    passes [validateDate] and the date 91 days before fails with
    [ErrDateOutOfRange].  The same boundary governs the three dated
    operations on supported currencies: at 91 days each of them fails
    with [ErrDateOutOfRange]; at 90 days none of them does.  This holds
    for every implementation of the cache and the provider, the mocks of
    the unit tests and the wired adapters alike. *)
Theorem C6_ninety_day_boundary :
  let d90 := AddDate today 0 0 (-90) in
  let d91 := AddDate today 0 0 (-91) in
  forall s, reachable s ->
  (run h (validateDate d90) s).1 = None /\
  (run h (validateDate d91) s).1 = Some ErrDateOutOfRange /\
  (forall from to,
     IsSupported from = true -> IsSupported to = true ->
     dateRejected (run h (GetHistoricalRate from to d90) s).1 = false /\
     (run h (GetHistoricalRate from to d91) s).1 = Err ErrDateOutOfRange) /\
  (forall from to,
     IsSupported from = true -> IsSupported to = true ->
     dateRejected (run h (GetHistoricalRates
       (HistoricalRateRequest.mk from to d90 d90)) s).1 = false /\
     (run h (GetHistoricalRates
       (HistoricalRateRequest.mk from to d91 d90)) s).1 = Err ErrDateOutOfRange /\
     (run h (GetHistoricalRates
       (HistoricalRateRequest.mk from to d90 d91)) s).1 = Err ErrDateOutOfRange) /\
  (forall from to amount,
     IsSupported from = true -> IsSupported to = true ->
     (amount <=? 0)%float = false ->
     dateRejected (run h (ConvertCurrency
       (ConversionRequest.mk from to amount d90)) s).1 = false /\
     (IsZero d91 = false ->
      (run h (ConvertCurrency
        (ConversionRequest.mk from to amount d91)) s).1 = Err ErrDateOutOfRange)).
Proof.
  cbv zeta. intros s Hs.
  change (-90) with (- (90)). change (-91) with (- (91)).
  rewrite !daysBefore_today.
  assert (H90 : (today - 90 * Day <? today - 90 * Day) = false)
    by apply Z.ltb_irrefl.
  assert (H91 : (today - 91 * Day <? today - 90 * Day) = true)
    by (apply Z.ltb_lt; rewrite Day_value; lia).
  split; [|split; [|split; [|split]]].
  - rewrite validateDate_today, H90 by exact Hs. reflexivity.
  - rewrite validateDate_today, H91 by exact Hs. reflexivity.
  - intros from to Hf Ht. split.
    + pose proof (GetHistoricalRate_window from to (today - 90 * Day) s Hs Hf Ht) as G.
      rewrite H90 in G. exact G.
    + pose proof (GetHistoricalRate_window from to (today - 91 * Day) s Hs Hf Ht) as G.
      rewrite H91 in G. rewrite G. reflexivity.
  - intros from to Hf Ht. split; [|split].
    + pose proof (GetHistoricalRates_window
                    (HistoricalRateRequest.mk from to (today - 90 * Day)
                       (today - 90 * Day)) s Hs Hf Ht) as G.
      cbn in G. rewrite H90 in G. exact G.
    + pose proof (GetHistoricalRates_window
                    (HistoricalRateRequest.mk from to (today - 91 * Day)
                       (today - 90 * Day)) s Hs Hf Ht) as G.
      cbn in G. rewrite H91 in G. exact G.
    + pose proof (GetHistoricalRates_window
                    (HistoricalRateRequest.mk from to (today - 90 * Day)
                       (today - 91 * Day)) s Hs Hf Ht) as G.
      cbn in G. rewrite H90, H91 in G. exact G.
  - intros from to amount Hf Ht Ha. split.
    + pose proof (ConvertCurrency_window
                    (ConversionRequest.mk from to amount (today - 90 * Day))
                    s Hs Hf Ht Ha) as G.
      cbn in G. rewrite H90, andb_false_r in G. exact G.
    + intros Hz.
      pose proof (ConvertCurrency_window
                    (ConversionRequest.mk from to amount (today - 91 * Day))
                    s Hs Hf Ht Ha) as G.
      cbn in G. rewrite H91, Hz in G. exact G.
Qed.

End DateWindow.

(** The boundary on the mocks of the unit tests and on the wired
    adapters in a world whose clock stands at [sampleNoon]. *)
Lemma C6_ninety_day_boundary_witness :
  let ports := mockPorts sampleNoon None (Err (Errorf "API error")) in
  let d90 := GoTime.AddDate sampleToday 0 0 (-90) in
  let d91 := GoTime.AddDate sampleToday 0 0 (-91) in
  ((run ports (ExchangeService.validateDate d90) tt).1 = None /\
   (run ports (ExchangeService.validateDate d91) tt).1 = Some ErrDateOutOfRange /\
   (run ports (ExchangeService.GetHistoricalRate USD INR d91) tt).1
     = Err ErrDateOutOfRange /\
   (run ports (ExchangeService.GetHistoricalRates
      (HistoricalRateRequest.mk USD INR d91 d90)) tt).1 = Err ErrDateOutOfRange /\
   (run ports (ExchangeService.ConvertCurrency
      (ConversionRequest.mk USD INR 100%float d91)) tt).1 = Err ErrDateOutOfRange)
  /\
  ((run adapters (ExchangeService.validateDate d90) liveWorld).1 = None /\
   (run adapters (ExchangeService.validateDate d91) liveWorld).1
     = Some ErrDateOutOfRange /\
   (run adapters (ExchangeService.GetHistoricalRate USD INR d91) liveWorld).1
     = Err ErrDateOutOfRange /\
   dateRejected
     (run adapters (ExchangeService.GetHistoricalRate USD INR d90) liveWorld).1
     = false).
Proof.
  cbv zeta. split.
  - destruct (C6_ninety_day_boundary
                (mockPorts sampleNoon None (Err (Errorf "API error")))
                (fun _ => True) (fun _ _ _ _ => I)
                sampleToday (fun _ _ => eq_refl) tt I)
      as (H90 & H91 & Hrate & Hrange & Hconv).
    split; [exact H90|]. split; [exact H91|].
    split; [apply (Hrate USD INR); reflexivity|].
    split; [apply (Hrange USD INR); reflexivity|].
    apply (Hconv USD INR 100%float); reflexivity.
  - destruct (C6_ninety_day_boundary adapters
                (fun w => clock w = clock liveWorld)
                (fun X c w Hw => eq_trans (adapters_keep_clock X c w) Hw)
                sampleToday
                (fun w Hw => f_equal (fun ck => GoTime.Truncate (ck (ticks w))
                                                  (24 * GoTime.Hour)) Hw)
                liveWorld eq_refl)
      as (H90 & H91 & Hrate & _).
    split; [exact H90|]. split; [exact H91|].
    split; apply (Hrate USD INR); reflexivity.
Defined.

Example ex_window_dates :
  GoTime.Format sampleToday = "2025-01-03"%string /\
  GoTime.Format (GoTime.AddDate sampleToday 0 0 (-90)) = "2024-10-05"%string /\
  GoTime.Format (GoTime.AddDate sampleToday 0 0 (-91)) = "2024-10-04"%string.
Proof. vm_compute. repeat split; reflexivity. Qed.

(** The same boundary with the service wired to the real adapters. *)
Example ex_window_adapters :
  (run adapters (ExchangeService.GetHistoricalRate USD INR
                   (GoTime.AddDate sampleToday 0 0 (-91))) offlineWorld).1
    = Err ErrDateOutOfRange /\
  (run adapters (ExchangeService.GetHistoricalRate USD INR
                   (GoTime.AddDate sampleToday 0 0 (-90))) offlineWorld).1
    = Err (ErrorfWV ErrExternalAPIFailure
             (ErrorfW "failed to send request" (Errorf "no route to host"))).
Proof. vm_compute. split; reflexivity. Qed.

(** ** Conversion *)

Section Conversion.
Import GoTime ExchangeService.
Local Open Scope float_scope.

(** C8.  Validation comes first and calls nothing.  With both currencies
    supported and an amount [<= 0], [ConvertCurrency] is the program that
    returns [ErrInvalidAmount] at once: it makes no cache or provider
    call, and so gives that answer under every implementation and leaves
    every state as it was.  With an unsupported currency it returns
    [ErrInvalidCurrency] in the same way, whatever the amount. *)
Theorem C8_validation_before_calls (request : ConversionRequest.t) :
  (IsSupported (ConversionRequest.FromCurrency request) = true ->
   IsSupported (ConversionRequest.ToCurrency request) = true ->
   (ConversionRequest.Amount request <=? 0) = true ->
   ConvertCurrency request = Ret (Err ErrInvalidAmount) /\
   forall (S : Type) (h : forall X, Call X -> S -> X * S) (s : S),
     run h (ConvertCurrency request) s = (Err ErrInvalidAmount, s)) /\
  (IsSupported (ConversionRequest.FromCurrency request) = false \/
   IsSupported (ConversionRequest.ToCurrency request) = false ->
   ConvertCurrency request = Ret (Err ErrInvalidCurrency) /\
   forall (S : Type) (h : forall X, Call X -> S -> X * S) (s : S),
     run h (ConvertCurrency request) s = (Err ErrInvalidCurrency, s)).
Proof.
  split.
  - intros Hfrom Hto Hamount.
    assert (E : ConvertCurrency request = Ret (Err ErrInvalidAmount))
      by (unfold ConvertCurrency; rewrite Hfrom, Hto, Hamount; reflexivity).
    split; [exact E|]. intros S h s. rewrite E. reflexivity.
  - intros Hbad.
    assert (E : ConvertCurrency request = Ret (Err ErrInvalidCurrency)).
    { unfold ConvertCurrency.
      destruct Hbad as [-> | ->]; [reflexivity|].
      rewrite orb_true_r. reflexivity. }
    split; [exact E|]. intros S h s. rewrite E. reflexivity.
Qed.

Lemma C8_validation_before_calls_witness :
  ConvertCurrency (ConversionRequest.mk USD INR (-100) zeroTime)
    = Ret (Err ErrInvalidAmount) /\
  ConvertCurrency (ConversionRequest.mk "XYZ"%string INR (-100) zeroTime)
    = Ret (Err ErrInvalidCurrency).
Proof.
  split.
  - apply (proj1 (C8_validation_before_calls
                    (ConversionRequest.mk USD INR (-100) zeroTime)));
      reflexivity.
  - apply (proj2 (C8_validation_before_calls
                    (ConversionRequest.mk "XYZ"%string INR (-100) zeroTime))).
    left. reflexivity.
Defined.

(** C7.  A request with supported currencies and a positive amount whose
    rate resolution succeeds with [rate] is answered with
    [ToAmount = Amount * rate.Rate], [FromAmount = Amount],
    [Rate = rate.Rate] and [Date = rate.Date].  Resolution is
    [GetLatestRate] for a request without a date, and [validateDate]
    followed by [GetHistoricalRate] for a dated one. *)
Theorem C7_conversion_result {S : Type} (h : forall X, Call X -> S -> X * S)
    (request : ConversionRequest.t) (rate : ExchangeRate.t) (s s' : S) :
  let from := ConversionRequest.FromCurrency request in
  let to := ConversionRequest.ToCurrency request in
  let amount := ConversionRequest.Amount request in
  let date := ConversionRequest.Date request in
  IsSupported from = true ->
  IsSupported to = true ->
  (0 <? amount) = true ->
  (IsZero date = true /\ run h (GetLatestRate from to) s = (Ok rate, s')) \/
  (IsZero date = false /\
   exists s1, run h (validateDate date) s = (None, s1) /\
              run h (GetHistoricalRate from to date) s1 = (Ok rate, s')) ->
  run h (ConvertCurrency request) s =
  (Ok {| ConversionResult.FromCurrency := from;
         ConversionResult.ToCurrency := to;
         ConversionResult.FromAmount := amount;
         ConversionResult.ToAmount := amount * ExchangeRate.Rate rate;
         ConversionResult.Rate := ExchangeRate.Rate rate;
         ConversionResult.Date := ExchangeRate.Date rate |}, s').
Proof.
  cbv zeta. intros Hfrom Hto Hamount Hres.
  apply float_pos_not_le in Hamount.
  unfold ConvertCurrency. rewrite Hfrom, Hto, Hamount. cbn [negb orb].
  rewrite run_bind.
  destruct Hres as [[Hz Hrun] | [Hz (s1 & Hval & Hrun)]]; rewrite Hz; cbn [negb].
  - rewrite Hrun. reflexivity.
  - rewrite run_bind, Hval, Hrun. reflexivity.
Qed.

(** The conversion of the service's unit test: 100 USD at a cached rate
    of 82.5 are 8250 INR. *)
Lemma C7_conversion_result_witness :
  run (mockPorts sampleNoon (Some sampleRate) (Err (Errorf "API error")))
      (ConvertCurrency (ConversionRequest.mk USD INR 100 zeroTime)) tt =
  (Ok {| ConversionResult.FromCurrency := USD;
         ConversionResult.ToCurrency := INR;
         ConversionResult.FromAmount := 100;
         ConversionResult.ToAmount := 8250;
         ConversionResult.Rate := 82.5;
         ConversionResult.Date := ExchangeRate.Date sampleRate |}, tt).
Proof.
  apply (C7_conversion_result
           (mockPorts sampleNoon (Some sampleRate) (Err (Errorf "API error")))
           (ConversionRequest.mk USD INR 100 zeroTime) sampleRate tt tt).
  - reflexivity.
  - reflexivity.
  - reflexivity.
  - left. split; reflexivity.
Defined.

End Conversion.

(** ** Which pairs reach the cache and the provider *)

Section IdenticalPairs.
Import GoTime ExchangeService.

Lemma Requests_bind {A B : Type} (prog : Prog A) (f : A -> Prog B)
    (p : CurrencyPair.t) :
  Requests (x <- prog ;; f x) p ->
  Requests prog p \/ exists a, Requests (f a) p.
Proof.
  induction prog as [a|X c k IH]; cbn.
  - intros H. right. exists a. exact H.
  - intros [H|[x H]]; [left; left; exact H|].
    destruct (IH x H) as [H'|H']; [left; right; exists x; exact H'|right; exact H'].
Qed.

Lemma validateDate_requests (date : Time) (p : CurrencyPair.t) :
  ~ Requests (validateDate date) p.
Proof.
  cbn. intros [H|[now H]]; [discriminate|].
  destruct (Before date _); exact H.
Qed.

Lemma GetLatestRate_requests (from to : Currency) (p : CurrencyPair.t) :
  Requests (GetLatestRate from to) p -> p = CurrencyPair.mk from to.
Proof.
  unfold GetLatestRate.
  destruct (negb (IsSupported from) || negb (IsSupported to)); cbn; [tauto|].
  intros [H|[now [H|[[rate|] H]]]]; try discriminate; try congruence.
  - destruct H.
  - cbn in H. destruct H as [H|[[rate|err] H]]; try congruence.
    + cbn in H. destruct H as [H|[x []]]. discriminate.
    + destruct H.
Qed.

Lemma GetHistoricalRate_requests (from to : Currency) (date : Time)
    (p : CurrencyPair.t) :
  Requests (GetHistoricalRate from to date) p -> p = CurrencyPair.mk from to.
Proof.
  unfold GetHistoricalRate.
  destruct (negb (IsSupported from) || negb (IsSupported to)); cbn; [tauto|].
  intros [H|[now H]]; [discriminate|].
  destruct (Before date _); cbn in H; [destruct H|].
  destruct H as [H|[[rate|] H]]; try congruence.
  - destruct H.
  - cbn in H. destruct H as [H|[[rate|err] H]]; try congruence.
    + cbn in H. destruct H as [H|[x []]]. discriminate.
    + destruct H.
Qed.

Lemma ConvertCurrency_requests (request : ConversionRequest.t)
    (p : CurrencyPair.t) :
  Requests (ConvertCurrency request) p ->
  p = CurrencyPair.mk (ConversionRequest.FromCurrency request)
                      (ConversionRequest.ToCurrency request).
Proof.
  unfold ConvertCurrency.
  destruct (negb _ || negb _); [intros []|].
  destruct (PrimFloat.leb _ _); [intros []|].
  intros H. apply Requests_bind in H. destruct H as [H|[[rate|err] []]].
  destruct (negb (IsZero _)).
  - apply Requests_bind in H. destruct H as [H|[[err|] H]].
    + exfalso. exact (validateDate_requests _ _ H).
    + destruct H.
    + exact (GetHistoricalRate_requests _ _ _ _ H).
  - exact (GetLatestRate_requests _ _ _ H).
Qed.

Lemma Requests_call {X A : Type} (c : Call X) (k : X -> Prog A)
    (p : CurrencyPair.t) :
  requestedPair c = Some p \/ (exists x, Requests (k x) p) ->
  Requests (x <- call c ;; k x) p.
Proof. intros H. exact H. Qed.

Lemma Requests_bind_l {A B : Type} (prog : Prog A) (f : A -> Prog B)
    (p : CurrencyPair.t) :
  Requests prog p -> Requests (x <- prog ;; f x) p.
Proof.
  induction prog as [a|X c k IH]; cbn; [tauto|].
  intros [H|[x H]]; [left; exact H|right; exists x; apply IH, H].
Qed.

Lemma GetLatestRate_reaches (from to : Currency) :
  IsSupported from = true -> IsSupported to = true ->
  Requests (GetLatestRate from to) (CurrencyPair.mk from to).
Proof.
  intros Hfrom Hto. unfold GetLatestRate. rewrite Hfrom, Hto. cbn [negb orb].
  apply Requests_call. right. exists 0.
  apply Requests_call. left. reflexivity.
Qed.

Lemma GetHistoricalRate_reaches (from to : Currency) (date : Time) :
  IsSupported from = true -> IsSupported to = true ->
  Requests (GetHistoricalRate from to date) (CurrencyPair.mk from to).
Proof.
  intros Hfrom Hto. unfold GetHistoricalRate, validateDate.
  rewrite Hfrom, Hto. cbn [negb orb].
  cbn [bind Prog_Monad Prog_bind call ret Requests].
  right. exists date. rewrite Truncate_day, AddDate_days.
  replace (Before date (unixDays date * Day + -90 * Day)) with false.
  - cbn [bind Prog_Monad Prog_bind call ret Requests]. left. reflexivity.
  - symmetry. apply Z.ltb_ge. unfold unixDays.
    pose proof (Z.mod_pos_bound date Day) as Hm.
    pose proof (Z.div_mod date Day) as Hd.
    rewrite Day_value in *. lia.
Qed.

Lemma ConvertCurrency_reaches (from to : Currency) (amount : float)
    (date : Time) :
  IsSupported from = true -> IsSupported to = true ->
  (amount <=? 0)%float = false ->
  Requests (ConvertCurrency (ConversionRequest.mk from to amount date))
           (CurrencyPair.mk from to).
Proof.
  intros Hfrom Hto Hamount. unfold ConvertCurrency.
  cbn [ConversionRequest.FromCurrency ConversionRequest.ToCurrency
       ConversionRequest.Amount ConversionRequest.Date].
  rewrite Hfrom, Hto, Hamount. cbn [negb orb].
  apply Requests_bind_l.
  destruct (IsZero date); cbn [negb].
  - apply GetLatestRate_reaches; assumption.
  - unfold validateDate.
    cbn [bind Prog_Monad Prog_bind call ret Requests].
    right. exists date. rewrite Truncate_day, AddDate_days.
    replace (Before date (unixDays date * Day + -90 * Day)) with false.
    + cbn [bind Prog_Monad Prog_bind call ret].
      apply GetHistoricalRate_reaches; assumption.
    + symmetry. apply Z.ltb_ge. unfold unixDays.
      pose proof (Z.mod_pos_bound date Day) as Hm.
      pose proof (Z.div_mod date Day) as Hd.
      rewrite Day_value in *. lia.
Qed.

(** C10, as stated, fails: the service has no [from == to] check.
    [GetLatestRate(USD, USD)], [GetHistoricalRate(USD, USD, _)] and
    [ConvertCurrency] from USD to USD all look the pair (USD, USD) up in
    the cache; wired to the adapters, [GetLatestRate(USD, USD)] goes on
    to send a request to the provider. *)
Lemma C10_identical_pair_counterexample :
  IsSupported USD = true /\
  Requests (GetLatestRate USD USD) (CurrencyPair.mk USD USD) /\
  Requests (GetHistoricalRate USD USD sampleNoon) (CurrencyPair.mk USD USD) /\
  Requests (ConvertCurrency (ConversionRequest.mk USD USD 1%float zeroTime))
           (CurrencyPair.mk USD USD) /\
  requests (run adapters (GetLatestRate USD USD) offlineWorld).2 = 1%nat.
Proof.
  split; [reflexivity|]. split; [|split; [|split]].
  - apply GetLatestRate_reaches; reflexivity.
  - apply GetHistoricalRate_reaches; reflexivity.
  - apply ConvertCurrency_reaches; reflexivity.
  - vm_compute. reflexivity.
Qed.

(** Every pair asked for in a run is asked for on some path. *)
Lemma pairsAsked_Requests {S A : Type} (h : forall X, Call X -> S -> X * S)
    (prog : Prog A) (p : CurrencyPair.t) :
  forall s, p ∈ pairsAsked (calls h prog s) -> Requests prog p.
Proof.
  induction prog as [a|X c k IH]; intros s; cbn [calls Requests].
  - intros H. inversion H.
  - destruct (h X c s) as [x s1]. unfold pairsAsked. cbn [omap list_omap].
    fold (pairsAsked (calls h (k x) s1)).
    destruct (requestedPair c) as [q|].
    + rewrite elem_of_cons. intros [->|H]; [left; reflexivity|].
      right. exists x. apply (IH x s1 H).
    + intros H. right. exists x. apply (IH x s1 H).
Qed.

Lemma window_check (date now : Time) :
  Before date (AddDate (Truncate now (24 * Hour)) 0 0 (-90))
  = (date <? (unixDays now - 90) * Day).
Proof.
  rewrite Truncate_day, AddDate_days. unfold Before.
  replace (unixDays now * Day + -90 * Day)
    with ((unixDays now - 90) * Day) by lia.
  reflexivity.
Qed.

(** Run a service program one call further. *)
Ltac next_call h :=
  cbn [calls bind Prog_Monad Prog_bind call ret];
  lazymatch goal with
  | |- context [h ?X ?c ?s] =>
      let x := fresh "x" in let s' := fresh "s" in
      destruct (h X c s) as [x s']; cbn [fst snd]
  end.

Lemma GetLatestRate_calls {S : Type} (h : forall X, Call X -> S -> X * S)
    (from to : Currency) (s : S) :
  let pair := CurrencyPair.mk from to in
  let now := (h _ TimeNow s).1 in
  let hit := (h _ (CacheGet pair (Truncate now (24 * Hour)))
                (h _ TimeNow s).2).1 in
  cachePairs (calls h (GetLatestRate from to) s)
    = (if IsSupported from && IsSupported to then [pair] else []) /\
  providerPairs (calls h (GetLatestRate from to) s)
    = (if IsSupported from && IsSupported to
       then match hit with Some _ => [] | None => [pair] end
       else []).
Proof.
  cbv zeta. unfold GetLatestRate.
  destruct (IsSupported from); [|split; reflexivity].
  destruct (IsSupported to); [|split; reflexivity].
  cbn [negb orb andb]. next_call h. next_call h.
  destruct x0 as [rate|]; [split; reflexivity|].
  next_call h. destruct x0 as [rate|err]; [|split; reflexivity].
  next_call h. split; reflexivity.
Qed.

Lemma GetHistoricalRate_calls {S : Type} (h : forall X, Call X -> S -> X * S)
    (from to : Currency) (date : Time) (s : S) :
  let pair := CurrencyPair.mk from to in
  let now := (h _ TimeNow s).1 in
  let hit := (h _ (CacheGet pair (Truncate date (24 * Hour)))
                (h _ TimeNow s).2).1 in
  cachePairs (calls h (GetHistoricalRate from to date) s)
    = (if IsSupported from && IsSupported to
          && negb (date <? (unixDays now - 90) * Day)
       then [pair] else []) /\
  providerPairs (calls h (GetHistoricalRate from to date) s)
    = (if IsSupported from && IsSupported to
          && negb (date <? (unixDays now - 90) * Day)
       then match hit with Some _ => [] | None => [pair] end
       else []).
Proof.
  cbv zeta. unfold GetHistoricalRate, validateDate.
  destruct (IsSupported from); [|split; reflexivity].
  destruct (IsSupported to); [|split; reflexivity].
  cbn [negb orb andb]. next_call h. rewrite window_check.
  destruct (date <? _); [split; reflexivity|].
  cbn [negb]. next_call h.
  destruct x0 as [rate|]; [split; reflexivity|].
  next_call h. destruct x0 as [rate|err]; [|split; reflexivity].
  next_call h. split; reflexivity.
Qed.

Lemma calls_bind {S A B : Type} (h : forall X, Call X -> S -> X * S)
    (prog : Prog A) (f : A -> Prog B) :
  forall s,
  calls h (x <- prog ;; f x) s
  = calls h prog s ++ calls h (f (run h prog s).1) (run h prog s).2.
Proof.
  induction prog as [a|X c k IH]; intros s; [reflexivity|].
  cbn [bind Prog_Monad Prog_bind calls run].
  destruct (h X c s) as [x s1]. cbn [app]. f_equal. apply IH.
Qed.

(** [validateDate] only reads the clock. *)
Lemma validateDate_calls {S : Type} (h : forall X, Call X -> S -> X * S)
    (date : Time) (s : S) :
  calls h (validateDate date) s = [AnyCall TimeNow].
Proof.
  unfold validateDate. next_call h. destruct (Before _ _); reflexivity.
Qed.

(** The calls of [ConvertCurrency] are those of its validation and of
    the operation it hands over to. *)
Lemma ConvertCurrency_calls {S : Type} (h : forall X, Call X -> S -> X * S)
    (from to : Currency) (amount : float) (date : Time) (s : S) :
  calls h (ConvertCurrency (ConversionRequest.mk from to amount date)) s
  = if IsSupported from && IsSupported to && negb (amount <=? 0)%float
    then if IsZero date then calls h (GetLatestRate from to) s
         else AnyCall TimeNow ::
              (if date <? (unixDays (h _ TimeNow s).1 - 90) * Day then []
               else calls h (GetHistoricalRate from to date)
                      (h _ TimeNow s).2)
    else [].
Proof.
  unfold ConvertCurrency. cbv zeta.
  cbn [ConversionRequest.FromCurrency ConversionRequest.ToCurrency
       ConversionRequest.Amount ConversionRequest.Date].
  destruct (IsSupported from) eqn:Hfrom; [|reflexivity].
  destruct (IsSupported to) eqn:Hto; [|reflexivity].
  cbn [negb orb andb]. destruct (PrimFloat.leb amount 0); [reflexivity|].
  cbn [negb]. rewrite calls_bind.
  replace (calls h _ (run h _ s).2) with (@nil anyCall)
    by (destruct (run h _ s).1; reflexivity).
  rewrite app_nil_r.
  destruct (IsZero date); cbn [negb]; [reflexivity|].
  rewrite calls_bind, validateDate_calls, validateDate_run. cbn [fst snd app].
  destruct (date <? _); reflexivity.
Qed.

(** C10, amended.  The service hands the caller's pair on unchanged,
    whatever implements the cache and the provider: every pair for
    which [GetLatestRate], [GetHistoricalRate] or [ConvertCurrency]
    issues a cache lookup or a provider request is the pair (from, to)
    it was called with.  For supported currencies [GetLatestRate]
    always issues one cache lookup, for that pair, and on a miss one
    provider request for it; [GetHistoricalRate] does so when the date
    passes the ninety-day check and issues neither when it does not;
    [ConvertCurrency] does so when the amount is not [<= 0] and the
    date is zero or passes the check on both readings of the clock, and
    issues neither otherwise.  With an unsupported currency none of
    them makes any call.  So a pair with equal currencies reaches the
    cache, and on a miss the provider, whenever the caller asks for one
    and the request passes validation. *)
Theorem C10_pair_passed_through {S : Type} (h : forall X, Call X -> S -> X * S)
    (s : S) (from to : Currency) :
  let pair := CurrencyPair.mk from to in
  let supported := IsSupported from && IsSupported to in
  let now1 := (h _ TimeNow s).1 in
  let s1 := (h _ TimeNow s).2 in
  let now2 := (h _ TimeNow s1).1 in
  let s2 := (h _ TimeNow s1).2 in
  let inWindow (now date : Time) := negb (date <? (unixDays now - 90) * Day) in
  let onMiss (cached : option ExchangeRate.t) :=
    match cached with Some _ => [] | None => [pair] end in
  (forall p date amount,
     (p ∈ pairsAsked (calls h (GetLatestRate from to) s) -> p = pair) /\
     (p ∈ pairsAsked (calls h (GetHistoricalRate from to date) s) -> p = pair) /\
     (p ∈ pairsAsked (calls h (ConvertCurrency
                                 (ConversionRequest.mk from to amount date)) s)
      -> p = pair)) /\
  cachePairs (calls h (GetLatestRate from to) s)
    = (if supported then [pair] else []) /\
  providerPairs (calls h (GetLatestRate from to) s)
    = (if supported
       then onMiss (h _ (CacheGet pair (Truncate now1 (24 * Hour))) s1).1
       else []) /\
  (forall date,
     cachePairs (calls h (GetHistoricalRate from to date) s)
       = (if supported && inWindow now1 date then [pair] else []) /\
     providerPairs (calls h (GetHistoricalRate from to date) s)
       = (if supported && inWindow now1 date
          then onMiss (h _ (CacheGet pair (Truncate date (24 * Hour))) s1).1
          else [])) /\
  (forall amount date,
     cachePairs (calls h (ConvertCurrency
                            (ConversionRequest.mk from to amount date)) s)
       = (if supported && negb (amount <=? 0)%float
             && (IsZero date || (inWindow now1 date && inWindow now2 date))
          then [pair] else []) /\
     providerPairs (calls h (ConvertCurrency
                               (ConversionRequest.mk from to amount date)) s)
       = (if supported && negb (amount <=? 0)%float
          then if IsZero date
               then onMiss (h _ (CacheGet pair (Truncate now1 (24 * Hour))) s1).1
               else if inWindow now1 date && inWindow now2 date
               then onMiss (h _ (CacheGet pair (Truncate date (24 * Hour))) s2).1
               else []
          else [])) /\
  (supported = false ->
   forall amount date,
     calls h (GetLatestRate from to) s = []
     /\ calls h (GetHistoricalRate from to date) s = []
     /\ calls h (ConvertCurrency
                   (ConversionRequest.mk from to amount date)) s = []).
Proof.
  cbv zeta. split; [|split; [|split; [|split; [|split]]]].
  - intros p date amount. split; [|split]; intros Hp;
      apply pairsAsked_Requests in Hp.
    + apply (GetLatestRate_requests _ _ _ Hp).
    + apply (GetHistoricalRate_requests _ _ _ _ Hp).
    + apply (ConvertCurrency_requests _ _ Hp).
  - apply (GetLatestRate_calls h from to s).
  - apply (GetLatestRate_calls h from to s).
  - intros date. apply (GetHistoricalRate_calls h from to date s).
  - intros amount date. rewrite ConvertCurrency_calls.
    pose proof (GetLatestRate_calls h from to s) as [Hlc Hlp].
    pose proof (GetHistoricalRate_calls h from to date (h _ TimeNow s).2)
      as [Hhc Hhp].
    cbv zeta in Hlc, Hlp, Hhc, Hhp.
    destruct (IsSupported from && IsSupported to) eqn:Hs;
      [|split; reflexivity].
    cbn [andb] in *. destruct (PrimFloat.leb amount 0); [split; reflexivity|].
    cbn [negb andb]. destruct (IsZero date); cbn [orb].
    + split; assumption.
    + destruct (date <? (unixDays (h _ TimeNow s).1 - 90) * Day);
        [split; reflexivity|].
      cbn [negb andb].
      change (cachePairs (AnyCall TimeNow :: ?l)) with (cachePairs l).
      change (providerPairs (AnyCall TimeNow :: ?l)) with (providerPairs l).
      split; assumption.
  - intros Hs amount date. rewrite ConvertCurrency_calls, Hs.
    unfold GetLatestRate, GetHistoricalRate.
    destruct (IsSupported from), (IsSupported to); try discriminate Hs;
      repeat split.
Qed.

End IdenticalPairs.

(** ** Historical ranges *)

Section HistoricalRange.
Import GoTime ExchangeAPI.

Lemma historicalLoop_S (fuel : nat) (request : HistoricalRateRequest.t)
    (cur : Time) (rates : gmap string ExchangeRate.t) (w : World) :
  historicalLoop (S fuel) request cur rates w =
  if After cur (HistoricalRateRequest.EndDate request) then (Some rates, w)
  else
    let '(r, w1) := FetchHistoricalRate (requestPair request) cur w in
    match r with
    | Err _ => historicalLoop fuel request (cur + Day) rates w1
    | Ok rate =>
        historicalLoop fuel request (cur + Day) (<[Format cur := rate]> rates) w1
    end.
Proof.
  cbn [historicalLoop]. rewrite AddDate_days, Z.mul_1_l.
  destruct (After cur _); [reflexivity|].
  unfold requestPair. cbn [bind M_Monad].
  destruct (FetchHistoricalRate _ cur w) as [[rate|err] w1]; reflexivity.
Qed.

Lemma historicalLoop_done (fuel : nat) (request : HistoricalRateRequest.t)
    (cur : Time) (rates : gmap string ExchangeRate.t) (w : World) :
  HistoricalRateRequest.EndDate request < cur ->
  historicalLoop fuel request cur rates w = (Some rates, w).
Proof.
  intros Hlt.
  assert (Ha : After cur (HistoricalRateRequest.EndDate request) = true)
    by (apply Z.ltb_lt; exact Hlt).
  destruct fuel; cbn [historicalLoop]; rewrite Ha; reflexivity.
Qed.

(** The loop, with enough fuel, visits [n] days when the [n]-th is the
    last one not after the end date, and leaves the map [collect] builds
    from the outcomes. *)
Lemma historicalLoop_trace (request : HistoricalRateRequest.t) (n : nat) :
  forall (fuel : nat) (cur : Time) (rates : gmap string ExchangeRate.t)
         (w : World),
  (n <= fuel)%nat ->
  HistoricalRateRequest.EndDate request < cur + Z.of_nat n * Day ->
  ((0 < n)%nat ->
   cur + (Z.of_nat n - 1) * Day <= HistoricalRateRequest.EndDate request) ->
  historicalLoop fuel request cur rates w =
  (Some (collect (dayOutcomes (requestPair request) (daysFrom cur n) w).1 rates),
   (dayOutcomes (requestPair request) (daysFrom cur n) w).2).
Proof.
  induction n as [|n IH]; intros fuel cur rates w Hfuel Hend Hin.
  - rewrite historicalLoop_done by lia. reflexivity.
  - destruct fuel as [|fuel]; [lia|].
    rewrite historicalLoop_S.
    assert (Hcur : cur <= HistoricalRateRequest.EndDate request).
    { specialize (Hin ltac:(lia)). rewrite Day_value in *. lia. }
    replace (After cur (HistoricalRateRequest.EndDate request)) with false
      by (symmetry; apply Z.ltb_ge; exact Hcur).
    cbn [daysFrom dayOutcomes].
    destruct (FetchHistoricalRate (requestPair request) cur w) as [r w1].
    assert (Hend' : HistoricalRateRequest.EndDate request
                    < cur + Day + Z.of_nat n * Day) by lia.
    assert (Hin' : (0 < n)%nat ->
                   cur + Day + (Z.of_nat n - 1) * Day
                   <= HistoricalRateRequest.EndDate request)
      by (intros _; specialize (Hin ltac:(lia)); lia).
    destruct r as [rate|err];
      rewrite (IH fuel (cur + Day) _ w1 ltac:(lia) Hend' Hin');
      destruct (dayOutcomes (requestPair request) (daysFrom (cur + Day) n) w1);
      reflexivity.
Qed.

Lemma rangeFuel_bounds (request : HistoricalRateRequest.t) :
  let n := rangeFuel request in
  HistoricalRateRequest.EndDate request
    < HistoricalRateRequest.StartDate request + Z.of_nat n * Day /\
  ((0 < n)%nat ->
   HistoricalRateRequest.StartDate request + (Z.of_nat n - 1) * Day
   <= HistoricalRateRequest.EndDate request).
Proof.
  cbv zeta. unfold rangeFuel.
  set (e := HistoricalRateRequest.EndDate request).
  set (s := HistoricalRateRequest.StartDate request).
  pose proof (Z.div_mod (e - s) Day) as Hd.
  pose proof (Z.mod_pos_bound (e - s) Day) as Hm.
  rewrite Day_value in *.
  split; [lia|]. intros H. lia.
Qed.

Lemma elem_of_daysFrom (n : nat) :
  forall (cur d : Time),
  d ∈ daysFrom cur n <-> exists i, 0 <= i < Z.of_nat n /\ d = cur + i * Day.
Proof.
  induction n as [|n IH]; intros cur d; cbn [daysFrom].
  - split; [intros H; inversion H|intros (i & Hi & _); lia].
  - rewrite elem_of_cons, IH. split.
    + intros [->|(i & Hi & ->)]; [exists 0; lia|exists (i + 1); lia].
    + intros (i & Hi & ->).
      destruct (Z.eq_dec i 0) as [->|Hne]; [left; lia|].
      right. exists (i - 1). lia.
Qed.

Lemma dayOutcomes_days (pair : CurrencyPair.t) (days : list Time) :
  forall w, (dayOutcomes pair days w).1.*1 = days.
Proof.
  induction days as [|d days IH]; intros w; [reflexivity|].
  cbn [dayOutcomes]. destruct (FetchHistoricalRate pair d w) as [r w1].
  specialize (IH w1). destruct (dayOutcomes pair days w1) as [rest w2].
  cbn in *. rewrite IH. reflexivity.
Qed.

Lemma unixDays_shift (t : Time) (i : Z) : unixDays (t + i * Day) = unixDays t + i.
Proof. unfold unixDays. apply Z.div_add. rewrite Day_value. lia. Qed.

(** Days 24 hours apart never share a formatted date. *)
Lemma daysFrom_keys_NoDup (n : nat) :
  forall cur, NoDup (Format <$> daysFrom cur n).
Proof.
  induction n as [|n IH]; intros cur; cbn [daysFrom].
  - constructor.
  - rewrite fmap_cons. constructor; [|apply IH].
    intros Hin. apply list_elem_of_fmap in Hin as (d & Heq & Hd).
    apply elem_of_daysFrom in Hd as (i & Hi & ->).
    apply Format_inj in Heq.
    replace (cur + Day + i * Day) with (cur + (i + 1) * Day) in Heq by lia.
    rewrite unixDays_shift in Heq. lia.
Qed.

Lemma collect_cons (d : Time) (r : result ExchangeRate.t)
    (trace : list (Time * result ExchangeRate.t))
    (rates : gmap string ExchangeRate.t) :
  collect ((d, r) :: trace) rates =
  collect trace match r with
                | Ok rate => <[Format d := rate]> rates
                | Err _ => rates
                end.
Proof. reflexivity. Qed.







End HistoricalRange.

(** The middle day fails, the range request succeeds with the two other
    days; through the service as well. *)
Example ex_range_middle_day_fails :
  (ExchangeAPI.FetchHistoricalRates (ExchangeAPI.rangeFuel threeDays)
     threeDays flakyWorld).1 =
  Some (Ok {| HistoricalRates.BaseCurrency := USD;
              HistoricalRates.TargetCurrency := INR;
              HistoricalRates.Rates :=
                {[ "2025-01-01"%string := rateOn 20089;
                   "2025-01-03"%string := rateOn 20091 ]} |})
  /\ (run adapters (ExchangeService.GetHistoricalRates threeDays) flakyWorld).1 =
     Ok {| HistoricalRates.BaseCurrency := USD;
           HistoricalRates.TargetCurrency := INR;
           HistoricalRates.Rates :=
             {[ "2025-01-01"%string := rateOn 20089;
                "2025-01-03"%string := rateOn 20091 ]} |}.
Proof. vm_compute. split; reflexivity. Qed.

(** ** The service on the adapters, end to end *)

(** 100 USD are 8250 INR, on a cache miss and then on a cache hit; the
    second conversion sends no request. *)
Example ex_convert_on_adapters :
  let request := ConversionRequest.mk USD INR 100%float GoTime.zeroTime in
  let first := run adapters (ExchangeService.ConvertCurrency request) liveWorld in
  let second := run adapters (ExchangeService.ConvertCurrency request) first.2 in
  first.1 = Ok (ConversionResult.mk USD INR 100%float 8250%float 82.5%float
                  sampleToday)
  /\ second.1 = first.1
  /\ requests first.2 = 1%nat /\ requests second.2 = 1%nat.
Proof. vm_compute. repeat split; reflexivity. Qed.

(** [RefreshRates] memoises the twenty ordered pairs of distinct
    supported currencies with one request, and none with equal ones. *)
Example ex_refresh_pairs :
  let w := (ExchangeAPI.RefreshRates liveWorld).2 in
  size (latestRates w) = 20%nat
  /\ latestRates w !! "USD-USD"%string = None
  /\ latestRates w !! "EUR-EUR"%string = None
  /\ requests w = 1%nat.
Proof. vm_compute. repeat split; reflexivity. Qed.

(** Asked for EUR to EUR, the service resolves the cross-rate of the
    quote with itself. *)
Example ex_identical_pair_rate :
  rateOf (run adapters (ExchangeService.GetLatestRate EUR EUR) liveWorld).1
  = Ok 1%float.
Proof. vm_compute. reflexivity. Qed.

(** The range request of the adapters never runs out of iterations. *)
Lemma adapters_range_completes (request : HistoricalRateRequest.t) (w : World) :
  exists rates,
    (adapters _ (RepoFetchHistoricalRates request) w).1 = Ok rates.
Proof.
  pose proof (rangeFuel_bounds request) as [Hend Hin].
  cbn [adapters bind M_Monad]. unfold ExchangeAPI.FetchHistoricalRates.
  cbn [bind M_Monad].
  rewrite (historicalLoop_trace request (ExchangeAPI.rangeFuel request)
             (ExchangeAPI.rangeFuel request) _ ∅ w (le_n _) Hend Hin).
  eexists. reflexivity.
Qed.

(* ===================================================================== *)
(** * Part IV: further properties of the code                            *)
(* ===================================================================== *)

(** ** Currencies and keys *)

Section Keys.
Import GoTime MemoryCache.

Lemma isSupportedIn_elem (c : Currency) (l : list Currency) :
  isSupportedIn c l = true <-> c ∈ l.
Proof.
  induction l as [|x l IH]; cbn [isSupportedIn].
  - split; [discriminate|intros H; inversion H].
  - rewrite elem_of_cons. destruct (String.eqb_spec c x) as [->|Hne].
    + split; [left; reflexivity|reflexivity].
    + rewrite IH. split; [right; assumption|intros [|]; [contradiction|assumption]].
Qed.

Lemma IsSupported_cases (c : Currency) :
  IsSupported c = true <->
  c = "USD"%string \/ c = "INR"%string \/ c = "EUR"%string
  \/ c = "JPY"%string \/ c = "GBP"%string.
Proof.
  unfold IsSupported. rewrite isSupportedIn_elem.
  unfold SupportedCurrencies, USD, INR, EUR, JPY, GBP.
  rewrite !elem_of_cons, elem_of_nil. tauto.
Qed.

(** X1.  [IsSupported] is exact membership in the five codes: it holds
    for USD, INR, EUR, JPY and GBP and for no other string, whatever its
    case or length. *)
Theorem X1_IsSupported_exact (c : Currency) :
  IsSupported c = true <->
  c = "USD"%string \/ c = "INR"%string \/ c = "EUR"%string
  \/ c = "JPY"%string \/ c = "GBP"%string.
Proof. apply IsSupported_cases. Qed.

Lemma supported_length (c : Currency) :
  IsSupported c = true -> String.length c = 3%nat.
Proof.
  intros H. apply IsSupported_cases in H.
  destruct H as [->|[->|[->|[->| ->]]]]; reflexivity.
Qed.

Lemma append_inj_prefix (s1 : string) :
  forall s2 t1 t2 : string,
  String.length s1 = String.length s2 ->
  s1 +:+ t1 = s2 +:+ t2 -> s1 = s2 /\ t1 = t2.
Proof.
  induction s1 as [|c1 s1 IH]; intros [|c2 s2] t1 t2 Hlen Heq;
    try discriminate Hlen.
  - split; [reflexivity|exact Heq].
  - rewrite !append_cons in Heq. injection Heq as -> Heq.
    cbn [String.length] in Hlen.
    destruct (IH s2 t1 t2 ltac:(lia) Heq) as [-> ->]. split; reflexivity.
Qed.

Lemma dash_inj (x y : string) : "-" +:+ x = "-" +:+ y -> x = y.
Proof.
  intros H. change (String "-" x = String "-" y) in H.
  injection H as H. exact H.
Qed.

Lemma pairString_inj (b1 t1 b2 t2 : Currency) :
  String.length b1 = String.length b2 ->
  CurrencyPair_String (CurrencyPair.mk b1 t1)
  = CurrencyPair_String (CurrencyPair.mk b2 t2) ->
  b1 = b2 /\ t1 = t2.
Proof.
  unfold CurrencyPair_String.
  cbn [CurrencyPair.BaseCurrency CurrencyPair.TargetCurrency].
  intros Hlen Heq. apply append_inj_prefix in Heq as [-> Heq]; [|exact Hlen].
  split; [reflexivity|]. apply dash_inj, Heq.
Qed.

Lemma getCacheKey_inj (b1 t1 b2 t2 : Currency) (d1 d2 : Time) :
  String.length b1 = String.length b2 ->
  String.length t1 = String.length t2 ->
  getCacheKey (CurrencyPair.mk b1 t1) d1 = getCacheKey (CurrencyPair.mk b2 t2) d2 ->
  b1 = b2 /\ t1 = t2 /\ unixDays d1 = unixDays d2.
Proof.
  unfold getCacheKey.
  cbn [CurrencyPair.BaseCurrency CurrencyPair.TargetCurrency].
  intros Hb Ht Heq.
  apply append_inj_prefix in Heq as [-> Heq]; [|exact Hb].
  apply dash_inj in Heq.
  apply append_inj_prefix in Heq as [-> Heq]; [|exact Ht].
  apply dash_inj in Heq.
  apply Format_inj in Heq. repeat split; assumption.
Qed.

(** X2.  For supported currencies the cache key tells pairs and UTC
    calendar days apart: two keys are equal exactly when base, target
    and day are. *)
Theorem X2_getCacheKey_injective (p1 p2 : CurrencyPair.t) (d1 d2 : Time) :
  IsSupported (CurrencyPair.BaseCurrency p1) = true ->
  IsSupported (CurrencyPair.TargetCurrency p1) = true ->
  IsSupported (CurrencyPair.BaseCurrency p2) = true ->
  IsSupported (CurrencyPair.TargetCurrency p2) = true ->
  getCacheKey p1 d1 = getCacheKey p2 d2 <->
  p1 = p2 /\ unixDays d1 = unixDays d2.
Proof.
  destruct p1 as [b1 t1], p2 as [b2 t2].
  cbn [CurrencyPair.BaseCurrency CurrencyPair.TargetCurrency].
  intros Hb1 Ht1 Hb2 Ht2. split.
  - intros Heq. apply getCacheKey_inj in Heq as (-> & -> & Hd).
    + split; [reflexivity|exact Hd].
    + rewrite !supported_length by assumption. reflexivity.
    + rewrite !supported_length by assumption. reflexivity.
  - intros [[= -> ->] Hd]. unfold getCacheKey.
    apply Format_inj in Hd. rewrite Hd. reflexivity.
Qed.

Lemma X2_getCacheKey_injective_witness :
  getCacheKey (CurrencyPair.mk USD INR) sampleNoon
  = getCacheKey (CurrencyPair.mk USD INR) sampleToday <->
  CurrencyPair.mk USD INR = CurrencyPair.mk USD INR
  /\ unixDays sampleNoon = unixDays sampleToday.
Proof.
  apply (X2_getCacheKey_injective (CurrencyPair.mk USD INR)
           (CurrencyPair.mk USD INR) sampleNoon sampleToday); reflexivity.
Defined.

End Keys.

(** ** More on the rate cache *)

Section CacheMore.
Import GoTime MemoryCache.

(** X3.  A [Set] is seen only under its own key, and the last write
    under a key wins: a [Get] under any other key answers as before the
    [Set], and writing [r2] over [r1] under the same key leaves the map
    that writing [r2] alone leaves. *)
Theorem X3_Set_frame_and_overwrite (w : World) (r1 r2 : ExchangeRate.t)
    (pair : CurrencyPair.t) (date : Time) :
  (getCacheKey pair date
     <> getCacheKey (pairOf r1) (ExchangeRate.Date r1) ->
   (Get pair date (Set_ r1 w).2).1 = (Get pair date w).1) /\
  (getCacheKey (pairOf r1) (ExchangeRate.Date r1)
     = getCacheKey (pairOf r2) (ExchangeRate.Date r2) ->
   cacheMap (Set_ r2 (Set_ r1 w).2).2 = cacheMap (Set_ r2 w).2).
Proof.
  split.
  - intros Hne. rewrite !Get_unfold. cbn.
    rewrite lookup_insert_ne by (intros Heq; apply Hne; symmetry; exact Heq).
    destruct (cacheMap w !! getCacheKey pair date); reflexivity.
  - intros Heq. cbn. unfold pairOf in Heq. rewrite Heq.
    apply insert_insert_eq.
Qed.

Lemma X3_Set_frame_and_overwrite_witness :
  (Get (CurrencyPair.mk USD EUR) sampleNoon (Set_ sampleRate offlineWorld).2).1
    = (Get (CurrencyPair.mk USD EUR) sampleNoon offlineWorld).1 /\
  cacheMap (Set_ sampleRate (Set_ sampleRate offlineWorld).2).2
    = cacheMap (Set_ sampleRate offlineWorld).2.
Proof.
  split.
  - apply (proj1 (X3_Set_frame_and_overwrite offlineWorld sampleRate sampleRate
                    (CurrencyPair.mk USD EUR) sampleNoon)).
    vm_compute. discriminate.
  - apply (proj2 (X3_Set_frame_and_overwrite offlineWorld sampleRate sampleRate
                    (CurrencyPair.mk USD EUR) sampleNoon)).
    reflexivity.
Defined.

(** X4.  [ClearExpired] keeps exactly the entries whose age at the
    instant of the sweep is at most the TTL, and readers cannot tell
    that it ran: a [Get] at that same instant answers after the sweep
    what it answers before it. *)
Theorem X4_sweep_keeps_fresh (w : World) :
  let w1 := (ClearExpired w).2 in
  let now := clock w (ticks w) in
  (forall k rate,
     cacheMap w1 !! k = Some rate <->
     cacheMap w !! k = Some rate
     /\ Sub now (ExchangeRate.LastUpdated rate) <= cacheTTL w) /\
  (forall pair date,
     clock w (S (ticks w)) = now ->
     (Get pair date w1).1 = (Get pair date w).1).
Proof.
  cbv zeta. split.
  - intros k rate. cbn. rewrite sweep_lookup.
    destruct (cacheMap w !! k) as [entry|]; [|split; [discriminate|intros [? _]; discriminate]].
    unfold expired.
    destruct (Z.ltb_spec (cacheTTL w)
                (Sub (clock w (ticks w)) (ExchangeRate.LastUpdated entry))).
    + split; [discriminate|]. intros [[= ->] Hle]. lia.
    + split; [intros [= ->]; split; [reflexivity|lia]|intros [[= ->] _]; reflexivity].
  - intros pair date Hclock. rewrite !Get_unfold. cbn. rewrite sweep_lookup, Hclock.
    destruct (cacheMap w !! getCacheKey pair date) as [entry|]; [|reflexivity].
    unfold expired.
    destruct (cacheTTL w <? Sub (clock w (ticks w)) (ExchangeRate.LastUpdated entry))
      eqn:Hexp; cbn [fst]; [reflexivity|].
    rewrite Hexp. reflexivity.
Qed.

Lemma X4_sweep_keeps_fresh_witness :
  (Get (CurrencyPair.mk USD INR) sampleNoon (ClearExpired stockedWorld).2).1
  = (Get (CurrencyPair.mk USD INR) sampleNoon stockedWorld).1.
Proof.
  apply (proj2 (X4_sweep_keeps_fresh stockedWorld)). reflexivity.
Defined.

Lemma cacheKeyed_empty : cacheKeyed ∅.
Proof. intros k rate H. rewrite lookup_empty in H. discriminate. Qed.

Lemma cacheKeyed_Set (rate : ExchangeRate.t) (w : World) :
  supportedRate rate -> cacheKeyed (cacheMap w) ->
  cacheKeyed (cacheMap (Set_ rate w).2).
Proof.
  intros Hr Hinv k entry. cbn.
  destruct (decide (getCacheKey (pairOf rate) (ExchangeRate.Date rate) = k))
    as [<-|Hne].
  - unfold pairOf. rewrite lookup_insert_eq. intros [= <-].
    split; [exact Hr|reflexivity].
  - unfold pairOf in Hne. rewrite lookup_insert_ne by exact Hne. apply Hinv.
Qed.

Lemma cacheKeyed_ClearExpired (w : World) :
  cacheKeyed (cacheMap w) -> cacheKeyed (cacheMap (ClearExpired w).2).
Proof.
  intros Hinv k entry. cbn. rewrite sweep_lookup.
  destruct (cacheMap w !! k) as [e|] eqn:Hk; [|discriminate].
  destruct (expired _ _ e); [discriminate|]. intros [= <-]. apply Hinv, Hk.
Qed.

Lemma cacheMap_Get (pair : CurrencyPair.t) (date : Time) (w : World) :
  cacheMap (Get pair date w).2 = cacheMap w.
Proof.
  rewrite Get_unfold. destruct (cacheMap w !! _); reflexivity.
Qed.

Lemma Get_hit_lookup (pair : CurrencyPair.t) (date : Time) (w : World)
    (rate : ExchangeRate.t) :
  (Get pair date w).1 = Some rate ->
  cacheMap w !! getCacheKey pair date = Some rate.
Proof.
  rewrite Get_unfold.
  destruct (cacheMap w !! getCacheKey pair date) as [entry|]; [|discriminate].
  cbn [fst]. destruct (_ <? _); [discriminate|]. intros H. exact H.
Qed.

Lemma Get_hit_pair (pair : CurrencyPair.t) (date : Time) (w : World)
    (rate : ExchangeRate.t) :
  cacheKeyed (cacheMap w) ->
  IsSupported (CurrencyPair.BaseCurrency pair) = true ->
  IsSupported (CurrencyPair.TargetCurrency pair) = true ->
  (Get pair date w).1 = Some rate ->
  pairOf rate = pair /\ unixDays (ExchangeRate.Date rate) = unixDays date.
Proof.
  intros Hinv Hb Ht Hget. apply Get_hit_lookup in Hget.
  destruct (Hinv _ _ Hget) as [[Hrb Hrt] Hkey].
  destruct pair as [b t]. unfold pairOf in *.
  cbn [CurrencyPair.BaseCurrency CurrencyPair.TargetCurrency] in *.
  apply getCacheKey_inj in Hkey as (-> & -> & Hd).
  - split; [reflexivity|symmetry; exact Hd].
  - rewrite !supported_length by assumption. reflexivity.
  - rewrite !supported_length by assumption. reflexivity.
Qed.

(** X5.  The cache keeps its keying: starting from the empty map, as
    long as only rates between supported currencies are [Set], every
    entry stays a rate between supported currencies filed under the key
    of its own pair and date, through [Get], [Set] and [ClearExpired].
    A hit for a supported pair is then a rate of that very pair, dated
    on the UTC day that was asked for. *)
Theorem X5_cache_keyed (w : World) :
  cacheKeyed (cacheMap w) ->
  (forall pair date, cacheKeyed (cacheMap (Get pair date w).2)) /\
  (forall rate, supportedRate rate -> cacheKeyed (cacheMap (Set_ rate w).2)) /\
  cacheKeyed (cacheMap (ClearExpired w).2) /\
  (forall pair date rate,
     IsSupported (CurrencyPair.BaseCurrency pair) = true ->
     IsSupported (CurrencyPair.TargetCurrency pair) = true ->
     (Get pair date w).1 = Some rate ->
     pairOf rate = pair
     /\ unixDays (ExchangeRate.Date rate) = unixDays date).
Proof.
  intros Hinv. split; [|split; [|split]].
  - intros pair date. rewrite cacheMap_Get. exact Hinv.
  - intros rate Hr. apply cacheKeyed_Set; assumption.
  - apply cacheKeyed_ClearExpired, Hinv.
  - intros pair date rate Hb Ht Hget. eapply Get_hit_pair; eassumption.
Qed.

Lemma X5_cache_keyed_witness :
  cacheKeyed (cacheMap (Set_ sampleRate offlineWorld).2) /\
  cacheKeyed (cacheMap (ClearExpired offlineWorld).2).
Proof.
  destruct (X5_cache_keyed offlineWorld cacheKeyed_empty) as (_ & Hset & Hsweep & _).
  split; [apply Hset; split; reflexivity|exact Hsweep].
Defined.

End CacheMore.

(** ** More on the provider client *)

Section ProviderMore.
Import GoTime ExchangeAPI.

Lemma fetchAllLatestRates_unfold (w : World) :
  fetchAllLatestRates w =
  (readQuotes (network w (requests w) (liveURL (baseURL w) (apiKey w))),
   afterRequest w).
Proof.
  unfold fetchAllLatestRates, withAccessKey, liveURL. cbn.
  destruct (String.eqb (apiKey w) ""); cbn.
  - reflexivity.
  - rewrite append_assoc. reflexivity.
Qed.

Lemma readQuotes_Ok (out : httpOutcome) (quotes : gmap string float) :
  readQuotes out = Ok quotes <->
  out = Response 200 (Ok {| Success := true; Quotes := quotes |}).
Proof.
  split.
  - destruct out as [e|e|status [[success q]|e]]; cbn; try discriminate.
    + destruct (Z.eqb_spec status 200) as [->|]; cbn; [|discriminate].
      destruct success; cbn; [|discriminate]. intros [= ->]. reflexivity.
    + destruct (status =? 200); discriminate.
  - intros ->. reflexivity.
Qed.

(** X6.  [fetchAllLatestRates] sends exactly one GET, to the live
    endpoint of the configured base URL with the access key appended
    only when one is configured, and changes nothing else.  It succeeds
    exactly when the response has status 200, a body that decodes and
    the provider's success flag set, and then returns the quotes of
    that body. *)
Theorem X6_fetchAllLatestRates (w : World) :
  let out := network w (requests w) (liveURL (baseURL w) (apiKey w)) in
  fetchAllLatestRates w = (readQuotes out, afterRequest w) /\
  (forall quotes,
     (fetchAllLatestRates w).1 = Ok quotes <->
     out = Response 200 (Ok {| Success := true; Quotes := quotes |})).
Proof.
  cbv zeta. split; [apply fetchAllLatestRates_unfold|].
  intros quotes. rewrite fetchAllLatestRates_unfold. apply readQuotes_Ok.
Qed.

Lemma storeLatest_unfold (pair : CurrencyPair.t) (x : float) (w : World) :
  storeLatest pair x w =
  (Ok (latestRateAt pair x w),
   (set_latestRates
      (fun m => <[CurrencyPair_String pair := latestRateAt pair x w]> m)
      (time_Now (time_Now w).2).2).2).
Proof. reflexivity. Qed.

(** [extractRate] either fails and leaves the world as it is, or stores
    the rate it returns. *)
Lemma extractRate_cases (quotes : gmap string float) (pair : CurrencyPair.t)
    (w : World) :
  (exists e, extractRate quotes pair w = (Err e, w)) \/
  (exists x, extractRate quotes pair w = storeLatest pair x w).
Proof.
  unfold extractRate.
  destruct (String.eqb _ USD); [|destruct (String.eqb _ USD)].
  - destruct (quotes !! _); [right|left]; eexists; reflexivity.
  - destruct (quotes !! _); [right|left]; eexists; reflexivity.
  - destruct (quotes !! _); [destruct (quotes !! _)|];
      [right|left|left]; eexists; reflexivity.
Qed.

Lemma FetchLatestRate_unfold (pair : CurrencyPair.t) (w : World) :
  FetchLatestRate pair w =
  match latestRates w !! CurrencyPair_String pair with
  | Some rate => (Ok rate, w)
  | None =>
      match readQuotes (network w (requests w)
                          (liveURL (baseURL w) (apiKey w))) with
      | Err err => (Err err, afterRequest w)
      | Ok quotes => extractRate quotes pair (afterRequest w)
      end
  end.
Proof.
  unfold FetchLatestRate. cbn [bind M_Monad get].
  change (CurrencyPair.BaseCurrency pair +:+ "-" +:+ CurrencyPair.TargetCurrency pair)
    with (CurrencyPair_String pair).
  destruct (latestRates w !! CurrencyPair_String pair); [reflexivity|].
  rewrite fetchAllLatestRates_unfold.
  destruct (readQuotes _); reflexivity.
Qed.

(** X7.  Once [FetchLatestRate] has succeeded for a pair, asking again
    is free: the second call returns the same rate and leaves the world
    exactly as it found it, so it sends no request and reads no clock. *)
Theorem X7_FetchLatestRate_memoised (pair : CurrencyPair.t) (w : World)
    (rate : ExchangeRate.t) :
  (FetchLatestRate pair w).1 = Ok rate ->
  FetchLatestRate pair (FetchLatestRate pair w).2
  = (Ok rate, (FetchLatestRate pair w).2).
Proof.
  intros Hfirst.
  assert (Hmemo : latestRates (FetchLatestRate pair w).2
                    !! CurrencyPair_String pair = Some rate).
  { rewrite FetchLatestRate_unfold in *.
    destruct (latestRates w !! CurrencyPair_String pair) as [r|] eqn:Hm.
    - cbn [fst snd] in *. injection Hfirst as <-. exact Hm.
    - destruct (readQuotes _) as [quotes|err]; [|discriminate Hfirst].
      destruct (extractRate_cases quotes pair (afterRequest w))
        as [[e He]|[x Hx]].
      + rewrite He in Hfirst. discriminate Hfirst.
      + rewrite Hx in *. rewrite storeLatest_unfold in *.
        cbn [fst snd] in *. injection Hfirst as <-.
        cbn. apply lookup_insert_eq. }
  rewrite (FetchLatestRate_unfold pair (FetchLatestRate pair w).2), Hmemo.
  reflexivity.
Qed.

Lemma X7_FetchLatestRate_memoised_witness :
  FetchLatestRate (CurrencyPair.mk EUR INR)
    (FetchLatestRate (CurrencyPair.mk EUR INR) liveWorld).2
  = (Ok (latestRateAt (CurrencyPair.mk EUR INR) 165%float (afterRequest liveWorld)),
     (FetchLatestRate (CurrencyPair.mk EUR INR) liveWorld).2).
Proof.
  apply (X7_FetchLatestRate_memoised (CurrencyPair.mk EUR INR) liveWorld).
  vm_compute. reflexivity.
Defined.

(** X8.  A [FetchLatestRate] that fails has sent exactly one request
    and has written nothing: the memo and the cache are as before.  (A
    memo hit cannot fail.) *)
Theorem X8_FetchLatestRate_failure (pair : CurrencyPair.t) (w : World)
    (e : error) :
  (FetchLatestRate pair w).1 = Err e ->
  latestRates w !! CurrencyPair_String pair = None /\
  (FetchLatestRate pair w).2 = afterRequest w.
Proof.
  rewrite FetchLatestRate_unfold.
  destruct (latestRates w !! CurrencyPair_String pair); [discriminate|].
  intros H. split; [reflexivity|].
  destruct (readQuotes _) as [quotes|err]; [|reflexivity].
  destruct (extractRate_cases quotes pair (afterRequest w)) as [[e' He]|[x Hx]].
  - rewrite He. reflexivity.
  - rewrite Hx in H. discriminate H.
Qed.

Lemma X8_FetchLatestRate_failure_witness :
  latestRates offlineWorld !! CurrencyPair_String (CurrencyPair.mk USD INR) = None
  /\ (FetchLatestRate (CurrencyPair.mk USD INR) offlineWorld).2
     = afterRequest offlineWorld.
Proof.
  apply (X8_FetchLatestRate_failure (CurrencyPair.mk USD INR) offlineWorld
           (ErrorfW "failed to send request" (Errorf "no route to host"))).
  reflexivity.
Defined.

Lemma FetchHistoricalRate_unfold (pair : CurrencyPair.t) (date : Time)
    (w : World) :
  FetchHistoricalRate pair date w =
  match readQuotes (network w (requests w)
                      (historicalURL (baseURL w) (apiKey w) date)) with
  | Err err => (Err err, afterRequest w)
  | Ok quotes => extractHistoricalRate quotes pair date (afterRequest w)
  end.
Proof.
  unfold FetchHistoricalRate, withAccessKey, historicalURL.
  cbn [bind M_Monad get ret].
  assert (Hurl :
    (if String.eqb (apiKey w) ""
     then baseURL w +:+ "/historical?date=" +:+ Format date +:+ "&base=USD"
     else (baseURL w +:+ "/historical?date=" +:+ Format date +:+ "&base=USD")
          +:+ "&access_key=" +:+ apiKey w)
    = baseURL w +:+ "/historical?date=" +:+ Format date +:+ "&base=USD" +:+
      (if String.eqb (apiKey w) "" then ""%string
       else "&access_key=" +:+ apiKey w)).
  { destruct (String.eqb (apiKey w) "").
    - reflexivity.
    - rewrite !append_assoc. reflexivity. }
  destruct pair as [b t].
  destruct (String.eqb (apiKey w) "") eqn:Hkey; cbn [fst snd http_Get];
    rewrite <- Hurl; destruct (readQuotes _); reflexivity.
Qed.

Lemma extractHistoricalRate_cases (quotes : gmap string float)
    (pair : CurrencyPair.t) (date : Time) (w : World) :
  (exists e, extractHistoricalRate quotes pair date w = (Err e, w)) \/
  (exists x, extractHistoricalRate quotes pair date w
             = (Ok (historicalRateAt pair x date w), (time_Now w).2)).
Proof.
  unfold extractHistoricalRate.
  destruct (String.eqb _ USD); [|destruct (String.eqb _ USD)].
  - destruct (quotes !! _); [right|left]; eexists; reflexivity.
  - destruct (quotes !! _); [right|left]; eexists; reflexivity.
  - destruct (quotes !! _); [destruct (quotes !! _)|];
      [right|left|left]; eexists; reflexivity.
Qed.

Lemma FetchHistoricalRate_frame (pair : CurrencyPair.t) (date : Time)
    (w : World) :
  let w' := (FetchHistoricalRate pair date w).2 in
  latestRates w' = latestRates w /\ cacheMap w' = cacheMap w
  /\ requests w' = S (requests w).
Proof.
  cbv zeta. rewrite FetchHistoricalRate_unfold.
  destruct (readQuotes _) as [quotes|err]; [|repeat split].
  destruct (extractHistoricalRate_cases quotes pair date (afterRequest w))
    as [[e He]|[x Hx]]; [rewrite He|rewrite Hx]; repeat split.
Qed.

(** X9.  [FetchHistoricalRate] sends exactly one request and touches
    neither the memo of latest rates nor the cache.  A rate it returns
    is for the pair asked for, dated on the date asked for, and stamped
    with the reading of the clock taken in the call. *)
Theorem X9_FetchHistoricalRate (pair : CurrencyPair.t) (date : Time)
    (w : World) :
  let out := FetchHistoricalRate pair date w in
  latestRates out.2 = latestRates w /\
  cacheMap out.2 = cacheMap w /\
  requests out.2 = S (requests w) /\
  (forall rate, out.1 = Ok rate ->
     pairOf rate = pair
     /\ ExchangeRate.Date rate = date
     /\ ExchangeRate.LastUpdated rate = clock w (ticks w)).
Proof.
  cbv zeta.
  destruct (FetchHistoricalRate_frame pair date w) as (Hm & Hc & Hr).
  split; [exact Hm|]. split; [exact Hc|]. split; [exact Hr|].
  intros rate. rewrite FetchHistoricalRate_unfold.
  destruct (readQuotes _) as [quotes|err]; [|discriminate].
  destruct (extractHistoricalRate_cases quotes pair date (afterRequest w))
    as [[e He]|[x Hx]]; [rewrite He; discriminate|rewrite Hx].
  cbn [fst]. intros [= <-]. destruct pair. repeat split.
Qed.

Lemma dayOutcomes_frame (pair : CurrencyPair.t) (days : list Time) :
  forall w,
  let w' := (dayOutcomes pair days w).2 in
  latestRates w' = latestRates w /\ cacheMap w' = cacheMap w
  /\ requests w' = (requests w + length days)%nat.
Proof.
  induction days as [|d days IH]; intros w; cbv zeta; cbn [dayOutcomes].
  - cbn. repeat split. lia.
  - pose proof (FetchHistoricalRate_frame pair d w) as (Hm & Hc & Hr).
    destruct (FetchHistoricalRate pair d w) as [r w1]. cbn [snd] in *.
    specialize (IH w1). cbv zeta in IH.
    destruct (dayOutcomes pair days w1) as [rest w2]. cbn [snd length] in *.
    destruct IH as (Hm' & Hc' & Hr').
    split; [congruence|]. split; [congruence|]. lia.
Qed.

Lemma length_daysFrom (n : nat) : forall cur, length (daysFrom cur n) = n.
Proof.
  induction n as [|n IH]; intros cur; cbn [daysFrom length];
    [reflexivity|rewrite IH; reflexivity].
Qed.

Lemma dayOutcomes_length (pair : CurrencyPair.t) (days : list Time) (w : World) :
  length (dayOutcomes pair days w).1 = length days.
Proof.
  rewrite <- (dayOutcomes_days pair days w) at 2.
  rewrite length_fmap. reflexivity.
Qed.

(** With distinct fresh keys, [collect] adds one entry per success. *)
Lemma collect_size (trace : list (Time * result ExchangeRate.t)) :
  forall rates : gmap string ExchangeRate.t,
  NoDup (Format <$> trace.*1) ->
  (forall k, k ∈ Format <$> trace.*1 -> rates !! k = None) ->
  size (collect trace rates) = (size rates + okCount trace)%nat.
Proof.
  induction trace as [|[d r] trace IH]; intros rates Hnd Hfresh.
  - cbn. lia.
  - rewrite !fmap_cons in Hnd, Hfresh. cbn [fst] in Hnd, Hfresh.
    apply NoDup_cons in Hnd as [Hd Hnd].
    rewrite collect_cons. cbn [okCount].
    destruct r as [rate|err].
    + rewrite IH.
      * rewrite map_size_insert_None by (apply Hfresh; left). lia.
      * exact Hnd.
      * intros k Hk. rewrite lookup_insert_ne by (intros <-; contradiction).
        apply Hfresh. right. exact Hk.
    + apply IH; [exact Hnd|]. intros k Hk. apply Hfresh. right. exact Hk.
Qed.

Lemma okCount_le (trace : list (Time * result ExchangeRate.t)) :
  (okCount trace <= length trace)%nat.
Proof.
  induction trace as [|[d [rate|err]] trace IH]; cbn [okCount length]; lia.
Qed.

(** X10.  A range request costs one provider request per day of the
    range and touches neither the memo nor the cache.  Its result holds
    exactly one entry per day that succeeded, so at most one per day of
    the range; when the start lies after the end it is empty and nothing
    is sent. *)
Theorem X10_range_cost (request : HistoricalRateRequest.t) (w : World) :
  let out := FetchHistoricalRates (rangeFuel request) request w in
  let trace := (dayOutcomes (requestPair request)
                  (daysFrom (HistoricalRateRequest.StartDate request)
                            (rangeFuel request)) w).1 in
  requests out.2 = (requests w + rangeFuel request)%nat /\
  latestRates out.2 = latestRates w /\
  cacheMap out.2 = cacheMap w /\
  (exists rates,
     out.1 = Some (Ok rates)
     /\ size (HistoricalRates.Rates rates) = okCount trace
     /\ (size (HistoricalRates.Rates rates) <= rangeFuel request)%nat) /\
  (HistoricalRateRequest.EndDate request
     < HistoricalRateRequest.StartDate request ->
   rangeFuel request = 0%nat).
Proof.
  cbv zeta.
  pose proof (rangeFuel_bounds request) as [Hend Hin].
  unfold FetchHistoricalRates. cbn [bind M_Monad].
  rewrite (historicalLoop_trace request (rangeFuel request)
             (rangeFuel request) _ ∅ w (le_n _) Hend Hin).
  cbn [fst snd].
  pose proof (dayOutcomes_frame (requestPair request)
                (daysFrom (HistoricalRateRequest.StartDate request)
                          (rangeFuel request)) w) as (Hm & Hc & Hr).
  rewrite length_daysFrom in Hr.
  split; [exact Hr|]. split; [exact Hm|]. split; [exact Hc|]. split.
  - eexists. split; [reflexivity|]. cbn [HistoricalRates.Rates].
    assert (Hsize : size (collect (dayOutcomes (requestPair request)
                (daysFrom (HistoricalRateRequest.StartDate request)
                          (rangeFuel request)) w).1 ∅)
            = okCount (dayOutcomes (requestPair request)
                (daysFrom (HistoricalRateRequest.StartDate request)
                          (rangeFuel request)) w).1).
    { rewrite collect_size.
      - rewrite map_size_empty. reflexivity.
      - rewrite dayOutcomes_days. apply daysFrom_keys_NoDup.
      - intros k _. apply lookup_empty. }
    split; [exact Hsize|]. rewrite Hsize.
    etransitivity; [apply okCount_le|].
    rewrite dayOutcomes_length, length_daysFrom. reflexivity.
  - intros Hlt. destruct (rangeFuel request) as [|n] eqn:Hn; [reflexivity|].
    specialize (Hin ltac:(lia)). rewrite Day_value in Hin. lia.
Qed.

(** The rate a table resolves to does not depend on the world. *)
Lemma extractRate_rate_indep (quotes : gmap string float)
    (pair : CurrencyPair.t) (w1 w2 : World) :
  rateOf (extractRate quotes pair w1).1 = rateOf (extractRate quotes pair w2).1.
Proof. destruct pair as [b t]. rewrite !extractRate_outcome. reflexivity. Qed.

Lemma refreshTargets_extractAll (quotes : gmap string float) (base : Currency)
    (targets : list Currency) :
  forall w, refreshTargets quotes base targets w
            = extractAll quotes (pairsFrom base targets) w.
Proof.
  induction targets as [|target targets IH]; intros w;
    cbn [refreshTargets pairsFrom]; [reflexivity|].
  destruct (String.eqb base target); [apply IH|].
  cbn [extractAll bind M_Monad].
  destruct (extractRate quotes _ w) as [r w1]. apply IH.
Qed.

Lemma extractAll_app (quotes : gmap string float) (l1 l2 : list CurrencyPair.t) :
  forall w, extractAll quotes (l1 ++ l2) w
            = extractAll quotes l2 (extractAll quotes l1 w).2.
Proof.
  induction l1 as [|p l1 IH]; intros w; [reflexivity|].
  cbn [app extractAll bind M_Monad].
  destruct (extractRate quotes p w) as [r w1]. apply IH.
Qed.

Lemma refreshBases_extractAll (quotes : gmap string float) (bases : list Currency) :
  forall w, refreshBases quotes bases w
            = extractAll quotes (refreshPairsOf bases) w.
Proof.
  induction bases as [|base bases IH]; intros w;
    cbn [refreshBases refreshPairsOf]; [reflexivity|].
  rewrite extractAll_app. cbn [bind M_Monad].
  rewrite refreshTargets_extractAll.
  destruct (extractAll quotes (pairsFrom base SupportedCurrencies) w) as [u w1].
  apply IH.
Qed.

Lemma elem_of_pairsFrom (base : Currency) (targets : list Currency)
    (p : CurrencyPair.t) :
  p ∈ pairsFrom base targets <->
  CurrencyPair.BaseCurrency p = base
  /\ CurrencyPair.TargetCurrency p ∈ targets
  /\ base <> CurrencyPair.TargetCurrency p.
Proof.
  induction targets as [|target targets IH]; cbn [pairsFrom].
  - split; [intros H; inversion H|intros (_ & H & _); inversion H].
  - destruct (String.eqb_spec base target) as [<-|Hne].
    + rewrite IH, elem_of_cons. split.
      * intros (Hb & Ht & Hd). repeat split; [exact Hb|right; exact Ht|exact Hd].
      * intros (Hb & [Ht|Ht] & Hd); [congruence|]. repeat split; assumption.
    + rewrite elem_of_cons, IH, elem_of_cons. split.
      * intros [->|(Hb & Ht & Hd)]; cbn.
        -- repeat split; [left; reflexivity|exact Hne].
        -- repeat split; [exact Hb|right; exact Ht|exact Hd].
      * intros (Hb & [Ht|Ht] & Hd).
        -- left. destruct p as [b t]. cbn in *. congruence.
        -- right. repeat split; assumption.
Qed.

Lemma elem_of_refreshPairsOf (bases : list Currency) (p : CurrencyPair.t) :
  p ∈ refreshPairsOf bases <->
  CurrencyPair.BaseCurrency p ∈ bases
  /\ CurrencyPair.TargetCurrency p ∈ SupportedCurrencies
  /\ CurrencyPair.BaseCurrency p <> CurrencyPair.TargetCurrency p.
Proof.
  induction bases as [|base bases IH]; cbn [refreshPairsOf].
  - split; [intros H; inversion H|intros (H & _); inversion H].
  - rewrite elem_of_app, elem_of_pairsFrom, IH, elem_of_cons. split.
    + intros [(Hb & Ht & Hd)|(Hb & Ht & Hd)].
      * repeat split; [left; exact Hb|exact Ht|congruence].
      * repeat split; [right; exact Hb|exact Ht|exact Hd].
    + intros ([Hb|Hb] & Ht & Hd).
      * left. repeat split; [exact Hb|exact Ht|congruence].
      * right. repeat split; assumption.
Qed.

Lemma elem_of_refreshPairs (p : CurrencyPair.t) :
  p ∈ refreshPairs <->
  IsSupported (CurrencyPair.BaseCurrency p) = true
  /\ IsSupported (CurrencyPair.TargetCurrency p) = true
  /\ CurrencyPair.BaseCurrency p <> CurrencyPair.TargetCurrency p.
Proof.
  unfold refreshPairs, IsSupported.
  rewrite elem_of_refreshPairsOf, !isSupportedIn_elem. reflexivity.
Qed.

Lemma refreshPairs_keys_NoDup : NoDup (CurrencyPair_String <$> refreshPairs).
Proof. apply (bool_decide_unpack _). vm_compute. reflexivity. Qed.

(** What a run of extractions leaves in the memo, when the pairs have
    keys of their own: the rate of each pair that resolves, and what was
    there before for every other key. *)
Lemma extractAll_memo (quotes : gmap string float) (pairs : list CurrencyPair.t) :
  forall w,
  NoDup (CurrencyPair_String <$> pairs) ->
  let w' := (extractAll quotes pairs w).2 in
  cacheMap w' = cacheMap w /\ requests w' = requests w /\
  (forall k, k ∉ CurrencyPair_String <$> pairs ->
             latestRates w' !! k = latestRates w !! k) /\
  (forall p, p ∈ pairs ->
     match rateOf (extractRate quotes p w).1 with
     | Ok x => exists rate,
                 latestRates w' !! CurrencyPair_String p = Some rate
                 /\ pairOf rate = p /\ ExchangeRate.Rate rate = x
     | Err _ => latestRates w' !! CurrencyPair_String p
                = latestRates w !! CurrencyPair_String p
     end).
Proof.
  induction pairs as [|pair pairs IH]; intros w Hnd; cbv zeta.
  - cbn. repeat split. intros p Hp. inversion Hp.
  - rewrite fmap_cons in Hnd. apply NoDup_cons in Hnd as [Hfresh Hnd].
    cbn [extractAll bind M_Monad].
    destruct (extractRate_cases quotes pair w) as [[e He]|[x Hx]].
    + rewrite He. specialize (IH w Hnd). cbv zeta in IH.
      destruct IH as (Hc & Hr & Hother & Hin).
      split; [exact Hc|]. split; [exact Hr|]. split.
      * intros k Hk. rewrite fmap_cons in Hk.
        apply not_elem_of_cons in Hk as [_ Hk]. apply Hother, Hk.
      * intros p Hp. apply elem_of_cons in Hp as [->|Hp]; [|apply Hin, Hp].
        rewrite He. cbn [fst rateOf]. apply Hother, Hfresh.
    + rewrite Hx, storeLatest_unfold.
      set (w1 := (set_latestRates _ _).2).
      specialize (IH w1 Hnd). cbv zeta in IH.
      destruct IH as (Hc & Hr & Hother & Hin).
      split; [rewrite Hc; reflexivity|]. split; [rewrite Hr; reflexivity|]. split.
      * intros k Hk. rewrite fmap_cons in Hk.
        apply not_elem_of_cons in Hk as [Hne Hk]. rewrite (Hother k Hk).
        unfold w1. cbn. apply lookup_insert_ne. congruence.
      * intros p Hp. apply elem_of_cons in Hp as [->|Hp].
        -- rewrite Hx, storeLatest_unfold. cbn [fst rateOf].
           exists (latestRateAt pair x w). rewrite (Hother _ Hfresh).
           unfold w1. cbn. rewrite lookup_insert_eq.
           destruct pair. repeat split.
        -- specialize (Hin p Hp).
           rewrite (extractRate_rate_indep quotes p w w1).
           destruct (rateOf (extractRate quotes p w1).1) as [y|e]; [exact Hin|].
           rewrite Hin. unfold w1. cbn. apply lookup_insert_ne.
           intros Heq. apply Hfresh. rewrite Heq.
           apply list_elem_of_fmap. exists p. split; [reflexivity|exact Hp].
Qed.

Lemma RefreshRates_unfold (w : World) :
  RefreshRates w =
  match readQuotes (network w (requests w) (liveURL (baseURL w) (apiKey w))) with
  | Err err =>
      (Some (ErrorfW "failed to fetch latest rates" err),
       afterRequest (set_latestRates (fun _ => ∅) w).2)
  | Ok quotes =>
      (None,
       (extractAll quotes refreshPairs
          (afterRequest (set_latestRates (fun _ => ∅) w).2)).2)
  end.
Proof.
  unfold RefreshRates. cbn [bind M_Monad set_latestRates].
  rewrite fetchAllLatestRates_unfold.
  cbn [snd fst requests network baseURL apiKey].
  destruct (readQuotes _) as [quotes|err]; [|reflexivity].
  rewrite refreshBases_extractAll. fold refreshPairs.
  destruct (extractAll quotes refreshPairs _). reflexivity.
Qed.

(** X11.  When the quote table cannot be fetched, [RefreshRates]
    reports the failure, having sent one request, and leaves the memo
    empty: the rates memoised before the refresh are gone.  The cache is
    not touched. *)
Theorem X11_RefreshRates_failure (w : World) (err : error) :
  readQuotes (network w (requests w) (liveURL (baseURL w) (apiKey w))) = Err err ->
  (RefreshRates w).1 = Some (ErrorfW "failed to fetch latest rates" err) /\
  latestRates (RefreshRates w).2 = ∅ /\
  cacheMap (RefreshRates w).2 = cacheMap w /\
  requests (RefreshRates w).2 = S (requests w).
Proof.
  intros Hout. rewrite RefreshRates_unfold, Hout. repeat split.
Qed.

Lemma X11_RefreshRates_failure_witness :
  (RefreshRates stockedWorld).1
    = Some (ErrorfW "failed to fetch latest rates"
              (ErrorfW "failed to send request" (Errorf "no route to host"))) /\
  latestRates (RefreshRates stockedWorld).2 = ∅ /\
  cacheMap (RefreshRates stockedWorld).2 = cacheMap stockedWorld /\
  requests (RefreshRates stockedWorld).2 = S (requests stockedWorld).
Proof.
  apply (X11_RefreshRates_failure stockedWorld). reflexivity.
Defined.

Lemma extractAll_refreshPairs_sound (quotes : gmap string float) (w0 : World)
    (k : string) (rate : ExchangeRate.t) :
  latestRates w0 = ∅ ->
  latestRates (extractAll quotes refreshPairs w0).2 !! k = Some rate ->
  supportedRate rate
  /\ ExchangeRate.BaseCurrency rate <> ExchangeRate.TargetCurrency rate
  /\ k = CurrencyPair_String (pairOf rate).
Proof.
  intros Hempty Hk.
  pose proof (extractAll_memo quotes refreshPairs w0 refreshPairs_keys_NoDup)
    as (_ & _ & Hother & Hin).
  destruct (decide (k ∈ CurrencyPair_String <$> refreshPairs)) as [Hkin|Hkout].
  - apply list_elem_of_fmap in Hkin as (p & -> & Hp).
    specialize (Hin p Hp). apply elem_of_refreshPairs in Hp as (Hb & Ht & Hd).
    destruct (rateOf (extractRate quotes p w0).1).
    + destruct Hin as (rate' & Hrate' & Hpair & _).
      rewrite Hk in Hrate'. injection Hrate' as <-.
      unfold supportedRate. destruct rate; unfold pairOf in *; cbn in *.
      subst p. cbn in *. repeat split; assumption.
    + rewrite Hin, Hempty, lookup_empty in Hk. discriminate Hk.
  - rewrite (Hother k Hkout), Hempty, lookup_empty in Hk. discriminate Hk.
Qed.

Lemma RefreshRates_memo_complete (w : World) (quotes : gmap string float)
    (base target : Currency) :
  readQuotes (network w (requests w) (liveURL (baseURL w) (apiKey w)))
    = Ok quotes ->
  IsSupported base = true -> IsSupported target = true -> base <> target ->
  match rateOf (extractRate quotes (CurrencyPair.mk base target) w).1 with
  | Ok x => exists rate,
      latestRates (RefreshRates w).2
        !! CurrencyPair_String (CurrencyPair.mk base target) = Some rate
      /\ pairOf rate = CurrencyPair.mk base target
      /\ ExchangeRate.Rate rate = x
  | Err _ =>
      latestRates (RefreshRates w).2
        !! CurrencyPair_String (CurrencyPair.mk base target) = None
  end.
Proof.
  intros Hout Hb Ht Hd. rewrite RefreshRates_unfold, Hout. cbn [fst snd].
  set (w0 := afterRequest (set_latestRates (fun _ => ∅) w).2).
  pose proof (extractAll_memo quotes refreshPairs w0 refreshPairs_keys_NoDup)
    as (_ & _ & _ & Hin).
  specialize (Hin (CurrencyPair.mk base target)
                (proj2 (elem_of_refreshPairs (CurrencyPair.mk base target))
                       (conj Hb (conj Ht Hd)))).
  rewrite (extractRate_rate_indep quotes _ w w0).
  destruct (rateOf (extractRate quotes _ w0).1); [exact Hin|].
  rewrite Hin. reflexivity.
Qed.

(** X12.  When the quote table is fetched, [RefreshRates] succeeds with
    one request, whatever the table holds, and leaves the cache alone.
    Afterwards the memo holds, for every ordered pair of distinct
    supported currencies, the rate [extractRate] resolves from the table
    if it resolves one and nothing if it does not; and it holds nothing
    else, in particular no pair of equal currencies. *)
Theorem X12_RefreshRates_success (w : World) (quotes : gmap string float) :
  readQuotes (network w (requests w) (liveURL (baseURL w) (apiKey w)))
    = Ok quotes ->
  let w' := (RefreshRates w).2 in
  (RefreshRates w).1 = None /\
  requests w' = S (requests w) /\
  cacheMap w' = cacheMap w /\
  (forall base target,
     IsSupported base = true -> IsSupported target = true -> base <> target ->
     match rateOf (extractRate quotes (CurrencyPair.mk base target) w).1 with
     | Ok x => exists rate,
         latestRates w' !! CurrencyPair_String (CurrencyPair.mk base target)
           = Some rate
         /\ pairOf rate = CurrencyPair.mk base target
         /\ ExchangeRate.Rate rate = x
     | Err _ =>
         latestRates w' !! CurrencyPair_String (CurrencyPair.mk base target)
           = None
     end) /\
  (forall k rate,
     latestRates w' !! k = Some rate ->
     supportedRate rate
     /\ ExchangeRate.BaseCurrency rate <> ExchangeRate.TargetCurrency rate
     /\ k = CurrencyPair_String (pairOf rate)).
Proof.
  intros Hout. cbv zeta. rewrite RefreshRates_unfold, Hout. cbn [fst snd].
  set (w0 := afterRequest (set_latestRates (fun _ => ∅) w).2).
  pose proof (extractAll_memo quotes refreshPairs w0 refreshPairs_keys_NoDup)
    as (Hc & Hr & Hother & Hin).
  split; [reflexivity|]. split; [rewrite Hr; reflexivity|].
  split; [rewrite Hc; reflexivity|]. split.
  - intros base target Hb Ht Hd.
    specialize (Hin (CurrencyPair.mk base target)
                  (proj2 (elem_of_refreshPairs (CurrencyPair.mk base target))
                         (conj Hb (conj Ht Hd)))).
    rewrite (extractRate_rate_indep quotes _ w w0).
    destruct (rateOf (extractRate quotes _ w0).1); [exact Hin|].
    rewrite Hin. reflexivity.
  - intros k rate Hk.
    apply (extractAll_refreshPairs_sound quotes w0 k rate eq_refl Hk).
Qed.

Lemma X12_RefreshRates_success_witness :
  (RefreshRates liveWorld).1 = None /\
  requests (RefreshRates liveWorld).2 = 1%nat /\
  latestRates (RefreshRates liveWorld).2 !! "USD-USD"%string = None.
Proof.
  destruct (X12_RefreshRates_success liveWorld liveQuotes eq_refl)
    as (Hnil & Hreq & _ & _ & Hsound).
  split; [exact Hnil|]. split; [exact Hreq|].
  destruct (latestRates (RefreshRates liveWorld).2 !! "USD-USD"%string)
    as [rate|] eqn:Hk; [|reflexivity].
  exfalso. destruct (Hsound _ _ Hk) as ([Hb Ht] & Hd & Hkey).
  apply Hd.
  apply (pairString_inj USD USD (ExchangeRate.BaseCurrency rate)
           (ExchangeRate.TargetCurrency rate)) in Hkey as [<- <-].
  - reflexivity.
  - rewrite (supported_length _ Hb). reflexivity.
Defined.

Lemma memoKeyed_empty : memoKeyed ∅.
Proof. intros k rate H. rewrite lookup_empty in H. discriminate. Qed.

Lemma memoKeyed_RefreshRates (w : World) :
  memoKeyed (latestRates (RefreshRates w).2).
Proof.
  rewrite RefreshRates_unfold.
  destruct (readQuotes _) as [quotes|err]; [|apply memoKeyed_empty].
  intros k rate Hk. cbn [snd] in Hk.
  apply extractAll_refreshPairs_sound in Hk as (Hs & _ & Hkey);
    [split; assumption|reflexivity].
Qed.

Lemma FetchLatestRate_keyed (pair : CurrencyPair.t) (w : World) :
  memoKeyed (latestRates w) ->
  IsSupported (CurrencyPair.BaseCurrency pair) = true ->
  IsSupported (CurrencyPair.TargetCurrency pair) = true ->
  memoKeyed (latestRates (FetchLatestRate pair w).2) /\
  cacheMap (FetchLatestRate pair w).2 = cacheMap w /\
  (forall rate, (FetchLatestRate pair w).1 = Ok rate -> pairOf rate = pair).
Proof.
  intros Hinv Hb Ht. rewrite FetchLatestRate_unfold.
  destruct (latestRates w !! CurrencyPair_String pair) as [r|] eqn:Hm.
  - split; [exact Hinv|]. split; [reflexivity|]. intros rate [= <-].
    destruct (Hinv _ _ Hm) as [[Hrb Hrt] Hkey].
    destruct pair as [b t]. unfold pairOf in *. cbn in Hb, Ht.
    apply pairString_inj in Hkey as [-> ->]; [reflexivity|].
    rewrite !supported_length by assumption. reflexivity.
  - destruct (readQuotes _) as [quotes|err];
      [|split; [exact Hinv|split; [reflexivity|discriminate]]].
    destruct (extractRate_cases quotes pair (afterRequest w)) as [[e He]|[x Hx]].
    + rewrite He. split; [exact Hinv|]. split; [reflexivity|discriminate].
    + rewrite Hx, storeLatest_unfold. cbn [fst snd]. split; [|split].
      * intros k rate. cbn.
        destruct (decide (CurrencyPair_String pair = k)) as [<-|Hne].
        -- rewrite lookup_insert_eq. intros [= <-].
           split; [split; assumption|]. destruct pair; reflexivity.
        -- rewrite lookup_insert_ne by exact Hne. apply Hinv.
      * reflexivity.
      * intros rate [= <-]. destruct pair; reflexivity.
Qed.

(** X13.  The provider's memo keeps its keying.  After [RefreshRates],
    whatever came before and whether it succeeded or not, and through
    every [FetchLatestRate] for a supported pair, each entry of the memo
    is a rate between supported currencies filed under the key of its
    own pair.  A rate that [FetchLatestRate] returns for a supported
    pair, from the memo or freshly resolved, is then a rate of that very
    pair. *)
Theorem X13_memo_keyed (w : World) :
  memoKeyed (latestRates (RefreshRates w).2) /\
  (memoKeyed (latestRates w) ->
   forall pair,
     IsSupported (CurrencyPair.BaseCurrency pair) = true ->
     IsSupported (CurrencyPair.TargetCurrency pair) = true ->
     memoKeyed (latestRates (FetchLatestRate pair w).2) /\
     (forall rate, (FetchLatestRate pair w).1 = Ok rate -> pairOf rate = pair)).
Proof.
  split; [apply memoKeyed_RefreshRates|].
  intros Hinv pair Hb Ht.
  destruct (FetchLatestRate_keyed pair w Hinv Hb Ht) as (Hk & _ & Hp).
  split; assumption.
Qed.

Lemma X13_memo_keyed_witness :
  memoKeyed (latestRates (FetchLatestRate (CurrencyPair.mk EUR INR) liveWorld).2)
  /\ (forall rate,
        (FetchLatestRate (CurrencyPair.mk EUR INR) liveWorld).1 = Ok rate ->
        pairOf rate = CurrencyPair.mk EUR INR).
Proof.
  apply (proj2 (X13_memo_keyed liveWorld) memoKeyed_empty
           (CurrencyPair.mk EUR INR)); reflexivity.
Defined.

End ProviderMore.

(** ** The errors of the service *)

Section ServiceErrors.
Import GoTime ExchangeService.

Lemma Leaves_bind {A B : Type} (p : Prog A) (f : A -> Prog B)
    (Q : A -> Prop) (P : B -> Prop) :
  Leaves p Q -> (forall a, Q a -> Leaves (f a) P) ->
  Leaves (x <- p ;; f x) P.
Proof.
  intros Hp Hf. induction p as [a|X c k IH]; cbn in *.
  - apply Hf. exact Hp.
  - intros x. apply IH. apply Hp.
Qed.

Lemma Leaves_mono {A : Type} (p : Prog A) (Q P : A -> Prop) :
  Leaves p Q -> (forall a, Q a -> P a) -> Leaves p P.
Proof.
  intros Hp Hq. induction p as [a|X c k IH]; cbn in *.
  - apply Hq. exact Hp.
  - intros x. apply IH. apply Hp.
Qed.

Lemma Leaves_run {S A : Type} (h : forall X, Call X -> S -> X * S)
    (prog : Prog A) (P : A -> Prop) :
  Leaves prog P -> forall s, P (run h prog s).1.
Proof.
  induction prog as [a|X c k IH]; cbn; intros Hl s; [exact Hl|].
  destruct (h X c s) as [x s1]. apply IH. apply Hl.
Qed.

Lemma unsupportedPair_spec (from to : Currency) :
  negb (IsSupported from) || negb (IsSupported to) = true
  <-> unsupportedPair from to.
Proof.
  unfold unsupportedPair.
  destruct (IsSupported from), (IsSupported to); cbn; intuition congruence.
Qed.

Lemma validateDate_leaves (date : Time) :
  Leaves (validateDate date)
    (fun e => e = None \/ e = Some ErrDateOutOfRange).
Proof.
  unfold validateDate. cbn [Leaves bind Prog_Monad Prog_bind call ret].
  intros now. destruct (Before _ _); cbn; auto.
Qed.

Lemma validateDateRange_leaves (startDate endDate : Time) :
  Leaves (validateDateRange startDate endDate)
    (fun e => e = None \/ e = Some ErrDateOutOfRange
              \/ (e = Some ErrInvalidDateRange
                  /\ After startDate endDate = true)).
Proof.
  unfold validateDateRange.
  apply (Leaves_bind _ _ _ _ (validateDate_leaves startDate)).
  intros e1 [->| ->]; [|cbn; auto].
  apply (Leaves_bind _ _ _ _ (validateDate_leaves endDate)).
  intros e2 [->| ->]; [|cbn; auto].
  destruct (After startDate endDate); cbn; auto.
Qed.

Lemma GetLatestRate_leaves (from to : Currency) :
  Leaves (GetLatestRate from to)
    (fun r => forall e, r = Err e ->
       (e = ErrInvalidCurrency /\ unsupportedPair from to) \/ external e).
Proof.
  unfold GetLatestRate.
  destruct (negb (IsSupported from) || negb (IsSupported to)) eqn:Hs.
  - cbn. intros e [= <-]. left. split; [reflexivity|].
    apply unsupportedPair_spec. exact Hs.
  - cbn [Leaves bind Prog_Monad Prog_bind call ret].
    intros now [rate|]; cbn; [discriminate|].
    intros [rate|err]; cbn.
    + intros _ e. discriminate.
    + intros e [= <-]. right. eexists. reflexivity.
Qed.

Lemma GetHistoricalRate_leaves (from to : Currency) (date : Time) :
  Leaves (GetHistoricalRate from to date)
    (fun r => forall e, r = Err e ->
       (e = ErrInvalidCurrency /\ unsupportedPair from to)
       \/ e = ErrDateOutOfRange \/ external e).
Proof.
  unfold GetHistoricalRate.
  destruct (negb (IsSupported from) || negb (IsSupported to)) eqn:Hs.
  - cbn. intros e [= <-]. left. split; [reflexivity|].
    apply unsupportedPair_spec. exact Hs.
  - apply (Leaves_bind _ _ _ _ (validateDate_leaves date)).
    intros e0 [->| ->]; [|cbn; intros e [= <-]; auto].
    cbn [Leaves bind Prog_Monad Prog_bind call ret].
    intros [rate|]; cbn; [discriminate|].
    intros [rate|err]; cbn.
    + intros _ e. discriminate.
    + intros e [= <-]. right. right. eexists. reflexivity.
Qed.

Lemma GetHistoricalRates_leaves (request : HistoricalRateRequest.t) :
  Leaves (GetHistoricalRates request)
    (fun r => forall e, r = Err e ->
       (e = ErrInvalidCurrency
        /\ unsupportedPair (HistoricalRateRequest.BaseCurrency request)
                           (HistoricalRateRequest.TargetCurrency request))
       \/ e = ErrDateOutOfRange
       \/ (e = ErrInvalidDateRange
           /\ After (HistoricalRateRequest.StartDate request)
                    (HistoricalRateRequest.EndDate request) = true)
       \/ external e).
Proof.
  unfold GetHistoricalRates.
  destruct (negb (IsSupported _) || negb (IsSupported _)) eqn:Hs.
  - cbn. intros e [= <-]. left. split; [reflexivity|].
    apply unsupportedPair_spec. exact Hs.
  - apply (Leaves_bind _ _ _ _ (validateDateRange_leaves _ _)).
    intros e0 [->|[->|[-> Hafter]]];
      [|cbn; intros e [= <-]; auto|cbn; intros e [= <-]; auto].
    cbn [Leaves bind Prog_Monad Prog_bind call ret].
    intros [rates|err]; cbn; [discriminate|].
    intros e [= <-]. right. right. right. eexists. reflexivity.
Qed.

Lemma ConvertCurrency_leaves (request : ConversionRequest.t) :
  Leaves (ConvertCurrency request)
    (fun r => forall e, r = Err e ->
       (e = ErrInvalidCurrency
        /\ unsupportedPair (ConversionRequest.FromCurrency request)
                           (ConversionRequest.ToCurrency request))
       \/ (e = ErrInvalidAmount
           /\ (ConversionRequest.Amount request <=? 0)%float = true)
       \/ e = ErrDateOutOfRange
       \/ external e).
Proof.
  unfold ConvertCurrency. cbv zeta.
  destruct (negb (IsSupported _) || negb (IsSupported _)) eqn:Hs.
  - cbn. intros e [= <-]. left. split; [reflexivity|].
    apply unsupportedPair_spec. exact Hs.
  - destruct (PrimFloat.leb _ _) eqn:Hamount.
    + cbn. intros e [= <-]. auto.
    + assert (Hnot : ~ unsupportedPair (ConversionRequest.FromCurrency request)
                         (ConversionRequest.ToCurrency request)).
      { rewrite <- unsupportedPair_spec, Hs. discriminate. }
      apply (Leaves_bind _ _
               (fun r => forall e, r = Err e ->
                  e = ErrDateOutOfRange \/ external e)).
      * destruct (negb (IsZero _)).
        -- apply (Leaves_bind _ _ _ _ (validateDate_leaves _)).
           intros e0 [->| ->]; [|cbn; intros e [= <-]; auto].
           apply (Leaves_mono _ _ _ (GetHistoricalRate_leaves _ _ _)).
           intros r Hr e He.
           destruct (Hr e He) as [[_ Hu]|[->|Hx]]; [contradiction|auto|auto].
        -- apply (Leaves_mono _ _ _ (GetLatestRate_leaves _ _)).
           intros r Hr e He.
           destruct (Hr e He) as [[_ Hu]|Hx]; [contradiction|auto].
      * intros [rate|err] Hr; cbn; [discriminate|].
        intros e [= <-]. right. right. apply Hr. reflexivity.
Qed.

Lemma external_not_sentinel (e target : error) :
  external e -> target <> ErrExternalAPIFailure ->
  (forall w d, target <> ErrorfWV w d) ->
  errors_Is e target = false /\ e <> target.
Proof.
  intros [d ->] Hne Hshape. split; [|apply not_eq_sym, Hshape].
  cbn [errors_Is]. rewrite bool_decide_eq_false_2 by (apply not_eq_sym, Hshape).
  destruct target; cbn; try reflexivity; contradiction.
Qed.

Lemma errorAmong_not_found (e : error) :
  errorAmong validationErrors e -> errors_Is e ErrRateNotFound = false.
Proof.
  intros [Hin|Hx].
  - unfold validationErrors in Hin. rewrite !elem_of_cons in Hin.
    destruct Hin as [->|[->|[->|[->|Hin]]]]; try reflexivity.
    apply elem_of_nil in Hin. contradiction.
  - apply (external_not_sentinel e ErrRateNotFound Hx); discriminate.
Qed.

Lemma errorAmong_among (l : list error) (e : error) :
  l ⊆ validationErrors -> errorAmong l e -> errorAmong validationErrors e.
Proof. intros Hl [Hin|Hx]; [left; apply Hl, Hin|right; exact Hx]. Qed.

Ltac among_validation :=
  intros x; unfold validationErrors; rewrite !elem_of_cons, !elem_of_nil; tauto.

Section AnyPorts.
Context {S : Type} (h : forall X, Call X -> S -> X * S).

Lemma GetLatestRate_errors (from to : Currency) (s : S) (e : error) :
  (run h (GetLatestRate from to) s).1 = Err e ->
  errorAmong [ErrInvalidCurrency] e.
Proof.
  intros He.
  destruct (Leaves_run h _ _ (GetLatestRate_leaves from to) s e He)
    as [[-> _]|Hx]; [left; repeat constructor|right; exact Hx].
Qed.

Lemma GetHistoricalRate_errors (from to : Currency) (date : Time) (s : S)
    (e : error) :
  (run h (GetHistoricalRate from to date) s).1 = Err e ->
  errorAmong [ErrInvalidCurrency; ErrDateOutOfRange] e.
Proof.
  intros He.
  destruct (Leaves_run h _ _ (GetHistoricalRate_leaves from to date) s e He)
    as [[-> _]|[->|Hx]]; [left; repeat constructor|left; repeat constructor|right; exact Hx].
Qed.

Lemma GetHistoricalRates_errors (request : HistoricalRateRequest.t) (s : S)
    (e : error) :
  (run h (GetHistoricalRates request) s).1 = Err e ->
  errorAmong [ErrInvalidCurrency; ErrDateOutOfRange; ErrInvalidDateRange] e.
Proof.
  intros He.
  destruct (Leaves_run h _ _ (GetHistoricalRates_leaves request) s e He)
    as [[-> _]|[->|[[-> _]|Hx]]];
    [left; repeat constructor|left; repeat constructor|left; repeat constructor|right; exact Hx].
Qed.

Lemma ConvertCurrency_errors (request : ConversionRequest.t) (s : S)
    (e : error) :
  (run h (ConvertCurrency request) s).1 = Err e ->
  errorAmong [ErrInvalidCurrency; ErrInvalidAmount; ErrDateOutOfRange] e.
Proof.
  intros He.
  destruct (Leaves_run h _ _ (ConvertCurrency_leaves request) s e He)
    as [[-> _]|[[-> _]|[->|Hx]]];
    [left; repeat constructor|left; repeat constructor|left; repeat constructor|right; exact Hx].
Qed.

(** X14.  The errors of the service, whatever the cache and the
    provider behind it do.  [GetLatestRate] fails only with
    [ErrInvalidCurrency] or an error wrapping [ErrExternalAPIFailure];
    [GetHistoricalRate] can also fail with [ErrDateOutOfRange],
    [GetHistoricalRates] also with [ErrInvalidDateRange], and
    [ConvertCurrency] with [ErrInvalidCurrency], [ErrInvalidAmount],
    [ErrDateOutOfRange] or a wrapped [ErrExternalAPIFailure];
    [RefreshRates] fails only with the latter.  None of them ever
    returns an error that [errors.Is] matches with [ErrRateNotFound]. *)
Theorem X14_service_errors (s : S) (e : error) :
  (forall from to,
     (run h (GetLatestRate from to) s).1 = Err e ->
     errorAmong [ErrInvalidCurrency] e
     /\ errors_Is e ErrRateNotFound = false) /\
  (forall from to date,
     (run h (GetHistoricalRate from to date) s).1 = Err e ->
     errorAmong [ErrInvalidCurrency; ErrDateOutOfRange] e
     /\ errors_Is e ErrRateNotFound = false) /\
  (forall request,
     (run h (GetHistoricalRates request) s).1 = Err e ->
     errorAmong [ErrInvalidCurrency; ErrDateOutOfRange; ErrInvalidDateRange] e
     /\ errors_Is e ErrRateNotFound = false) /\
  (forall request,
     (run h (ConvertCurrency request) s).1 = Err e ->
     errorAmong [ErrInvalidCurrency; ErrInvalidAmount; ErrDateOutOfRange] e
     /\ errors_Is e ErrRateNotFound = false) /\
  ((run h RefreshRates s).1 = Some e ->
     external e /\ errors_Is e ErrRateNotFound = false).
Proof.
  split; [|split; [|split; [|split]]].
  - intros from to He. apply GetLatestRate_errors in He.
    split; [exact He|]. apply errorAmong_not_found.
    revert He. apply errorAmong_among. among_validation.
  - intros from to date He. apply GetHistoricalRate_errors in He.
    split; [exact He|]. apply errorAmong_not_found.
    revert He. apply errorAmong_among. among_validation.
  - intros request He. apply GetHistoricalRates_errors in He.
    split; [exact He|]. apply errorAmong_not_found.
    revert He. apply errorAmong_among. among_validation.
  - intros request He. apply ConvertCurrency_errors in He.
    split; [exact He|]. apply errorAmong_not_found.
    revert He. apply errorAmong_among. among_validation.
  - unfold RefreshRates. rewrite run_bind, run_call.
    destruct (h _ RepoRefreshRates s) as [[err|] s1].
    + cbn. intros [= <-].
      assert (Hx : external (ErrorfWV ErrExternalAPIFailure err))
        by (eexists; reflexivity).
      split; [exact Hx|].
      apply (external_not_sentinel _ ErrRateNotFound Hx); discriminate.
    + rewrite run_bind, run_call. destruct (h _ CacheClearExpired s1).
      cbn. discriminate.
Qed.

(** X15.  [ErrInvalidCurrency] and [ErrInvalidAmount] are returned for
    exactly the requests they name, whatever the cache and the provider
    do.  Each of the four operations returns [ErrInvalidCurrency] if and
    only if one of the two currencies is not supported, and then it has
    called neither the clock, the cache nor the provider.
    [ConvertCurrency] returns [ErrInvalidAmount] if and only if both
    currencies are supported and [Amount <= 0] holds in binary64; an
    amount that is not a number is therefore not rejected. *)
Theorem X15_invalid_request_exact (s : S) (from to : Currency) :
  ((run h (GetLatestRate from to) s).1 = Err ErrInvalidCurrency
   <-> unsupportedPair from to) /\
  (forall date,
     (run h (GetHistoricalRate from to date) s).1 = Err ErrInvalidCurrency
     <-> unsupportedPair from to) /\
  (forall startDate endDate,
     (run h (GetHistoricalRates
               (HistoricalRateRequest.mk from to startDate endDate)) s).1
       = Err ErrInvalidCurrency
     <-> unsupportedPair from to) /\
  (forall amount date,
     ((run h (ConvertCurrency (ConversionRequest.mk from to amount date)) s).1
        = Err ErrInvalidCurrency
      <-> unsupportedPair from to) /\
     ((run h (ConvertCurrency (ConversionRequest.mk from to amount date)) s).1
        = Err ErrInvalidAmount
      <-> ~ unsupportedPair from to /\ (amount <=? 0)%float = true)) /\
  (forall date,
     (run h (ConvertCurrency (ConversionRequest.mk from to nan date)) s).1
       <> Err ErrInvalidAmount) /\
  (unsupportedPair from to ->
   forall date endDate amount,
     (run h (GetLatestRate from to) s).2 = s
     /\ (run h (GetHistoricalRate from to date) s).2 = s
     /\ (run h (GetHistoricalRates
                  (HistoricalRateRequest.mk from to date endDate)) s).2 = s
     /\ (run h (ConvertCurrency
                  (ConversionRequest.mk from to amount date)) s).2 = s).
Proof.
  assert (Hdirect : forall A (k : Prog (result A)),
            unsupportedPair from to ->
            run h (if negb (IsSupported from) || negb (IsSupported to)
                   then ret (Err ErrInvalidCurrency) else k) s
            = (Err ErrInvalidCurrency, s)).
  { intros A k Hu. apply unsupportedPair_spec in Hu. rewrite Hu. reflexivity. }
  assert (Hconvert : forall amount date,
    ((run h (ConvertCurrency (ConversionRequest.mk from to amount date)) s).1
        = Err ErrInvalidCurrency
      <-> unsupportedPair from to) /\
    ((run h (ConvertCurrency (ConversionRequest.mk from to amount date)) s).1
        = Err ErrInvalidAmount
      <-> ~ unsupportedPair from to /\ (amount <=? 0)%float = true)).
  { intros amount date.
    pose proof (Leaves_run h _ _
                  (ConvertCurrency_leaves
                     (ConversionRequest.mk from to amount date)) s) as Hl.
    cbn [ConversionRequest.FromCurrency ConversionRequest.ToCurrency
         ConversionRequest.Amount] in Hl.
    split; split.
    - intros He. destruct (Hl _ He) as [[_ Hu]|[[Hc _]|[Hc|Hx]]];
        [exact Hu|discriminate Hc|discriminate Hc|].
      destruct Hx as [d Hd]. discriminate Hd.
    - intros Hu. unfold ConvertCurrency. cbv zeta.
      cbn [ConversionRequest.FromCurrency ConversionRequest.ToCurrency].
      rewrite (Hdirect _ _ Hu). reflexivity.
    - intros He. destruct (Hl _ He) as [[Hc _]|[[_ Ha]|[Hc|Hx]]];
        [discriminate Hc| |discriminate Hc|destruct Hx as [d Hd]; discriminate Hd].
      split; [|exact Ha]. intros Hu.
      unfold ConvertCurrency in He. cbv zeta in He.
      cbn [ConversionRequest.FromCurrency ConversionRequest.ToCurrency] in He.
      rewrite (Hdirect _ _ Hu) in He. discriminate He.
    - intros [Hu Ha]. rewrite <- unsupportedPair_spec in Hu.
      apply not_true_is_false in Hu.
      unfold ConvertCurrency. cbv zeta.
      cbn [ConversionRequest.FromCurrency ConversionRequest.ToCurrency
           ConversionRequest.Amount].
      rewrite Hu, Ha. reflexivity. }
  split; [|split; [|split; [|split; [|split]]]].
  - split.
    + intros He.
      destruct (Leaves_run h _ _ (GetLatestRate_leaves from to) s _ He)
        as [[_ Hu]|[d Hd]]; [exact Hu|discriminate Hd].
    + intros Hu. unfold GetLatestRate. rewrite (Hdirect _ _ Hu). reflexivity.
  - intros date. split.
    + intros He.
      destruct (Leaves_run h _ _ (GetHistoricalRate_leaves from to date) s _ He)
        as [[_ Hu]|[Hc|[d Hd]]]; [exact Hu|discriminate Hc|discriminate Hd].
    + intros Hu. unfold GetHistoricalRate. rewrite (Hdirect _ _ Hu). reflexivity.
  - intros startDate endDate. split.
    + intros He.
      destruct (Leaves_run h _ _
                  (GetHistoricalRates_leaves
                     (HistoricalRateRequest.mk from to startDate endDate)) s _ He)
        as [[_ Hu]|[Hc|[[Hc _]|[d Hd]]]];
        [exact Hu|discriminate Hc|discriminate Hc|discriminate Hd].
    + intros Hu. unfold GetHistoricalRates.
      cbn [HistoricalRateRequest.BaseCurrency HistoricalRateRequest.TargetCurrency].
      rewrite (Hdirect _ _ Hu). reflexivity.
  - exact Hconvert.
  - intros date He. apply (Hconvert nan date) in He as [_ Ha].
    vm_compute in Ha. discriminate Ha.
  - intros Hu date endDate amount.
    unfold GetLatestRate, GetHistoricalRate, GetHistoricalRates, ConvertCurrency.
    cbv zeta.
    cbn [HistoricalRateRequest.BaseCurrency HistoricalRateRequest.TargetCurrency
         ConversionRequest.FromCurrency ConversionRequest.ToCurrency].
    rewrite !(Hdirect _ _ Hu). repeat split.
Qed.

End AnyPorts.

End ServiceErrors.

(** ** The replies of the HTTP handlers *)

Section HandlerReplies.
Import GoTime ExchangeService Handler.









Section AnyRequest.
Variable time_Parse : string -> result Time.
Variable strconv_ParseFloat : string -> result float.
Variable query : string -> string.







End AnyRequest.

End HandlerReplies.

(** A conversion of an amount given as ["NaN"] passes the amount check,
    resolves, and is answered with status 200 and an empty body. *)
Example ex_convert_nan_empty_body :
  (run (mockPorts sampleNoon (Some sampleRate) (Err (Errorf "API error")))
       (Handler.ConvertCurrencyHandler
          (fun _ => Err (Errorf "parsing time"))
          (fun _ => Ok nan)
          nanQuery) tt).1
  = {| Handler.statusCode := 200; Handler.body := None |}.
Proof. vm_compute. reflexivity. Qed.

(** ** The date helpers *)

Section Dates.
Import GoTime.

Lemma ValidateDate_run {S : Type} (h : forall X, Call X -> S -> X * S)
    (date : Time) (s : S) :
  run h (DateUtils.ValidateDate date) s =
  (negb (date <? (unixDays (h _ TimeNow s).1 - 90) * Day), (h _ TimeNow s).2).
Proof.
  unfold DateUtils.ValidateDate. rewrite run_bind, run_call.
  destruct (h _ TimeNow s) as [now s1]. cbn [fst snd].
  rewrite Truncate_day, AddDate_days. unfold Before.
  replace (unixDays now * Day + -90 * Day)
    with ((unixDays now - 90) * Day) by lia.
  reflexivity.
Qed.

Lemma unixDays_le (t : Time) : unixDays t * Day <= t.
Proof.
  unfold unixDays. pose proof (Z.mul_div_le t Day). rewrite Day_value in *. lia.
Qed.

(** X17.  [utils.ValidateDate] reads the clock once and accepts a date
    exactly when it is not before the UTC midnight ninety calendar days
    before the current UTC day, that is [(now div 24h - 90) * 24h].  It
    accepts every date from the present on, however far in the future,
    and it accepts exactly the dates the service's own [validateDate]
    lets through. *)
Theorem X17_ValidateDate {S : Type} (h : forall X, Call X -> S -> X * S)
    (date : Time) (s : S) :
  let now := (h _ TimeNow s).1 in
  ((run h (DateUtils.ValidateDate date) s).1 = true
   <-> (unixDays now - 90) * Day <= date) /\
  (now <= date -> (run h (DateUtils.ValidateDate date) s).1 = true) /\
  ((run h (DateUtils.ValidateDate date) s).1 = true
   <-> (run h (ExchangeService.validateDate date) s).1 = None) /\
  (run h (DateUtils.ValidateDate date) s).2 = (h _ TimeNow s).2.
Proof.
  cbv zeta. rewrite ValidateDate_run, validateDate_run. cbn [fst snd].
  pose proof (unixDays_le (h _ TimeNow s).1) as Hle.
  destruct (Z.ltb_spec date ((unixDays (h _ TimeNow s).1 - 90) * Day))
    as [Hlt|Hge]; cbn [negb].
  - split; [split; [discriminate|lia]|].
    split; [rewrite Day_value in *; lia|].
    split; [split; discriminate|reflexivity].
  - split; [split; [intros _; exact Hge|reflexivity]|].
    split; [reflexivity|]. split; [split; reflexivity|reflexivity].
Qed.

Lemma wall_inUTC (t : Time) : DateUtils.wall (DateUtils.inUTC t) = t.
Proof. unfold DateUtils.wall, DateUtils.inUTC, DateUtils.UTC. cbn. lia. Qed.

(** X18.  [utils.FormatDate] identifies calendar days as its arguments
    show them, each in its own location: two values print the same if
    and only if their wall clocks fall on the same day.  For values in
    UTC this is the UTC day; there, truncating to 24 hours does not
    change what is printed, and moving by [n] days with [AddDate]
    changes it unless [n] is zero.  The same instant can print as
    different days in different locations: in a zone a positive offset
    of less than a day ahead of UTC it prints the day after the UTC day
    exactly when the offset carries its time of day past midnight. *)
Theorem X18_FormatDate_days (d1 d2 : DateUtils.Zoned) (t u : Time) (n : Z)
    (offset : Z) :
  (DateUtils.FormatDate d1 = DateUtils.FormatDate d2
   <-> unixDays (DateUtils.wall d1) = unixDays (DateUtils.wall d2)) /\
  (DateUtils.FormatDate (DateUtils.inUTC t)
     = DateUtils.FormatDate (DateUtils.inUTC u)
   <-> unixDays t = unixDays u) /\
  DateUtils.FormatDate (DateUtils.inUTC (Truncate t (24 * Hour)))
    = DateUtils.FormatDate (DateUtils.inUTC t) /\
  (DateUtils.FormatDate (DateUtils.inUTC (AddDate t 0 0 n))
     = DateUtils.FormatDate (DateUtils.inUTC t) <-> n = 0) /\
  (0 <= offset * Second < Day ->
   (DateUtils.FormatDate {| DateUtils.instant := t;
                            DateUtils.location := DateUtils.FixedZone offset |}
      <> DateUtils.FormatDate (DateUtils.inUTC t)
    <-> Day <= clockNanos t + offset * Second)).
Proof.
  unfold DateUtils.FormatDate. rewrite !wall_inUTC.
  split; [apply Format_inj|]. split; [apply Format_inj|]. split; [|split].
  - apply Format_inj. rewrite Truncate_day.
    replace (unixDays t * Day) with (0 + unixDays t * Day) by lia.
    rewrite unixDays_shift. reflexivity.
  - rewrite Format_inj, AddDate_days, unixDays_shift. lia.
  - intros Hoffset. rewrite Format_inj.
    unfold DateUtils.wall, DateUtils.FixedZone. cbn.
    unfold unixDays, clockNanos.
    pose proof (Z.div_mod t Day) as Ht.
    pose proof (Z.mod_pos_bound t Day) as Htm.
    set (o := offset * Second) in *.
    pose proof (Z.div_mod (t + o) Day) as Hw.
    pose proof (Z.mod_pos_bound (t + o) Day) as Hwm.
    rewrite Day_value in *. lia.
Qed.

Example ex_FormatDate_zones :
  let late := 20089 * Day + 23 * Hour in
  DateUtils.FormatDate (DateUtils.inUTC late) = "2025-01-01"%string
  /\ DateUtils.FormatDate
       {| DateUtils.instant := late;
          DateUtils.location := DateUtils.FixedZone 7200 |}
     = "2025-01-02"%string.
Proof. vm_compute. split; reflexivity. Qed.

End Dates.

(** ** The status label of the request metric *)

Section StatusLabel.

Lemma statusLabel_hundreds (code k : Z) :
  0 <= k -> 100 * k <= code < 100 * k + 100 ->
  Router.statusLabel code = fmt_d (48 + k) +:+ "xx".
Proof.
  intros Hk Hcode. unfold Router.statusLabel.
  rewrite Z.quot_div_nonneg by lia.
  replace (code / 100) with k by (Z.div_mod_to_equations; lia).
  reflexivity.
Qed.

(** X19.  The status label that [loggingMiddleware] attaches to the
    request counter is the decimal of 48 plus the hundreds of the status
    code, followed by ["xx"]: the codes 100 to 199 are counted under
    ["49xx"], 200 to 299 under ["50xx"], 300 to 399 under ["51xx"], 400
    to 499 under ["52xx"] and 500 to 599 under ["53xx"]. *)
Theorem X19_statusLabel (code : Z) :
  (100 <= code <= 199 -> Router.statusLabel code = "49xx"%string) /\
  (200 <= code <= 299 -> Router.statusLabel code = "50xx"%string) /\
  (300 <= code <= 399 -> Router.statusLabel code = "51xx"%string) /\
  (400 <= code <= 499 -> Router.statusLabel code = "52xx"%string) /\
  (500 <= code <= 599 -> Router.statusLabel code = "53xx"%string).
Proof.
  split; [|split; [|split; [|split]]]; intros H.
  - rewrite (statusLabel_hundreds code 1) by lia. reflexivity.
  - rewrite (statusLabel_hundreds code 2) by lia. reflexivity.
  - rewrite (statusLabel_hundreds code 3) by lia. reflexivity.
  - rewrite (statusLabel_hundreds code 4) by lia. reflexivity.
  - rewrite (statusLabel_hundreds code 5) by lia. reflexivity.
Qed.

End StatusLabel.

(** ** The service on the wired adapters *)

Section OnAdapters.
Import GoTime MemoryCache ExchangeAPI.

(** What one reading of the clock changes: the tick count. *)
Lemma time_Now_frame (w : World) :
  let w' := (time_Now w).2 in
  requests w' = requests w /\ cacheMap w' = cacheMap w
  /\ latestRates w' = latestRates w /\ cacheTTL w' = cacheTTL w
  /\ network w' = network w /\ baseURL w' = baseURL w /\ apiKey w' = apiKey w.
Proof. repeat split. Qed.

Lemma adapters_range_frame (request : HistoricalRateRequest.t) (w : World) :
  let out := adapters _ (RepoFetchHistoricalRates request) w in
  (exists rates, out.1 = Ok rates) /\
  requests out.2 = (requests w + rangeFuel request)%nat /\
  latestRates out.2 = latestRates w /\
  cacheMap out.2 = cacheMap w.
Proof.
  cbv zeta. pose proof (rangeFuel_bounds request) as [Hend Hin].
  cbn [adapters bind M_Monad]. unfold FetchHistoricalRates.
  cbn [bind M_Monad].
  rewrite (historicalLoop_trace request (rangeFuel request)
             (rangeFuel request) _ ∅ w (le_n _) Hend Hin).
  pose proof (dayOutcomes_frame (requestPair request)
                (daysFrom (HistoricalRateRequest.StartDate request)
                          (rangeFuel request)) w) as (Hm & Hc & Hr).
  rewrite length_daysFrom in Hr. cbn [fst snd ret M_Monad].
  split; [eexists; reflexivity|]. split; [exact Hr|]. split; assumption.
Qed.

(** X20.  On the wired adapters a range request never fails for the
    provider's sake: [GetHistoricalRates] answers with
    [ErrInvalidCurrency], [ErrDateOutOfRange] or [ErrInvalidDateRange],
    having sent no request, or it succeeds, having sent one request per
    day of the range, whatever those requests returned.  Either way it
    neither reads nor writes the cache or the memo of latest rates. *)
Theorem X20_range_on_adapters (request : HistoricalRateRequest.t) (w : World) :
  let out := run adapters (ExchangeService.GetHistoricalRates request) w in
  (forall e, out.1 = Err e ->
     e ∈ [ErrInvalidCurrency; ErrDateOutOfRange; ErrInvalidDateRange]
     /\ requests out.2 = requests w) /\
  (forall rates, out.1 = Ok rates ->
     requests out.2 = (requests w + rangeFuel request)%nat) /\
  cacheMap out.2 = cacheMap w /\
  latestRates out.2 = latestRates w.
Proof.
  cbv zeta. unfold ExchangeService.GetHistoricalRates.
  destruct (negb (IsSupported _) || negb (IsSupported _)).
  { cbn. split; [intros e [= <-]; split; [repeat constructor|reflexivity]|].
    split; [discriminate|]. split; reflexivity. }
  rewrite run_bind. unfold ExchangeService.validateDateRange.
  rewrite run_bind, validateDate_run. cbn [adapters].
  destruct (_ <? _).
  { cbn. split; [intros e [= <-]; split; [repeat constructor|reflexivity]|].
    split; [discriminate|]. split; reflexivity. }
  rewrite run_bind, validateDate_run. cbn [adapters].
  destruct (_ <? _).
  { cbn. split; [intros e [= <-]; split; [repeat constructor|reflexivity]|].
    split; [discriminate|]. split; reflexivity. }
  destruct (After _ _).
  { cbn. split; [intros e [= <-]; split; [repeat constructor|reflexivity]|].
    split; [discriminate|]. split; reflexivity. }
  cbn [run ret Prog_Monad]. rewrite run_bind, run_call.
  pose proof (adapters_range_frame request (time_Now (time_Now w).2).2)
    as ([rates Hok] & Hr & Hm & Hc).
  destruct (adapters _ (RepoFetchHistoricalRates request) _) as [r w1].
  cbn [fst snd] in *. subst r. cbn [run fst snd].
  split; [discriminate|]. split; [intros _ _; exact Hr|].
  split; assumption.
Qed.

Lemma Get_frame (pair : CurrencyPair.t) (date : Time) (w : World) :
  let w' := (Get pair date w).2 in
  requests w' = requests w /\ cacheMap w' = cacheMap w
  /\ latestRates w' = latestRates w /\ cacheTTL w' = cacheTTL w
  /\ network w' = network w /\ baseURL w' = baseURL w /\ apiKey w' = apiKey w.
Proof.
  cbv zeta. rewrite Get_unfold.
  destruct (cacheMap w !! _); repeat split.
Qed.

Lemma GetLatestRate_memo_run (from to : Currency) (w : World)
    (memoised : ExchangeRate.t) :
  IsSupported from = true -> IsSupported to = true ->
  latestRates w !! CurrencyPair_String (CurrencyPair.mk from to)
    = Some memoised ->
  let out := run adapters (ExchangeService.GetLatestRate from to) w in
  let today := Truncate (clock w (ticks w)) (24 * Hour) in
  let hit := (Get (CurrencyPair.mk from to) today (time_Now w).2).1 in
  requests out.2 = requests w /\
  latestRates out.2 = latestRates w /\
  match hit with
  | Some rate => out.1 = Ok rate /\ cacheMap out.2 = cacheMap w
  | None =>
      out.1 = Ok memoised /\
      cacheMap out.2 =
      <[getCacheKey (pairOf memoised) (ExchangeRate.Date memoised) := memoised]>
        (cacheMap w)
  end.
Proof.
  intros Hfrom Hto Hmemo. cbv zeta.
  unfold ExchangeService.GetLatestRate. rewrite Hfrom, Hto. cbn [negb orb].
  rewrite run_bind, run_call. cbn [adapters].
  change (time_Now w) with (clock w (ticks w), (time_Now w).2).
  cbn [fst snd]. rewrite run_bind, run_call. cbn [adapters].
  pose proof (Get_frame (CurrencyPair.mk from to)
                (Truncate (clock w (ticks w)) (24 * Hour)) (time_Now w).2)
    as (Hr & Hc & Hm & _).
  destruct (Get _ _ (time_Now w).2) as [[rate|] w1]; cbn [fst snd] in *.
  - cbn [run ret Prog_Monad fst snd]. repeat split; assumption.
  - rewrite run_bind, run_call. cbn [adapters].
    rewrite FetchLatestRate_unfold, Hm. cbn [time_Now snd latestRates].
    rewrite Hmemo. rewrite run_bind, run_call. cbn [adapters].
    cbn. split; [exact Hr|]. split; [exact Hm|]. split; [reflexivity|].
    rewrite Hc. reflexivity.
Qed.

(** X21.  While the provider's memo holds a rate for a supported pair,
    [GetLatestRate] on the wired adapters sends no request for that
    pair, whatever the clock reads and however old the memoised rate
    is.  It answers with a fresh entry of the cache if there is one
    under today's key, and otherwise with the memoised rate, which it
    then writes to the cache under the key of that rate's own date. *)
Theorem X21_GetLatestRate_memo (from to : Currency) (w : World)
    (memoised : ExchangeRate.t) :
  IsSupported from = true -> IsSupported to = true ->
  latestRates w !! CurrencyPair_String (CurrencyPair.mk from to)
    = Some memoised ->
  let out := run adapters (ExchangeService.GetLatestRate from to) w in
  let today := Truncate (clock w (ticks w)) (24 * Hour) in
  let hit := (Get (CurrencyPair.mk from to) today (time_Now w).2).1 in
  requests out.2 = requests w /\
  latestRates out.2 = latestRates w /\
  match hit with
  | Some rate => out.1 = Ok rate /\ cacheMap out.2 = cacheMap w
  | None =>
      out.1 = Ok memoised /\
      cacheMap out.2 =
      <[getCacheKey (pairOf memoised) (ExchangeRate.Date memoised) := memoised]>
        (cacheMap w)
  end.
Proof. apply GetLatestRate_memo_run. Qed.

Lemma X21_GetLatestRate_memo_witness :
  let w := (FetchLatestRate (CurrencyPair.mk EUR INR) liveWorld).2 in
  let out := run adapters (ExchangeService.GetLatestRate EUR INR) w in
  requests out.2 = 1%nat /\ rateOf out.1 = Ok 165%float.
Proof.
  cbv zeta.
  destruct (X21_GetLatestRate_memo EUR INR
              (FetchLatestRate (CurrencyPair.mk EUR INR) liveWorld).2
              (latestRateAt (CurrencyPair.mk EUR INR) 165%float
                 (afterRequest liveWorld))
              eq_refl eq_refl)
    as (Hr & _ & Hout).
  - vm_compute. reflexivity.
  - split; [rewrite Hr; vm_compute; reflexivity|].
    vm_compute. reflexivity.
Defined.

Lemma FetchHistoricalRate_rate (pair : CurrencyPair.t) (date : Time)
    (w : World) (rate : ExchangeRate.t) :
  (FetchHistoricalRate pair date w).1 = Ok rate ->
  pairOf rate = pair /\ ExchangeRate.Date rate = date.
Proof.
  rewrite FetchHistoricalRate_unfold.
  destruct (readQuotes _) as [quotes|err]; [|discriminate].
  destruct (extractHistoricalRate_cases quotes pair date (afterRequest w))
    as [[e He]|[x Hx]]; [rewrite He; discriminate|rewrite Hx].
  cbn [fst]. intros [= <-]. destruct pair. split; reflexivity.
Qed.

(** [GetHistoricalRate] on the adapters, step by step. *)
Lemma GetHistoricalRate_on_adapters (from to : Currency) (date : Time)
    (w : World) :
  let pair := CurrencyPair.mk from to in
  let day := Truncate date (24 * Hour) in
  let w1 := (time_Now w).2 in
  run adapters (ExchangeService.GetHistoricalRate from to date) w =
  if negb (IsSupported from) || negb (IsSupported to)
  then (Err ErrInvalidCurrency, w)
  else if date <? (unixDays (clock w (ticks w)) - 90) * Day
  then (Err ErrDateOutOfRange, w1)
  else match (Get pair day w1).1 with
       | Some rate => (Ok rate, (Get pair day w1).2)
       | None =>
           match (FetchHistoricalRate pair day (Get pair day w1).2).1 with
           | Err err =>
               (Err (ErrorfWV ErrExternalAPIFailure err),
                (FetchHistoricalRate pair day (Get pair day w1).2).2)
           | Ok rate =>
               (Ok rate,
                (Set_ rate (FetchHistoricalRate pair day (Get pair day w1).2).2).2)
           end
       end.
Proof.
  cbv zeta. unfold ExchangeService.GetHistoricalRate.
  destruct (negb (IsSupported from) || negb (IsSupported to)); [reflexivity|].
  rewrite run_bind, validateDate_run. cbn [adapters].
  change (time_Now w).1 with (clock w (ticks w)).
  destruct (date <? _); [reflexivity|].
  rewrite run_bind, run_call. cbn [adapters].
  destruct (Get _ _ (time_Now w).2) as [[rate|] w2]; [reflexivity|].
  cbn [fst snd]. rewrite run_bind, run_call. cbn [adapters].
  destruct (FetchHistoricalRate _ _ w2) as [[rate|err] w3]; [|reflexivity].
  cbn [fst snd]. rewrite run_bind, run_call. cbn [adapters].
  destruct (Set_ rate w3). reflexivity.
Qed.

(** X22.  A rate that [GetHistoricalRate] serves on the wired adapters
    is in the cache afterwards, under the key of the pair and the UTC
    day asked for, and serving it took at most one request.  Asking
    again is then answered from the cache with the same rate, at the
    cost of two clock readings and no request, provided the date is
    still within the ninety days and the entry is no older than the
    TTL when it is looked up. *)
Theorem X22_GetHistoricalRate_cached (from to : Currency) (date : Time)
    (w : World) (rate : ExchangeRate.t) :
  let first := run adapters (ExchangeService.GetHistoricalRate from to date) w in
  let key := getCacheKey (CurrencyPair.mk from to) (Truncate date (24 * Hour)) in
  first.1 = Ok rate ->
  cacheMap first.2 !! key = Some rate /\
  (requests first.2 <= S (requests w))%nat /\
  latestRates first.2 = latestRates w /\
  ((unixDays (clock first.2 (ticks first.2)) - 90) * Day <= date ->
   Sub (clock first.2 (S (ticks first.2))) (ExchangeRate.LastUpdated rate)
     <= cacheTTL first.2 ->
   run adapters (ExchangeService.GetHistoricalRate from to date) first.2
   = (Ok rate, (time_Now (time_Now first.2).2).2)).
Proof.
  cbv zeta. intros Hfirst.
  assert (Hsupp : negb (IsSupported from) || negb (IsSupported to) = false).
  { rewrite GetHistoricalRate_on_adapters in Hfirst. cbv zeta in Hfirst.
    destruct (negb (IsSupported from) || negb (IsSupported to));
      [discriminate Hfirst|reflexivity]. }
  assert (Hstored :
    cacheMap (run adapters (ExchangeService.GetHistoricalRate from to date) w).2
      !! getCacheKey (CurrencyPair.mk from to) (Truncate date (24 * Hour))
    = Some rate
    /\ (requests (run adapters
                    (ExchangeService.GetHistoricalRate from to date) w).2
        <= S (requests w))%nat
    /\ latestRates (run adapters
                      (ExchangeService.GetHistoricalRate from to date) w).2
       = latestRates w).
  { rewrite GetHistoricalRate_on_adapters in *. cbv zeta in *.
    rewrite Hsupp in *.
    destruct (date <? _); [discriminate Hfirst|].
    pose proof (Get_frame (CurrencyPair.mk from to)
                  (Truncate date (24 * Hour)) (time_Now w).2)
      as (Hr & Hc & Hm & _).
    destruct (Get _ _ (time_Now w).2) as [[hit|] w2] eqn:Hget;
      cbn [fst snd] in *.
    - injection Hfirst as <-.
      split; [|split; [rewrite Hr; cbn; lia|exact Hm]].
      rewrite Hc. apply (Get_hit_lookup _ _ (time_Now w).2).
      rewrite Hget. reflexivity.
    - pose proof (FetchHistoricalRate_frame (CurrencyPair.mk from to)
                    (Truncate date (24 * Hour)) w2) as (Hm' & Hc' & Hr').
      pose proof (FetchHistoricalRate_rate (CurrencyPair.mk from to)
                    (Truncate date (24 * Hour)) w2) as Hrate.
      destruct (FetchHistoricalRate _ _ w2) as [[fetched|err] w3];
        cbn [fst snd] in *; [|discriminate Hfirst].
      injection Hfirst as <-.
      destruct (Hrate fetched eq_refl) as [Hpair Hdate].
      split; [|split].
      + cbn. unfold pairOf in Hpair. injection Hpair as -> ->.
        rewrite Hdate. apply lookup_insert_eq.
      + cbn. rewrite Hr', Hr. cbn. lia.
      + cbn. rewrite Hm', Hm. reflexivity. }
  destruct Hstored as (Hkey & Hreq & Hmemo).
  split; [exact Hkey|]. split; [exact Hreq|]. split; [exact Hmemo|].
  set (w1 := (run adapters
                (ExchangeService.GetHistoricalRate from to date) w).2) in *.
  intros Hwindow Hfresh.
  rewrite GetHistoricalRate_on_adapters. cbv zeta. rewrite Hsupp.
  destruct (Z.ltb_spec date ((unixDays (clock w1 (ticks w1)) - 90) * Day));
    [lia|].
  rewrite Get_unfold. cbn [time_Now snd cacheMap clock ticks cacheTTL].
  rewrite Hkey.
  destruct (Z.ltb_spec (cacheTTL w1)
              (Sub (clock w1 (S (ticks w1))) (ExchangeRate.LastUpdated rate)));
    [lia|].
  reflexivity.
Qed.

Lemma X22_GetHistoricalRate_cached_witness :
  let first :=
    run adapters (ExchangeService.GetHistoricalRate USD INR (20089 * Day))
      flakyWorld in
  cacheMap first.2 !! "USD-INR-2025-01-01"%string = Some (rateOn 20089)
  /\ run adapters (ExchangeService.GetHistoricalRate USD INR (20089 * Day))
       first.2
     = (Ok (rateOn 20089), (time_Now (time_Now first.2).2).2).
Proof.
  cbv zeta.
  destruct (X22_GetHistoricalRate_cached USD INR (20089 * Day) flakyWorld
              (rateOn 20089))
    as (Hkey & _ & _ & Hagain).
  - vm_compute. reflexivity.
  - split.
    + exact Hkey.
    + apply Hagain; vm_compute; discriminate.
Defined.

Lemma extractAll_ttl (quotes : gmap string float) (pairs : list CurrencyPair.t) :
  forall w, cacheTTL (extractAll quotes pairs w).2 = cacheTTL w.
Proof.
  induction pairs as [|p pairs IH]; intros w; cbn [extractAll]; [reflexivity|].
  cbn [bind M_Monad].
  destruct (extractRate_cases quotes p w) as [[e He]|[x Hx]].
  - rewrite He. apply IH.
  - rewrite Hx, storeLatest_unfold. rewrite IH. reflexivity.
Qed.

Lemma RefreshRates_frame (w : World) :
  let w' := (RefreshRates w).2 in
  requests w' = S (requests w) /\ cacheMap w' = cacheMap w
  /\ cacheTTL w' = cacheTTL w.
Proof.
  cbv zeta. rewrite RefreshRates_unfold.
  destruct (readQuotes _) as [quotes|err]; [|repeat split].
  cbn [snd].
  pose proof (extractAll_memo quotes refreshPairs
                (afterRequest (set_latestRates (fun _ => ∅) w).2)
                refreshPairs_keys_NoDup) as (Hc & Hr & _).
  rewrite Hc, Hr, extractAll_ttl. repeat split.
Qed.

Lemma RefreshRates_on_adapters (w : World) :
  run adapters ExchangeService.RefreshRates w =
  match (RefreshRates w).1 with
  | Some err => (Some (ErrorfWV ErrExternalAPIFailure err), (RefreshRates w).2)
  | None => (None, (ClearExpired (RefreshRates w).2).2)
  end.
Proof.
  unfold ExchangeService.RefreshRates. rewrite run_bind, run_call.
  cbn [adapters]. destruct (RefreshRates w) as [[err|] w1]; [reflexivity|].
  cbn [fst snd]. rewrite run_bind, run_call. cbn [adapters].
  destruct (ClearExpired w1). reflexivity.
Qed.

(** X23.  The service's [RefreshRates] on the wired adapters sends
    exactly one request and leaves the memo as the provider's
    [RefreshRates] leaves it.  When the provider fails, the error wraps
    [ErrExternalAPIFailure] and the cache is not swept: every entry,
    expired or not, stays.  When the provider succeeds, the cache is
    swept at the clock reading that follows the refresh and holds
    afterwards exactly its entries that are no older than the TTL at
    that instant; the result of the sweep is never reported. *)
Theorem X23_RefreshRates_on_adapters (w : World) :
  let out := run adapters ExchangeService.RefreshRates w in
  let w1 := (RefreshRates w).2 in
  requests out.2 = S (requests w) /\
  latestRates out.2 = latestRates w1 /\
  match (RefreshRates w).1 with
  | Some err =>
      out.1 = Some (ErrorfWV ErrExternalAPIFailure err)
      /\ cacheMap out.2 = cacheMap w
  | None =>
      out.1 = None
      /\ forall k, cacheMap out.2 !! k
                   = swept (clock w1 (ticks w1)) (cacheTTL w) (cacheMap w) k
  end.
Proof.
  cbv zeta. rewrite RefreshRates_on_adapters.
  pose proof (RefreshRates_frame w) as (Hr & Hc & Httl).
  destruct (RefreshRates w) as [[err|] w1]; cbn [fst snd] in *.
  - repeat split; assumption.
  - split; [exact Hr|]. split; [reflexivity|]. split; [reflexivity|].
    intros k. cbn. rewrite sweep_lookup, Hc, Httl. reflexivity.
Qed.

Lemma keyed_same (w w' : World) :
  cacheMap w' = cacheMap w -> latestRates w' = latestRates w ->
  keyed w -> keyed w'.
Proof. unfold keyed. intros -> ->. exact (fun H => H). Qed.

Lemma GetLatestRate_keyed (from to : Currency) (w : World) :
  keyed w ->
  let out := run adapters (ExchangeService.GetLatestRate from to) w in
  keyed out.2 /\
  (forall rate, out.1 = Ok rate ->
     pairOf rate = CurrencyPair.mk from to /\ supportedRate rate).
Proof.
  intros Hinv. cbv zeta. unfold ExchangeService.GetLatestRate.
  destruct (IsSupported from) eqn:Hfrom; [|split; [exact Hinv|discriminate]].
  destruct (IsSupported to) eqn:Hto; [|split; [exact Hinv|discriminate]].
  cbn [negb orb]. rewrite run_bind, run_call. cbn [adapters].
  change (time_Now w) with (clock w (ticks w), (time_Now w).2).
  cbn [fst snd]. rewrite run_bind, run_call. cbn [adapters].
  pose proof (Get_frame (CurrencyPair.mk from to)
                (Truncate (clock w (ticks w)) (24 * Hour)) (time_Now w).2)
    as (_ & Hc & Hm & _).
  assert (Hinv2 : keyed (Get (CurrencyPair.mk from to)
                   (Truncate (clock w (ticks w)) (24 * Hour)) (time_Now w).2).2)
    by (apply (keyed_same w); assumption).
  pose proof (Get_hit_pair (CurrencyPair.mk from to)
                (Truncate (clock w (ticks w)) (24 * Hour)) (time_Now w).2)
    as Hhit.
  pose proof (Get_hit_lookup (CurrencyPair.mk from to)
                (Truncate (clock w (ticks w)) (24 * Hour)) (time_Now w).2)
    as Hlook.
  destruct (Get _ _ (time_Now w).2) as [[hit|] w2]; cbn [fst snd] in *.
  - cbn [run ret Prog_Monad fst snd]. split; [exact Hinv2|].
    intros rate [= <-]. split.
    + apply (Hhit hit (proj1 Hinv) Hfrom Hto eq_refl).
    + apply (proj1 Hinv _ _ (Hlook hit eq_refl)).
  - rewrite run_bind, run_call. cbn [adapters].
    pose proof (FetchLatestRate_keyed (CurrencyPair.mk from to) w2
                  (proj2 Hinv2) Hfrom Hto) as (Hmemo & Hcache & Hpair).
    destruct (FetchLatestRate _ w2) as [[rate|err] w3]; cbn [fst snd] in *.
    + rewrite run_bind, run_call. cbn [adapters].
      assert (Hrate : supportedRate rate).
      { specialize (Hpair rate eq_refl). unfold pairOf in Hpair.
        injection Hpair as Hb Ht. split; congruence. }
      split.
      * split; [|exact Hmemo].
        apply cacheKeyed_Set; [exact Hrate|]. rewrite Hcache. apply Hinv2.
      * intros r [= <-]. split; [apply Hpair; reflexivity|exact Hrate].
    + cbn [run ret Prog_Monad fst snd]. split; [|discriminate].
      split; [rewrite Hcache; apply Hinv2|exact Hmemo].
Qed.

Lemma GetHistoricalRate_keyed (from to : Currency) (date : Time) (w : World) :
  keyed w ->
  let out := run adapters (ExchangeService.GetHistoricalRate from to date) w in
  keyed out.2 /\
  (forall rate, out.1 = Ok rate ->
     pairOf rate = CurrencyPair.mk from to
     /\ unixDays (ExchangeRate.Date rate) = unixDays date).
Proof.
  intros Hinv. cbv zeta. rewrite GetHistoricalRate_on_adapters. cbv zeta.
  destruct (IsSupported from) eqn:Hfrom; [|split; [exact Hinv|discriminate]].
  destruct (IsSupported to) eqn:Hto; [|split; [exact Hinv|discriminate]].
  cbn [negb orb].
  destruct (date <? _); [split; [exact Hinv|discriminate]|].
  pose proof (Get_frame (CurrencyPair.mk from to)
                (Truncate date (24 * Hour)) (time_Now w).2)
    as (_ & Hc & Hm & _).
  assert (Hinv2 : keyed (Get (CurrencyPair.mk from to)
                   (Truncate date (24 * Hour)) (time_Now w).2).2)
    by (apply (keyed_same w); assumption).
  pose proof (Get_hit_pair (CurrencyPair.mk from to)
                (Truncate date (24 * Hour)) (time_Now w).2) as Hhit.
  assert (Hday : unixDays (Truncate date (24 * Hour)) = unixDays date).
  { rewrite Truncate_day.
    replace (unixDays date * Day) with (0 + unixDays date * Day) by lia.
    rewrite unixDays_shift. reflexivity. }
  destruct (Get _ _ (time_Now w).2) as [[hit|] w2]; cbn [fst snd] in *.
  - split; [exact Hinv2|]. intros rate [= <-].
    destruct (Hhit hit (proj1 Hinv) Hfrom Hto eq_refl) as [Hp Hd].
    split; [exact Hp|]. rewrite Hd. exact Hday.
  - pose proof (FetchHistoricalRate_frame (CurrencyPair.mk from to)
                  (Truncate date (24 * Hour)) w2) as (Hm' & Hc' & _).
    pose proof (FetchHistoricalRate_rate (CurrencyPair.mk from to)
                  (Truncate date (24 * Hour)) w2) as Hrate.
    destruct (FetchHistoricalRate _ _ w2) as [[rate|err] w3];
      cbn [fst snd] in *.
    + destruct (Hrate rate eq_refl) as [Hp Hd].
      assert (Hsupp : supportedRate rate).
      { unfold pairOf in Hp. injection Hp as Hb Ht. split; congruence. }
      split.
      * split.
        -- apply cacheKeyed_Set; [exact Hsupp|]. rewrite Hc'. apply Hinv2.
        -- cbn. rewrite Hm'. apply Hinv2.
      * intros r [= <-]. split; [exact Hp|]. rewrite Hd. exact Hday.
    + split; [|discriminate].
      apply (keyed_same w2); assumption.
Qed.

(** X24.  The wired service keeps both stores keyed and never serves a
    rate for something else than was asked.  If every entry of the
    cache and of the memo is a rate between supported currencies filed
    under the key of its own pair (and date), as in the empty stores
    [main] starts from, then this still holds after any of the five
    operations of the service, whatever the network answered; a rate
    that [GetLatestRate] returns is a rate of the pair asked for, and a
    rate that [GetHistoricalRate] returns is a rate of the pair asked
    for dated on the UTC day asked for. *)
Theorem X24_service_keeps_keying (w : World) :
  keyed w ->
  (forall from to,
     let out := run adapters (ExchangeService.GetLatestRate from to) w in
     keyed out.2 /\
     (forall rate, out.1 = Ok rate -> pairOf rate = CurrencyPair.mk from to)) /\
  (forall from to date,
     let out := run adapters (ExchangeService.GetHistoricalRate from to date) w in
     keyed out.2 /\
     (forall rate, out.1 = Ok rate ->
        pairOf rate = CurrencyPair.mk from to
        /\ unixDays (ExchangeRate.Date rate) = unixDays date)) /\
  (forall request,
     keyed (run adapters (ExchangeService.GetHistoricalRates request) w).2) /\
  (forall request,
     keyed (run adapters (ExchangeService.ConvertCurrency request) w).2) /\
  keyed (run adapters ExchangeService.RefreshRates w).2.
Proof.
  intros Hinv. split; [|split; [|split; [|split]]].
  - intros from to. cbv zeta.
    destruct (GetLatestRate_keyed from to w Hinv) as [Hk Hp].
    split; [exact Hk|]. intros rate Hr. apply (Hp rate Hr).
  - intros from to date. apply GetHistoricalRate_keyed, Hinv.
  - intros request.
    assert (Hframe :
      cacheMap (run adapters (ExchangeService.GetHistoricalRates request) w).2
        = cacheMap w
      /\ latestRates
           (run adapters (ExchangeService.GetHistoricalRates request) w).2
         = latestRates w).
    { unfold ExchangeService.GetHistoricalRates.
      destruct (negb (IsSupported _) || negb (IsSupported _)); [split; reflexivity|].
      rewrite run_bind. unfold ExchangeService.validateDateRange.
      rewrite run_bind, validateDate_run. cbn [adapters].
      destruct (_ <? _); [split; reflexivity|].
      rewrite run_bind, validateDate_run. cbn [adapters].
      destruct (_ <? _); [split; reflexivity|].
      destruct (After _ _); [split; reflexivity|].
      cbn [run ret Prog_Monad]. rewrite run_bind, run_call.
      pose proof (adapters_range_frame request (time_Now (time_Now w).2).2)
        as (_ & _ & Hm & Hc).
      destruct (adapters _ (RepoFetchHistoricalRates request) _) as [[r|e] w1];
        cbn [fst snd] in *; split; assumption. }
    destruct Hframe as [Hc Hm]. apply (keyed_same w); assumption.
  - intros request. unfold ExchangeService.ConvertCurrency. cbv zeta.
    destruct (negb (IsSupported _) || negb (IsSupported _)); [exact Hinv|].
    destruct (PrimFloat.leb _ _); [exact Hinv|].
    rewrite run_bind.
    destruct (negb (IsZero _)).
    + rewrite run_bind, validateDate_run. cbn [adapters].
      destruct (_ <? _); [exact Hinv|].
      assert (Hinv1 : keyed (time_Now w).2) by exact Hinv.
      pose proof (GetHistoricalRate_keyed
                    (ConversionRequest.FromCurrency request)
                    (ConversionRequest.ToCurrency request)
                    (ConversionRequest.Date request) _ Hinv1) as [Hk _].
      destruct (run adapters (ExchangeService.GetHistoricalRate _ _ _) _)
        as [[rate|err] w1]; exact Hk.
    + pose proof (GetLatestRate_keyed
                    (ConversionRequest.FromCurrency request)
                    (ConversionRequest.ToCurrency request) w Hinv) as [Hk _].
      destruct (run adapters (ExchangeService.GetLatestRate _ _) w)
        as [[rate|err] w1]; exact Hk.
  - rewrite RefreshRates_on_adapters.
    pose proof (RefreshRates_frame w) as (_ & Hc & _).
    pose proof (memoKeyed_RefreshRates w) as Hm.
    destruct (RefreshRates w) as [[err|] w1]; cbn [fst snd] in *.
    + split; [rewrite Hc; apply Hinv|exact Hm].
    + split; [|exact Hm].
      apply cacheKeyed_ClearExpired. rewrite Hc. apply Hinv.
Qed.

Lemma X24_service_keeps_keying_witness :
  let w := newWorld (30 * Minute) "https://api.exchangerate.host" ""
             (fun _ => sampleNoon) (network liveWorld) in
  keyed (run adapters (ExchangeService.GetLatestRate EUR INR) w).2
  /\ keyed (run adapters ExchangeService.RefreshRates w).2.
Proof.
  cbv zeta.
  destruct (X24_service_keeps_keying
              (newWorld (30 * Minute) "https://api.exchangerate.host" ""
                 (fun _ => sampleNoon) (network liveWorld))
              (conj cacheKeyed_empty memoKeyed_empty))
    as (Hlatest & _ & _ & _ & Hrefresh).
  split; [apply (Hlatest EUR INR)|exact Hrefresh].
Defined.

(** X27.  A refresh pays for the latest rates that follow it.  When
    the service's [RefreshRates] on the wired adapters gets the quote
    table, then for every pair of distinct supported currencies that the
    table resolves, a [GetLatestRate] that follows sends no request and
    succeeds: it answers with a fresh entry of the cache under today's
    key if there is one, and otherwise with the rate the refresh
    resolved from the table. *)
Theorem X27_refresh_then_latest (w : World) (quotes : gmap string float)
    (base target : Currency) (x : float) :
  readQuotes (network w (requests w) (liveURL (baseURL w) (apiKey w)))
    = Ok quotes ->
  IsSupported base = true -> IsSupported target = true -> base <> target ->
  rateOf (extractRate quotes (CurrencyPair.mk base target) w).1 = Ok x ->
  let w1 := (run adapters ExchangeService.RefreshRates w).2 in
  let out := run adapters (ExchangeService.GetLatestRate base target) w1 in
  let today := Truncate (clock w1 (ticks w1)) (24 * Hour) in
  requests w1 = S (requests w) /\
  requests out.2 = requests w1 /\
  match (Get (CurrencyPair.mk base target) today (time_Now w1).2).1 with
  | Some rate => out.1 = Ok rate
  | None => rateOf out.1 = Ok x
  end.
Proof.
  intros Hout Hb Ht Hd Hx. cbv zeta.
  pose proof (RefreshRates_memo_complete w quotes base target Hout Hb Ht Hd)
    as Hmemo.
  rewrite Hx in Hmemo. destruct Hmemo as (rate & Hrate & _ & Hvalue).
  assert (Hnone : (RefreshRates w).1 = None)
    by (rewrite RefreshRates_unfold, Hout; reflexivity).
  pose proof (RefreshRates_frame w) as (Hreq & _).
  rewrite RefreshRates_on_adapters, Hnone. cbn [snd].
  set (w1 := (ClearExpired (RefreshRates w).2).2).
  assert (Hrate1 : latestRates w1
                     !! CurrencyPair_String (CurrencyPair.mk base target)
                   = Some rate) by exact Hrate.
  pose proof (GetLatestRate_memo_run base target w1 rate Hb Ht Hrate1)
    as (Hquiet & _ & Hanswer).
  split; [exact Hreq|]. split; [exact Hquiet|].
  destruct (Get _ _ (time_Now w1).2).1 as [hit|].
  - apply Hanswer.
  - destruct Hanswer as [-> _]. cbn [rateOf]. rewrite Hvalue. reflexivity.
Qed.

Lemma X27_refresh_then_latest_witness :
  let w1 := (run adapters ExchangeService.RefreshRates liveWorld).2 in
  let out := run adapters (ExchangeService.GetLatestRate EUR INR) w1 in
  requests w1 = 1%nat /\ requests out.2 = 1%nat /\ rateOf out.1 = Ok 165%float.
Proof.
  cbv zeta.
  destruct (X27_refresh_then_latest liveWorld liveQuotes EUR INR 165%float)
    as (Hr & Hq & Hout); try reflexivity; [discriminate|].
  split; [exact Hr|]. split; [rewrite Hq; exact Hr|].
  vm_compute in Hout. vm_compute. exact Hout.
Defined.

End OnAdapters.

(** ** The order of the checks of a range request *)

Section RangeValidation.
Import GoTime ExchangeService.

(** X25.  For supported currencies [GetHistoricalRates] checks, in this
    order, the start date against the ninety-day window with a first
    reading of the clock, the end date against the window with a second
    reading, and that the start is not after the end.  The first check
    that fails decides the error and nothing further is called, so a
    range that is both too old and inverted is reported as out of
    range.  The provider is called once, and only when all three checks
    pass; its rates are passed on and its error is wrapped in
    [ErrExternalAPIFailure]. *)
Theorem X25_range_validation {S : Type} (h : forall X, Call X -> S -> X * S)
    (request : HistoricalRateRequest.t) (s : S) :
  let startDate := HistoricalRateRequest.StartDate request in
  let endDate := HistoricalRateRequest.EndDate request in
  let first := h _ TimeNow s in
  let second := h _ TimeNow first.2 in
  let fetched := h _ (RepoFetchHistoricalRates request) second.2 in
  IsSupported (HistoricalRateRequest.BaseCurrency request) = true ->
  IsSupported (HistoricalRateRequest.TargetCurrency request) = true ->
  run h (GetHistoricalRates request) s =
  if startDate <? (unixDays first.1 - 90) * Day
  then (Err ErrDateOutOfRange, first.2)
  else if endDate <? (unixDays second.1 - 90) * Day
  then (Err ErrDateOutOfRange, second.2)
  else if endDate <? startDate
  then (Err ErrInvalidDateRange, second.2)
  else (match fetched.1 with
        | Ok rates => Ok rates
        | Err err => Err (ErrorfWV ErrExternalAPIFailure err)
        end, fetched.2).
Proof.
  cbv zeta. intros Hbase Htarget. unfold GetHistoricalRates.
  rewrite Hbase, Htarget. cbn [negb orb].
  rewrite run_bind. unfold validateDateRange.
  rewrite run_bind, validateDate_run.
  destruct (_ <? _); [reflexivity|].
  rewrite run_bind, validateDate_run.
  destruct (_ <? _); [reflexivity|].
  unfold After. destruct (_ <? _); [reflexivity|].
  cbn [run ret Prog_Monad]. rewrite run_bind, run_call.
  destruct (h _ (RepoFetchHistoricalRates request) _) as [[rates|err] s3];
    reflexivity.
Qed.

Lemma X25_range_validation_witness :
  run (mockPorts sampleNoon None (Err (Errorf "API error")))
      (GetHistoricalRates
         (HistoricalRateRequest.mk USD INR (20091 * Day) (20000 * Day))) tt
  = (Err ErrDateOutOfRange, tt)
  /\ run (mockPorts sampleNoon None (Err (Errorf "API error")))
         (GetHistoricalRates threeDays) tt
     = (Err (ErrorfWV ErrExternalAPIFailure (Errorf "API error")), tt).
Proof.
  split.
  - exact (X25_range_validation
             (mockPorts sampleNoon None (Err (Errorf "API error")))
             (HistoricalRateRequest.mk USD INR (20091 * Day) (20000 * Day)) tt
             eq_refl eq_refl).
  - exact (X25_range_validation
             (mockPorts sampleNoon None (Err (Errorf "API error")))
             threeDays tt eq_refl eq_refl).
Defined.

End RangeValidation.

(** ** The configuration *)

Section Configuration.
Import GoTime Config.
Variable Getenv : string -> string.
Variable strconv_Atoi : string -> result Z.
Variable time_ParseDuration : string -> result Duration.

Lemma getEnvInt_fallback (key : string) (defaultValue : Z) :
  unusable Getenv strconv_Atoi key ->
  getEnvInt Getenv strconv_Atoi key defaultValue = defaultValue.
Proof.
  unfold getEnvInt. intros [Hempty|[e He]].
  - rewrite Hempty. reflexivity.
  - rewrite He. destruct (String.eqb _ _); reflexivity.
Qed.

Lemma getEnvDuration_fallback (key : string) (defaultValue : Duration) :
  unusable Getenv time_ParseDuration key ->
  getEnvDuration Getenv time_ParseDuration key defaultValue = defaultValue.
Proof.
  unfold getEnvDuration. intros [Hempty|[e He]].
  - rewrite Hempty. reflexivity.
  - rewrite He. destruct (String.eqb _ _); reflexivity.
Qed.

(** X26.  [LoadConfig] never fails, and a setting that cannot be used
    is replaced by its default without a word in the result: when each
    numeric or duration variable is unset, empty or unparsable and the
    two string variables are unset or empty, the configuration is the
    default one (port 8080, timeouts of 5, 10 and 120 seconds, the
    public base URL, no key, a 10 second request timeout, an hourly
    refresh and a 30 minute TTL). *)
Theorem X26_LoadConfig_fallback :
  unusable Getenv strconv_Atoi "SERVER_PORT" ->
  (forall key,
     key ∈ ["SERVER_READ_TIMEOUT"; "SERVER_WRITE_TIMEOUT";
            "SERVER_IDLE_TIMEOUT"; "EXCHANGE_API_TIMEOUT";
            "EXCHANGE_API_REFRESH_RATE"; "CACHE_TTL"]%string ->
     unusable Getenv time_ParseDuration key) ->
  Getenv "EXCHANGE_API_BASE_URL" = ""%string ->
  Getenv "EXCHANGE_API_KEY" = ""%string ->
  (exists config, LoadConfig Getenv strconv_Atoi time_ParseDuration = Ok config) /\
  LoadConfig Getenv strconv_Atoi time_ParseDuration = Ok defaultConfig.
Proof.
  intros Hport Hdur Hurl Hkey. split; [eexists; reflexivity|].
  unfold LoadConfig, defaultConfig.
  rewrite getEnvInt_fallback by exact Hport.
  rewrite !getEnvDuration_fallback by (apply Hdur; repeat constructor).
  unfold getEnvString. rewrite Hurl, Hkey. reflexivity.
Qed.

End Configuration.

Lemma X26_LoadConfig_fallback_witness :
  Config.LoadConfig
    (fun key => if String.eqb key "CACHE_TTL" then "soon" else "")%string
    (fun _ => Err (Errorf "invalid syntax"))
    (fun _ => Err (Errorf "invalid duration"))
  = Ok defaultConfig.
Proof.
  apply (X26_LoadConfig_fallback
           (fun key => if String.eqb key "CACHE_TTL" then "soon" else "")%string
           (fun _ => Err (Errorf "invalid syntax"))
           (fun _ => Err (Errorf "invalid duration"))).
  - left. reflexivity.
  - intros key _. right. eexists. reflexivity.
  - reflexivity.
  - reflexivity.
Defined.
